(** * usbRecord-V2.py: a shallow embedding and its checked properties

    The development follows the layout of the script:

    - [Py]: the few pieces of Python the script relies on (values and
      [str()], [divmod], the [02d]/[03d] format specs, [os.path.join],
      the exception classes that the handlers tell apart);
    - [format_time] and [draw_timestamp];
    - the outside world (log, file system, capture handles), the
      [USBRecord] object and its methods [open_record_camera],
      [start_record], [start_time_mark], [stop_record], [video_slice],
      [release_camera] and [__del__];
    - [create_directory], [show_and_select_camera] and the preview
      [show_live_camera];
    - the recording loop once more, at the grain of single attribute
      stores and with binary64 clock arithmetic ([Threads]), and
      [start_record] with a writer that may have failed to open ([Disk]);
    - the theorems, grouped by method, and their instances on concrete
      runs.

    [logging_init], [start_thread] and the example under [__main__] are
    not covered.

    Conventions.

    - Time.  [time.time()] yields a float number of seconds.  In the first
      model of the loop and in the preview, clock readings are exact
      rationals ([Q]) and float rounding is left out; nothing is assumed
      about successive readings.  In [Threads] the readings are binary64
      numbers and the arithmetic on them is the machine's.
    - Threads.  The recording loop runs on its own thread while the
      controlling thread calls [start_time_mark] and [stop_record] on the
      same object.  A run of the loop is driven by a schedule that lists,
      for every iteration, what the controlling thread did, the result of
      [camera.read()] and the clock readings the iteration obtains.  In
      the first model each call of the controlling thread acts on the
      object as a whole, before the iteration reads any attribute; in
      [Threads] a call is the sequence of its attribute stores, and each
      store lands between two attribute accesses of the loop.
    - Files.  [cv2.imwrite] is taken to store what it is handed.  In the
      first model the container at the path of the video sink stands for
      the frames handed to [writer.write]; [Disk] tells a writer that
      opened from one that did not. *)

From Stdlib Require Import ZArith QArith Ascii String List Lia Bool Floats.
From Stdlib Require Import DecimalString DecimalN DecimalFacts.
From stdpp Require Import gmap strings list fin_maps.

Local Open Scope Z_scope.

(* ===================================================================== *)
(** * Python preliminaries *)
(* ===================================================================== *)

Module Py.

(** The exception classes the script's handlers distinguish.  [SystemExit]
    and [KeyboardInterrupt] derive from [BaseException] only, so an
    [except Exception] clause lets them through. *)
Inductive Exc : Type :=
| SystemExit (code : Z)
| KeyboardInterrupt
| AttributeError
| RuntimeError
| TypeError
| OtherException.

Definition is_Exception (e : Exc) : bool :=
  match e with
  | SystemExit _ | KeyboardInterrupt => false
  | AttributeError | RuntimeError | TypeError | OtherException => true
  end.

(** What a call produces: a returned value or a raised exception. *)
Inductive Outcome (A : Type) : Type :=
| Returns (a : A)
| Raises (e : Exc).
Arguments Returns {A} a.
Arguments Raises {A} e.

(** The values passed for [test_case_name] and [count], and the value a
    method hands back to its caller. *)
Inductive Val : Type :=
| VNone
| VInt (n : Z)
| VStr (s : string).

(** [divmod(a, b)] on integers: floor division and the matching remainder. *)
Definition divmod (a b : Z) : Z * Z := (a / b, a mod b).

(** Decimal digits of a natural number, most significant first. *)
Definition dec_digits (n : N) : string :=
  NilEmpty.string_of_uint (N.to_uint n).

(** [str(n)] for an integer. *)
Definition str_int (n : Z) : string :=
  match n with
  | Zneg p => String "-" (dec_digits (Npos p))
  | _ => dec_digits (Z.to_N n)
  end.

(** [str(v)], as used by an f-string replacement field without format spec. *)
Definition str (v : Val) : string :=
  match v with
  | VNone => "None"
  | VInt n => str_int n
  | VStr s => s
  end.

Fixpoint zeros (k : nat) : string :=
  match k with
  | O => EmptyString
  | S k' => String "0" (zeros k')
  end.

(** Left padding with ['0'] up to width [w]; longer strings are kept whole. *)
Definition zfill (w : nat) (ds : string) : string :=
  zeros (w - String.length ds) +:+ ds.

(** The format spec [0<w>d]: minimum width [w], zero padded, the sign (if
    any) first and counted in the width. *)
Definition format_0d (w : nat) (n : Z) : string :=
  match n with
  | Zneg p => String "-" (zfill (w - 1) (dec_digits (Npos p)))
  | _ => zfill w (dec_digits (Z.to_N n))
  end.

(** [os.path.join(a, b)] (POSIX flavour): an absolute [b] discards [a]; an
    empty [a] or one that ends with the separator takes [b] directly. *)
Definition sep : ascii := "/"%char.

Fixpoint ends_with_sep (s : string) : bool :=
  match s with
  | EmptyString => false
  | String c EmptyString => Ascii.eqb c sep
  | String _ rest => ends_with_sep rest
  end.

Definition starts_with_sep (s : string) : bool :=
  match s with
  | String c _ => Ascii.eqb c sep
  | EmptyString => false
  end.

Definition path_join (a b : string) : string :=
  if starts_with_sep b then b
  else if (String.length a =? 0)%nat || ends_with_sep a then a +:+ b
  else a +:+ String sep b.

(** [int(x)] on a real number: truncation towards zero. *)
Definition int_of_Q (x : Q) : Z := Z.quot (Qnum x) (Zpos (Qden x)).

End Py.

(* ===================================================================== *)
(** * [format_time] and [draw_timestamp] (lines 107-146) *)
(* ===================================================================== *)

(** [format_time(times)]: seconds and milliseconds first, then hours, then
    minutes and seconds, each by [divmod]. *)
Definition format_time (times : Z) : string :=
  let '(seconds, ms) := Py.divmod times 1000 in
  let '(hours, remainder) := Py.divmod seconds 3600 in
  let '(minutes, seconds) := Py.divmod remainder 60 in
  Py.format_0d 2 hours +:+ ":" +:+ Py.format_0d 2 minutes +:+ ":" +:+
  Py.format_0d 2 seconds +:+ "." +:+ Py.format_0d 3 ms.

(** Recogniser for the pattern [^\d{2}:\d{2}:\d{2}\.\d{3}$]. *)
Definition is_digit (c : ascii) : bool :=
  (48 <=? nat_of_ascii c)%nat && (nat_of_ascii c <=? 57)%nat.

Definition matches_hms_pattern (s : string) : bool :=
  match list_ascii_of_string s with
  | [h1; h2; c1; m1; m2; c2; s1; s2; c3; x1; x2; x3] =>
      is_digit h1 && is_digit h2 && Ascii.eqb c1 ":" &&
      is_digit m1 && is_digit m2 && Ascii.eqb c2 ":" &&
      is_digit s1 && is_digit s2 && Ascii.eqb c3 "." &&
      is_digit x1 && is_digit x2 && is_digit x3
  | _ => false
  end.

(** Reading a label back.  The script has no parser; this one follows the
    label layout: the text before the first [":"] is the hours, then the
    minutes up to the next [":"], the seconds up to ["."], and the
    milliseconds; the fields are recombined arithmetically. *)
Fixpoint split_at (c : ascii) (s : string) : option (string * string) :=
  match s with
  | EmptyString => None
  | String a rest =>
      if Ascii.eqb a c then Some (EmptyString, rest)
      else match split_at c rest with
           | Some (l, r) => Some (String a l, r)
           | None => None
           end
  end.

Definition parse_field (s : string) : option Z :=
  match s with
  | EmptyString => None
  | _ => match NilEmpty.uint_of_string s with
         | Some d => Some (Z.of_N (N.of_uint d))
         | None => None
         end
  end.

Definition parse_time (s : string) : option Z :=
  match split_at ":" s with
  | Some (hh, r1) =>
    match split_at ":" r1 with
    | Some (mm, r2) =>
      match split_at "." r2 with
      | Some (ss, xxx) =>
        match parse_field hh, parse_field mm, parse_field ss, parse_field xxx with
        | Some h, Some m, Some sec, Some ms =>
            Some (((h * 60 + m) * 60 + sec) * 1000 + ms)
        | _, _, _, _ => None
        end
      | None => None
      end
    | None => None
    end
  | None => None
  end.

(** A frame: the pixel payload as delivered by the device, and the texts
    drawn onto it so far, each with its origin. *)
Record Frame : Type := mkFrame {
  frame_pixels : Z;
  frame_texts : list (string * (Z * Z))
}.

(** [draw_timestamp(frame, timestamp_text)]: draws at the fixed origin
    [(10, 30)]; the frame is changed in place, which is rendered here by
    handing the changed frame back. *)
Definition draw_timestamp (frame : Frame) (timestamp_text : string) : Frame :=
  let text_origin := (10, 30) in
  {| frame_pixels := frame_pixels frame;
     frame_texts := frame_texts frame ++ [(timestamp_text, text_origin)] |}.

(* ===================================================================== *)
(** * The outside world: log, file system, capture handles *)
(* ===================================================================== *)

Inductive Level : Type := INFO | WARNING | ERROR.

(** A log record.  Where the script interpolates the text of a caught
    exception ([{e}]), only the fixed part of the message is kept. *)
Definition LogRecord : Type := (Level * string)%type.

(** What a path may hold: a video container with its decodable frames in
    order, a still image, or something that no decoder accepts. *)
Inductive File : Type :=
| VideoFile (frames : list Frame)
| ImageFile (image : Frame)
| OtherFile.

Record World : Type := mkWorld {
  w_log : list LogRecord;
  w_files : gmap string File;
  w_dirs : gset string
}.

Definition log (lvl : Level) (msg : string) (w : World) : World :=
  {| w_log := w_log w ++ [(lvl, msg)];
     w_files := w_files w;
     w_dirs := w_dirs w |}.

Definition put_file (path : string) (f : File) (w : World) : World :=
  {| w_log := w_log w;
     w_files := <[path := f]> (w_files w);
     w_dirs := w_dirs w |}.

(** [os.path.exists(path)] and [os.makedirs(path)]. *)
Definition path_exists (path : string) (w : World) : bool :=
  bool_decide (path ∈ w_dirs w) || bool_decide (is_Some (w_files w !! path)).

Definition makedirs (path : string) (w : World) : World :=
  {| w_log := w_log w;
     w_files := w_files w;
     w_dirs := {[path]} ∪ w_dirs w |}.

(** The frames stored in the container at [path] ([[]] when there is none). *)
Definition video_frames (path : string) (w : World) : list Frame :=
  match w_files w !! path with
  | Some (VideoFile frames) => frames
  | _ => []
  end.

(** [cv2.VideoWriter(path, ...)] starts an empty container; [writer.write]
    appends one frame to it.  The container at [path] stands for the
    frames handed to the writer: the sink is taken to accept every frame
    (the script never asks it whether it did).  A writer that failed to
    open is the subject of [Disk] below. *)
Definition writer_open (path : string) (w : World) : World :=
  put_file path (VideoFile []) w.

Definition writer_write (path : string) (frame : Frame) (w : World) : World :=
  put_file path (VideoFile (video_frames path w ++ [frame])) w.

(** [cv2.imwrite(path, frame)], taken to succeed. *)
Definition imwrite (path : string) (frame : Frame) (w : World) : World :=
  put_file path (ImageFile frame) w.

(** A [cv2.VideoCapture] handle on a camera: whether it is open, and how
    many times [release()] has been invoked on it. *)
Record Capture : Type := mkCapture {
  cap_opened : bool;
  cap_release_calls : nat
}.

Definition cap_release (c : Capture) : Capture :=
  {| cap_opened := false; cap_release_calls := S (cap_release_calls c) |}.

(** What the device answers when [open_record_camera] probes it. *)
Record Device : Type := mkDevice {
  dev_construct_raises : bool;   (* [cv2.VideoCapture(index)] raises *)
  dev_opened_on_construct : bool;
  dev_opened_on_retry : bool;    (* result of the explicit [open(index)] *)
  dev_width : Z;                 (* [int(get(CAP_PROP_FRAME_WIDTH))] *)
  dev_height : Z;
  dev_fps : Z
}.

(* ===================================================================== *)
(** * The [USBRecord] object (lines 149-174) *)
(* ===================================================================== *)

Record USBRecord : Type := mkUSBRecord {
  device_index : Z;
  frame_resolution : Z * Z;
  frame_rate : Z;
  camera : option Capture;
  is_stop_record : bool;
  act_frame_width : option Z;
  act_frame_height : option Z;
  act_frame_fps : option Z;
  record_mark : bool;
  start_mark_time : option Q;
  record_name : option string;
  filename : option string;
  save_path : option string
}.

(** [USBRecord.__init__]. *)
Definition __init__ (device_index : Z) (frame_resolution : Z * Z) (frame_rate : Z)
    (is_stop_record is_record_mark : bool) : USBRecord :=
  {| device_index := device_index;
     frame_resolution := frame_resolution;
     frame_rate := frame_rate;
     camera := None;
     is_stop_record := is_stop_record;
     act_frame_width := None;
     act_frame_height := None;
     act_frame_fps := None;
     record_mark := is_record_mark;
     start_mark_time := None;
     record_name := None;
     filename := None;
     save_path := None |}.

(** Attribute stores, one per attribute the methods assign. *)
Definition set_camera (v : option Capture) (s : USBRecord) : USBRecord :=
  mkUSBRecord (device_index s) (frame_resolution s) (frame_rate s) v
    (is_stop_record s) (act_frame_width s) (act_frame_height s)
    (act_frame_fps s) (record_mark s) (start_mark_time s) (record_name s)
    (filename s) (save_path s).

Definition set_is_stop_record (v : bool) (s : USBRecord) : USBRecord :=
  mkUSBRecord (device_index s) (frame_resolution s) (frame_rate s) (camera s)
    v (act_frame_width s) (act_frame_height s)
    (act_frame_fps s) (record_mark s) (start_mark_time s) (record_name s)
    (filename s) (save_path s).

Definition set_act_frame (wd ht fps : option Z) (s : USBRecord) : USBRecord :=
  mkUSBRecord (device_index s) (frame_resolution s) (frame_rate s) (camera s)
    (is_stop_record s) wd ht fps (record_mark s) (start_mark_time s)
    (record_name s) (filename s) (save_path s).

Definition set_record_mark (v : bool) (s : USBRecord) : USBRecord :=
  mkUSBRecord (device_index s) (frame_resolution s) (frame_rate s) (camera s)
    (is_stop_record s) (act_frame_width s) (act_frame_height s)
    (act_frame_fps s) v (start_mark_time s) (record_name s)
    (filename s) (save_path s).

Definition set_start_mark_time (v : option Q) (s : USBRecord) : USBRecord :=
  mkUSBRecord (device_index s) (frame_resolution s) (frame_rate s) (camera s)
    (is_stop_record s) (act_frame_width s) (act_frame_height s)
    (act_frame_fps s) (record_mark s) v (record_name s)
    (filename s) (save_path s).

Definition set_record_name (v : option string) (s : USBRecord) : USBRecord :=
  mkUSBRecord (device_index s) (frame_resolution s) (frame_rate s) (camera s)
    (is_stop_record s) (act_frame_width s) (act_frame_height s)
    (act_frame_fps s) (record_mark s) (start_mark_time s) v
    (filename s) (save_path s).

Definition set_filename (v : option string) (s : USBRecord) : USBRecord :=
  mkUSBRecord (device_index s) (frame_resolution s) (frame_rate s) (camera s)
    (is_stop_record s) (act_frame_width s) (act_frame_height s)
    (act_frame_fps s) (record_mark s) (start_mark_time s) (record_name s)
    v (save_path s).

Definition set_save_path (v : option string) (s : USBRecord) : USBRecord :=
  mkUSBRecord (device_index s) (frame_resolution s) (frame_rate s) (camera s)
    (is_stop_record s) (act_frame_width s) (act_frame_height s)
    (act_frame_fps s) (record_mark s) (start_mark_time s) (record_name s)
    (filename s) v.

(* ===================================================================== *)
(** * [open_record_camera] (lines 176-202) *)
(* ===================================================================== *)

(** A fresh handle replaces [self.camera]; when the constructor reports it
    closed, one explicit [open] follows.  The negotiated width, height and
    frame rate are read back and stored.  Any exception is logged and
    swallowed, leaving the attributes as they were. *)
Definition open_record_camera (dev : Device) (s : USBRecord) (w : World)
    : USBRecord * World :=
  if dev_construct_raises dev then
    (s, log ERROR "Failed to open the camera: " w)
  else
    let cam :=
      {| cap_opened := dev_opened_on_construct dev || dev_opened_on_retry dev;
         cap_release_calls := 0 |} in
    let s1 := set_camera (Some cam) s in
    let s2 := set_act_frame (Some (dev_width dev)) (Some (dev_height dev))
                (Some (dev_fps dev)) s1 in
    (s2,
     log INFO
       ("Current Camera with configuration: index: " +:+
        Py.str_int (device_index s2) +:+ ", resolution: " +:+
        Py.str_int (dev_width dev) +:+ "x" +:+ Py.str_int (dev_height dev) +:+
        ", frame rate: " +:+ Py.str_int (dev_fps dev) +:+ "fps") w).

(* ===================================================================== *)
(** * [start_time_mark] and [stop_record] (lines 297-327) *)
(* ===================================================================== *)

Definition start_time_mark (s : USBRecord) : USBRecord :=
  let s1 := set_record_mark true s in
  set_start_mark_time None s1.

(** The object handed to [stop_record]: what its [join()] does, and the
    attributes the log line reads.  A value that is no thread at all has a
    [join] that raises [AttributeError]. *)
Record Target : Type := mkTarget {
  tg_join : Py.Outcome unit;
  tg_ident : Z;
  tg_name : string
}.

(** [stop_record(target)]: the flag is stored first; the three handlers
    log and swallow every [Exception]; anything else propagates. *)
Definition stop_record (target : Target) (s : USBRecord) (w : World)
    : Py.Outcome unit * USBRecord * World :=
  let s1 := set_is_stop_record true s in
  match tg_join target with
  | Py.Returns _ =>
      (Py.Returns tt, s1,
       log INFO ("Thread closed: ID=" +:+ Py.str_int (tg_ident target) +:+
                 ", Target=" +:+ tg_name target) w)
  | Py.Raises Py.AttributeError =>
      (Py.Returns tt, s1, log ERROR "Invalid thread object: " w)
  | Py.Raises Py.RuntimeError =>
      (Py.Returns tt, s1, log ERROR "Error when joining thread: " w)
  | Py.Raises e =>
      if Py.is_Exception e
      then (Py.Returns tt, s1, log ERROR "Unexpected error: " w)
      else (Py.Raises e, s1, w)
  end.

(* ===================================================================== *)
(** * [start_record] (lines 240-295) *)
(* ===================================================================== *)

(** Calls of the controlling thread that reach the object while the loop
    runs.  Of [stop_record] only the store on line 317 is seen by the loop:
    the rest of that call waits in [join()] until the loop has ended. *)
Inductive Call : Type :=
| CallStartTimeMark
| CallStopRecord.

Definition run_call (c : Call) (s : USBRecord) : USBRecord :=
  match c with
  | CallStartTimeMark => start_time_mark s
  | CallStopRecord => set_is_stop_record true s
  end.

Definition run_calls (cs : list Call) (s : USBRecord) : USBRecord :=
  fold_left (fun acc c => run_call c acc) cs s.

(** One iteration's inputs. *)
Record Tick : Type := mkTick {
  tk_calls : list Call;     (* in effect since the previous iteration *)
  tk_read : option Frame;   (* [Some f] for [(True, f)], [None] for [(False, None)] *)
  tk_now_anchor : Q;        (* [time.time()] on line 278, when it runs *)
  tk_now_label : Q;         (* [time.time()] on line 279, when it runs *)
  tk_now_check : Q          (* [time.time()] on line 285, when it runs *)
}.

(** [self.camera.read()]: an [AttributeError] when [self.camera] is [None];
    a closed handle delivers no frame. *)
Definition camera_read (cam : option Capture) (tick : Tick)
    : Py.Outcome (option Frame) :=
  match cam with
  | None => Py.Raises Py.AttributeError
  | Some c => Py.Returns (if cap_opened c then tk_read tick else None)
  end.

(** How one pass through the loop body ends. *)
Inductive Step : Type :=
| Continue (s : USBRecord) (w : World)
| Break (s : USBRecord) (w : World)
| Raised (e : Py.Exc) (s : USBRecord) (w : World).

(** Lines 279-280: the text for a frame labelled at clock reading [now]
    with the anchor [anchor], on exact clock readings.  The binary64
    computation of the script is [Threads.elapsed_ms] below. *)
Definition elapsed_label (now anchor : Q) : string :=
  let current_time := (now - anchor)%Q in
  format_time (Py.int_of_Q (current_time * inject_Z 1000)%Q).

(** Lines 276-281: with marking on, an empty anchor is first set to the
    clock reading of line 278; the frame is then labelled against the
    anchor the object holds.  No store of the controlling thread comes in
    between here; [Threads.mark_lines] below lets them. *)
Definition mark_frame (tick : Tick) (frame : Frame) (s : USBRecord)
    : USBRecord * Frame :=
  if record_mark s then
    match start_mark_time s with
    | None =>
        let s1 := set_start_mark_time (Some (tk_now_anchor tick)) s in
        (s1, draw_timestamp frame
               (elapsed_label (tk_now_label tick) (tk_now_anchor tick)))
    | Some anchor =>
        (s, draw_timestamp frame (elapsed_label (tk_now_label tick) anchor))
    end
  else (s, frame).

(** Lines 272-293, with the local variables of [start_record] that the body
    reads: the path behind [writer], the file name shown in the closing log
    line, [start_time] and [timeout]. *)
Definition loop_body (sink : string) (saved_as : string)
    (start_time timeout : Q) (tick : Tick) (s : USBRecord) (w : World) : Step :=
  let s0 := run_calls (tk_calls tick) s in
  match camera_read (camera s0) tick with
  | Py.Raises e => Raised e s0 w
  | Py.Returns (Some frame) =>
      let '(s1, frame1) := mark_frame tick frame s0 in
      let w1 := writer_write sink frame1 w in
      let current_time := tk_now_check tick in
      let elapsed_time := (current_time - start_time)%Q in
      if is_stop_record s1 || Qle_bool timeout elapsed_time then
        Break s1 (log INFO ("Video saved as: " +:+ saved_as)
                  (log INFO "Stop record" w1))
      else Continue s1 w1
  | Py.Returns None =>
      Continue s0 (log WARNING "Failed to capture image from camera." w)
  end.

(** How far a schedule takes the loop. *)
Inductive LoopEnd : Type :=
| LoopBroke                 (* left through [break] *)
| LoopRaised (e : Py.Exc)   (* left through an exception *)
| LoopRunning.              (* still iterating when the schedule ends *)

Fixpoint record_loop (sink saved_as : string) (start_time timeout : Q)
    (ticks : list Tick) (s : USBRecord) (w : World)
    : LoopEnd * USBRecord * World :=
  match ticks with
  | [] => (LoopRunning, s, w)
  | tick :: rest =>
      match loop_body sink saved_as start_time timeout tick s w with
      | Continue s' w' => record_loop sink saved_as start_time timeout rest s' w'
      | Break s' w' => (LoopBroke, s', w')
      | Raised e s' w' => (LoopRaised e, s', w')
      end
  end.

(** What [start_record] finds around it. *)
Record RecEnv : Type := mkRecEnv {
  env_device : Device;     (* consulted if the camera has to be opened *)
  env_now_time : string;   (* [time.strftime("%Y%m%d_%H%M%S")] *)
  env_start_time : Q;      (* [time.time()] on line 270 *)
  env_ticks : list Tick
}.

(** Lines 250-253. *)
Definition start_record_reset (save_path' : option string) (s : USBRecord)
    : USBRecord :=
  let s1 := set_record_mark false s in
  let s2 := set_is_stop_record false s1 in
  set_save_path save_path' s2.

(** Lines 254-257. *)
Definition camera_is_opened (s : USBRecord) : bool :=
  match camera s with
  | None => false
  | Some c => cap_opened c
  end.

Definition ensure_camera (dev : Device) (s : USBRecord) (w : World)
    : USBRecord * World :=
  if camera_is_opened s then (s, w)
  else open_record_camera dev s
         (log WARNING "Camera is not opened. Trying to open it..." w).

(** The handler on lines 294-295. *)
Definition record_except (r : LoopEnd * USBRecord * World)
    : LoopEnd * USBRecord * World :=
  match r with
  | (LoopRaised e, s, w) =>
      if Py.is_Exception e
      then (LoopRaised e, s, log ERROR "Error capturing and saving image: " w)
      else r
  | _ => r
  end.

(** [start_record(save_path, test_case_name, count, timeout)].  The method
    itself returns nothing; the [LoopEnd] component records how the loop was
    left.  A missing [save_path] makes [os.path.join] raise, which lands in
    the handler.  The [cv2.VideoWriter] constructor does not raise, whatever
    it is given for the frame rate and the frame size ([None] included), so
    the loop is entered as soon as the file name could be built. *)
Definition start_record (env : RecEnv) (save_path' : option string)
    (test_case_name count : Py.Val) (timeout : Q)
    (s : USBRecord) (w : World) : LoopEnd * USBRecord * World :=
  let s1 := start_record_reset save_path' s in
  let '(s2, w2) := ensure_camera (env_device env) s1 w in
  let now_time := env_now_time env in
  let name := Py.str test_case_name +:+ "_" +:+ now_time +:+ "_" +:+
              Py.str count in
  let s3 := set_record_name (Some name) s2 in
  record_except
    match save_path s3 with
    | None => (LoopRaised Py.TypeError, s3, w2)
    | Some dir =>
        let fn := Py.path_join dir (name +:+ ".avi") in
        let s4 := set_filename (Some fn) s3 in
        let w3 := log INFO "Start recording" (writer_open fn w2) in
        record_loop fn (name +:+ ".avi") (env_start_time env) timeout
          (env_ticks env) s4 w3
    end.

(* ===================================================================== *)
(** * [video_slice] (lines 329-366) *)
(* ===================================================================== *)

(** The name of the still image for one frame (line 355). *)
Definition frame_file (record_name : string) (frame_count : nat) : string :=
  record_name +:+ "_frame_count_" +:+ Py.dec_digits (N.of_nat frame_count) +:+
  ".jpg".

(** Lines 351-360, over the frames the reader still has to deliver.  The
    result carries the final value of the local [frame_count]. *)
Fixpoint slice_loop (sub_record_dir_path record_name : string)
    (frames : list Frame) (frame_count : nat) (w : World) : nat * World :=
  match frames with
  | [] => (frame_count, w)
  | frame :: rest =>
      let video_frame :=
        Py.path_join sub_record_dir_path (frame_file record_name frame_count) in
      slice_loop sub_record_dir_path record_name rest (S frame_count)
        (imwrite video_frame frame w)
  end.

(** The body of the [try] (lines 345-361).  The boolean tells whether
    [frame_capture] got bound to a reader.  [cv2.VideoCapture] does not
    raise: given [None], or a path that holds no readable container, it
    hands back a closed reader, upon which the script logs and calls
    [sys.exit(1)]. *)
Definition slice_try (sub_record_dir_path record_name : string)
    (filename : option string) (w : World) : Py.Outcome unit * bool * World :=
  match filename with
  | None =>
      (Py.Raises (Py.SystemExit 1), true,
       log ERROR "Failed to open video file." w)
  | Some fn =>
      match w_files w !! fn with
      | Some (VideoFile frames) =>
          let '(_, w1) := slice_loop sub_record_dir_path record_name frames 0 w in
          (Py.Returns tt, true,
           log INFO ("Record has been sliced: " +:+ sub_record_dir_path) w1)
      | _ =>
          (Py.Raises (Py.SystemExit 1), true,
           log ERROR "Failed to open video file." w)
      end
  end.

(** The [except Exception] clause (lines 362-363). *)
Definition slice_except (r : Py.Outcome unit * bool * World)
    : Py.Outcome unit * bool * World :=
  match r with
  | (Py.Raises e, bound, w) =>
      if Py.is_Exception e
      then (Py.Returns tt, bound,
            log ERROR "An error occurred during processing: " w)
      else r
  | _ => r
  end.

(** The [finally] clause (lines 364-366): [frame_capture.release()], which
    itself raises [AttributeError] when [frame_capture] is still [None]. *)
Definition slice_finally (r : Py.Outcome unit * bool * World)
    : Py.Outcome unit * World :=
  match r with
  | (o, true, w) => (o, w)
  | (_, false, w) => (Py.Raises Py.AttributeError, w)
  end.

(** [video_slice()].  There is no [return] statement: a call that comes
    back comes back with [None]. *)
Definition video_slice (s : USBRecord) (w : World) : Py.Outcome Py.Val * World :=
  match save_path s, record_name s with
  | Some sp, Some name =>
      let sub_record_dir_path := Py.path_join sp name in
      let w1 := if path_exists sub_record_dir_path w then w
                else makedirs sub_record_dir_path w in
      match slice_finally
              (slice_except
                 (slice_try sub_record_dir_path name (filename s) w1)) with
      | (Py.Returns _, w2) => (Py.Returns Py.VNone, w2)
      | (Py.Raises e, w2) => (Py.Raises e, w2)
      end
  | _, _ => (Py.Raises Py.TypeError, w)
  end.

(* ===================================================================== *)
(** * [release_camera] and [__del__] (lines 368-376) *)
(* ===================================================================== *)

(** A handle object is always truthy, so the guard only tells [None] from a
    handle; the attribute keeps pointing at the handle afterwards. *)
Definition release_camera (s : USBRecord) (w : World) : USBRecord * World :=
  match camera s with
  | Some c =>
      (set_camera (Some (cap_release c)) s,
       log INFO "Camera resources have been released." w)
  | None => (s, w)
  end.

Definition __del__ (s : USBRecord) (w : World) : USBRecord * World :=
  release_camera s w.

(* ===================================================================== *)
(** * Notions used in the statements *)
(* ===================================================================== *)

(** [c] does not occur in [s]. *)
Fixpoint lacks (c : ascii) (s : string) : bool :=
  match s with
  | EmptyString => true
  | String a rest => negb (Ascii.eqb a c) && lacks c rest
  end.

Fixpoint all_digits (s : string) : bool :=
  match s with
  | EmptyString => true
  | String a rest => is_digit a && all_digits rest
  end.

(** The four fields of a label. *)
Definition hours_of (t : Z) : Z := t / 1000 / 3600.
Definition minutes_of (t : Z) : Z := (t / 1000) mod 3600 / 60.
Definition seconds_of (t : Z) : Z := ((t / 1000) mod 3600) mod 60.
Definition millis_of (t : Z) : Z := t mod 1000.

(** The calls of a whole stretch of the schedule, in order. *)
Definition calls_of (ticks : list Tick) : list Call :=
  concat (map tk_calls ticks).

(** [n] warnings appended to the log. *)
Fixpoint warned (n : nat) (w : World) : World :=
  match n with
  | O => w
  | S k => warned k (log WARNING "Failed to capture image from camera." w)
  end.

(** Two objects that differ at most in a stored anchor that is not in use
    (marking is off in both). *)
Definition anchor_blind (s s' : USBRecord) : Prop :=
  s = s' \/
  (record_mark s = false /\ record_mark s' = false /\
   set_start_mark_time None s = set_start_mark_time None s').

(** Two steps that agree on how the body was left and on the world. *)
Definition step_blind (a b : Step) : Prop :=
  match a, b with
  | Continue s w, Continue s' w' => anchor_blind s s' /\ w = w'
  | Break s w, Break s' w' => anchor_blind s s' /\ w = w'
  | Raised e s w, Raised e' s' w' => e = e' /\ anchor_blind s s' /\ w = w'
  | _, _ => False
  end.

(** The path of the image for frame number [i]. *)
Definition frame_path (dir name : string) (i : nat) : string :=
  Py.path_join dir (frame_file name i).

(* ===================================================================== *)
(** * A concrete run *)
(* ===================================================================== *)

Module Demo.

Definition device : Device :=
  {| dev_construct_raises := false;
     dev_opened_on_construct := true;
     dev_opened_on_retry := false;
     dev_width := 1280; dev_height := 720; dev_fps := 30 |}.

Definition out_dir : string := "Videos/20240426_214100".

Definition world0 : World :=
  {| w_log := []; w_files := ∅; w_dirs := {[out_dir]} |}.

(** [USBRecord(device_index=0, frame_resolution=(1280, 720), frame_rate=60)]
    followed by [open_record_camera()]. *)
Definition fresh : USBRecord := __init__ 0 (1280, 720) 60 false false.
Definition opened : USBRecord := (open_record_camera device fresh world0).1.

Definition frame1 : Frame := mkFrame 1 [].
Definition frame2 : Frame := mkFrame 2 [].

Definition env (ticks : list Tick) : RecEnv :=
  {| env_device := device;
     env_now_time := "20240426_214103";
     env_start_time := 100;
     env_ticks := ticks |}.

Definition avi : string := "Videos/20240426_214100/case_20240426_214103_1.avi".

(** [start_record(path, "case", 1, 60)] under a given schedule. *)
Definition record (ticks : list Tick) (s : USBRecord) (w : World)
    : LoopEnd * USBRecord * World :=
  start_record (env ticks) (Some out_dir) (Py.VStr "case") (Py.VInt 1) 60 s w.

(** Schedules. *)
Definition tick_fail : Tick := mkTick [] None 0 0 0.
Definition tick_frame1 : Tick := mkTick [] (Some frame1) 0 0 101.
Definition tick_stop_fail : Tick := mkTick [CallStopRecord] None 0 0 0.
Definition tick_stop_frame2 : Tick := mkTick [CallStopRecord] (Some frame2) 0 104 105.
Definition tick_mark_frame1 : Tick :=
  mkTick [CallStartTimeMark] (Some frame1) 103 (10301 # 100) (10302 # 100).
Definition tick_late_frame2 : Tick := mkTick [] (Some frame2) 0 0 160.
Definition tick_fail_late : Tick := mkTick [] None 0 0 1100.

(** A first recording with marking switched on and then stopped. *)
Definition session1 : LoopEnd * USBRecord * World :=
  record [tick_mark_frame1; tick_stop_frame2] opened world0.

(** An object whose [filename] names a path that holds nothing. *)
Definition lost : USBRecord :=
  set_filename (Some avi)
    (set_record_name (Some "case_20240426_214103_1")
       (set_save_path (Some out_dir) opened)).

End Demo.

(* ===================================================================== *)
(** * The rest of the script: set-up, device choice, preview *)
(* ===================================================================== *)

(** ** [create_directory] (lines 27-43) *)

(** [os.makedirs(path)] without [exist_ok], as called on line 42 with no
    test before it: it refuses a path at which something exists already
    (a [FileExistsError], which is an [Exception] none of the handlers
    names).  What lies above [path] is not tracked and not looked at: the
    case of a regular file in the place of a directory above [path], in
    which the call raises [NotADirectoryError], is outside this model.
    The call on line 35 is made only when nothing exists at its path, and
    is [makedirs]. *)
Definition os_makedirs (path : string) (w : World) : Py.Outcome unit * World :=
  if path_exists path w then (Py.Raises Py.OtherException, w)
  else (Py.Returns tt, makedirs path w).

(** [create_directory()], given [os.getcwd()] and the value of
    [time.strftime("%Y%m%d_%H%M%S")]. *)
Definition create_directory (cwd time_str : string) (w : World)
    : Py.Outcome string * World :=
  let main_dir := "Videos" in
  let current_dir := cwd in
  let main_dir_path := Py.path_join current_dir main_dir in
  let w1 := if path_exists main_dir_path w then w
            else makedirs main_dir_path w in
  let sub_dir_path := Py.path_join main_dir_path time_str in
  match os_makedirs sub_dir_path w1 with
  | (Py.Raises e, w2) => (Py.Raises e, w2)
  | (Py.Returns _, w2) => (Py.Returns sub_dir_path, w2)
  end.

(** ** [show_and_select_camera] (lines 72-104) *)

(** [dict(enumerate(camera_list))]: the pairs in index order, which is also
    the order in which the dictionary is iterated. *)
Fixpoint enumerate_from (k : nat) (l : list string) : list (nat * string) :=
  match l with
  | [] => []
  | x :: rest => (k, x) :: enumerate_from (S k) rest
  end.

Definition enumerate (l : list string) : list (nat * string) :=
  enumerate_from 0 l.

(** [cameras[index]] for a non-negative [index]. *)
Fixpoint dict_get (d : list (nat * string)) (key : nat) : option string :=
  match d with
  | [] => None
  | (k, v) :: rest => if (k =? key)%nat then Some v else dict_get rest key
  end.

(** ['{:=>50}'.format('')]. *)
Definition rule : string := "==================================================".

(** The log line for one entry of the dictionary (line 94). *)
Definition camera_line (entry : nat * string) : string :=
  Py.str_int (Z.of_nat entry.1) +:+ " : " +:+ entry.2.

Definition log_lines (lines : list string) (w : World) : World :=
  fold_left (fun acc line => log INFO line acc) lines w.

(** [show_and_select_camera()], given what initialising pygame and listing
    the cameras yields and what [int(input(...))] yields.  A failure of the
    listing is logged and ends the process; a failure of [int] is not
    handled and reaches the caller. *)
Definition show_and_select_camera (listing : Py.Outcome (list string))
    (answer : Py.Outcome Z) (w : World) : Py.Outcome Z * World :=
  match listing with
  | Py.Raises e =>
      if Py.is_Exception e
      then (Py.Raises (Py.SystemExit 1),
            log ERROR "Failed to initialize cameras or list cameras: " w)
      else (Py.Raises e, w)
  | Py.Returns [] =>
      (Py.Raises (Py.SystemExit 1), log ERROR "Do not find any cameras." w)
  | Py.Returns camera_list =>
      let cameras := enumerate camera_list in
      let cameras_num := Z.of_nat (List.length cameras) in
      let w1 :=
        log INFO ("Available Cameras as follow, Please choose one: (range: [0-"
                  +:+ Py.str_int (cameras_num - 1) +:+ "])") w in
      let w2 := log INFO rule w1 in
      let w3 := log_lines (map camera_line cameras) w2 in
      let w4 := log INFO rule w3 in
      match answer with
      | Py.Raises e => (Py.Raises e, w4)
      | Py.Returns index =>
          if (0 <=? index) && (index <? cameras_num) then
            match dict_get cameras (Z.to_nat index) with
            | Some camera =>
                (Py.Returns index,
                 log INFO ("You selection is: [ " +:+ Py.str_int index +:+
                           ": " +:+ camera +:+ " ]") w4)
            | None => (Py.Raises Py.OtherException, w4)   (* [KeyError] *)
            end
          else
            (Py.Raises (Py.SystemExit 1),
             log ERROR "Out of the selection range, please select again!" w4)
      end
  end.

(** ** [show_live_camera] (lines 204-238) *)

(** [cv2.putText(frame, text, org, ...)]: as for [draw_timestamp], the text
    and its origin are what is kept of the drawing. *)
Definition put_text (frame : Frame) (text : string) (org : Z * Z) : Frame :=
  {| frame_pixels := frame_pixels frame;
     frame_texts := frame_texts frame ++ [(text, org)] |}.

(** An attribute that holds an integer or [None], as an f-string shows it. *)
Definition str_attr (a : option Z) : string :=
  match a with
  | Some n => Py.str (Py.VInt n)
  | None => Py.str Py.VNone
  end.

(** Lines 212-216: the countdown text for a given elapsed time. *)
Definition remaining_time (timeout elapsed_time : Q) : Z :=
  Z.max 0 (Py.int_of_Q (timeout - elapsed_time)%Q).

Definition countdown_clock (timeout elapsed_time : Q) : string :=
  let remaining_minute := remaining_time timeout elapsed_time / 60 in
  let remaining_second := remaining_time timeout elapsed_time mod 60 in
  "Countdown Clock: " +:+ Py.format_0d 2 remaining_minute +:+ ":" +:+
  Py.format_0d 2 remaining_second.

(** The double quote character, for the hint drawn on line 231. *)
Definition dquote : ascii := ascii_of_nat 34.

Definition quit_hint : string :=
  "Enter " +:+ String dquote ("q" +:+ String dquote " to close windows").

(** Lines 224-232: the four texts drawn on a preview frame. *)
Definition decorate (s : USBRecord) (countdown : string) (frame : Frame) : Frame :=
  let f1 := put_text frame ("Camera ID: " +:+ Py.str_int (device_index s)) (25, 40) in
  let f2 := put_text f1
              ("Frame Info: " +:+ str_attr (act_frame_width s) +:+ "x" +:+
               str_attr (act_frame_height s) +:+ "@" +:+
               str_attr (act_frame_fps s) +:+ "fps") (25, 80) in
  let f3 := put_text f2 countdown (25, 120) in
  put_text f3 quit_hint (25, 160).

(** The preview window: the frames handed to [cv2.imshow], and whether a
    window is up. *)
Record Screen : Type := mkScreen {
  sc_shown : list Frame;
  sc_open : bool
}.

Definition imshow (frame : Frame) (sc : Screen) : Screen :=
  {| sc_shown := sc_shown sc ++ [frame]; sc_open := true |}.

Definition destroy_all_windows (sc : Screen) : Screen :=
  {| sc_shown := sc_shown sc; sc_open := false |}.

(** One iteration's inputs. *)
Record PreviewTick : Type := mkPreviewTick {
  pv_now : Q;               (* [time.time()] on line 212 *)
  pv_read : option Frame;   (* what the device delivers on line 218 *)
  pv_key : Z                (* [cv2.waitKey(1)] on line 235, when it runs *)
}.

(** [ord('q')]. *)
Definition ord_q : Z := 113.

(** What the preview has done when the schedule is used up or the method
    is left. *)
Inductive PreviewEnd : Type :=
| PreviewReturned             (* the loop was left through [break] *)
| PreviewRaised (e : Py.Exc)  (* [sys.exit(1)] or an unhandled exception *)
| PreviewRunning.             (* still iterating when the schedule ends *)

(** Lines 210-236.  A handle that is closed delivers nothing, like a device
    that fails; [self.camera] being [None] makes the read itself raise. *)
Fixpoint preview_loop (start_time timeout : Q) (ticks : list PreviewTick)
    (s : USBRecord) (w : World) (sc : Screen)
    : PreviewEnd * USBRecord * World * Screen :=
  match ticks with
  | [] => (PreviewRunning, s, w, sc)
  | tick :: rest =>
      let elapsed_time := (pv_now tick - start_time)%Q in
      let countdown := countdown_clock timeout elapsed_time in
      match camera s with
      | None => (PreviewRaised Py.AttributeError, s, w, sc)
      | Some c =>
          match (if cap_opened c then pv_read tick else None) with
          | None =>
              (PreviewRaised (Py.SystemExit 1),
               set_camera (Some (cap_release c)) s,
               log ERROR ("Can not receive camera_id:" +:+
                          Py.str_int (device_index s) +:+ " frame") w,
               sc)
          | Some frame =>
              let sc1 := imshow (decorate s countdown frame) sc in
              if (pv_key tick =? ord_q) || negb (Qle_bool elapsed_time timeout)
              then (PreviewReturned, s, w, sc1)
              else preview_loop start_time timeout rest s w sc1
          end
      end
  end.

(** [show_live_camera(timeout)], given the clock reading of line 209 and
    the schedule of the loop.  Lines 237-238 close the window once the loop
    has been left through [break]. *)
Definition show_live_camera (start_time timeout : Q) (ticks : list PreviewTick)
    (s : USBRecord) (w : World) (sc : Screen)
    : PreviewEnd * USBRecord * World * Screen :=
  match preview_loop start_time timeout ticks s w sc with
  | (PreviewReturned, s', w', sc') =>
      (PreviewReturned, s', w', destroy_all_windows sc')
  | r => r
  end.

(** ** Notions used in the statements about the rest of the script *)

(** The last character of a string. *)
Fixpoint last_char (s : string) : option ascii :=
  match s with
  | EmptyString => None
  | String a EmptyString => Some a
  | String _ rest => last_char rest
  end.

(** The frames of a preview schedule, decorated as the loop shows them. *)
Definition preview_frame (start_time timeout : Q) (s : USBRecord)
    (tick : PreviewTick) (frame : Frame) : Frame :=
  decorate s (countdown_clock timeout (pv_now tick - start_time)%Q) frame.

(** A preview iteration that delivers [frame] and does not end the loop. *)
Definition preview_goes_on (start_time timeout : Q) (tick : PreviewTick) : Prop :=
  is_Some (pv_read tick) /\ pv_key tick <> ord_q /\
  (pv_now tick - start_time <= timeout)%Q.

(** The frames a stretch of such iterations puts on the screen. *)
Fixpoint preview_frames (start_time timeout : Q) (s : USBRecord)
    (ticks : list PreviewTick) : list Frame :=
  match ticks with
  | [] => []
  | tick :: rest =>
      match pv_read tick with
      | Some frame =>
          preview_frame start_time timeout s tick frame ::
          preview_frames start_time timeout s rest
      | None => preview_frames start_time timeout s rest
      end
  end.

(** The screen after a list of frames has been shown, in order. *)
Definition show_all (frames : list Frame) (sc : Screen) : Screen :=
  fold_left (fun acc frame => imshow frame acc) frames sc.

(** Two decimal digits: the tens, then the units. *)
Definition digit_char (d : Z) : ascii := ascii_of_nat (48 + Z.to_nat d).

Definition two_digits (n : Z) : string :=
  String (digit_char (n / 10)) (String (digit_char (n mod 10)) EmptyString).

(** The first line of the menu that [show_and_select_camera] logs, and its
    last line on success. *)
Definition menu_header (camera_list : list string) : string :=
  "Available Cameras as follow, Please choose one: (range: [0-" +:+
  Py.str_int (Z.of_nat (List.length camera_list) - 1) +:+ "])".

Definition selection_line (index : Z) (camera : string) : string :=
  "You selection is: [ " +:+ Py.str_int index +:+ ": " +:+ camera +:+ " ]".

(** Two objects with the same device, negotiated parameters, handle and
    names: all attributes but the stop flag, the marking flag and the
    anchor. *)
Definition same_setup (s s' : USBRecord) : Prop :=
  device_index s' = device_index s /\ frame_resolution s' = frame_resolution s /\
  frame_rate s' = frame_rate s /\ camera s' = camera s /\
  act_frame_width s' = act_frame_width s /\
  act_frame_height s' = act_frame_height s /\
  act_frame_fps s' = act_frame_fps s /\ record_name s' = record_name s /\
  filename s' = filename s /\ save_path s' = save_path s.

(** The name [start_record] gives a recording (line 261) and the path of
    its artifact (line 263). *)
Definition recording_name (test_case_name count : Py.Val) (now_time : string)
    : string :=
  Py.str test_case_name +:+ "_" +:+ now_time +:+ "_" +:+ Py.str count.

Definition artifact_path (dir : string) (test_case_name count : Py.Val)
    (now_time : string) : string :=
  Py.path_join dir (recording_name test_case_name count now_time +:+ ".avi").

(** The object and the world as [start_record] has them when it reaches
    line 258. *)
Definition at_entry (env : RecEnv) (save_path' : option string)
    (s : USBRecord) (w : World) : USBRecord * World :=
  ensure_camera (env_device env) (start_record_reset save_path' s) w.

(** The negotiated parameters are all known. *)
Definition params_known (s : USBRecord) : Prop :=
  is_Some (act_frame_fps s) /\ is_Some (act_frame_width s) /\
  is_Some (act_frame_height s).

(** From [w] to [w'] only the container at [sink] and the log have grown:
    [added] are the frames appended, every other path and the directories
    are as they were, and a container stays a container. *)
Definition sink_grows (sink : string) (w w' : World) (added : list Frame) : Prop :=
  (forall p, p <> sink -> w_files w' !! p = w_files w !! p) /\
  w_dirs w' = w_dirs w /\
  (exists more, w_log w' = w_log w ++ more) /\
  video_frames sink w' = video_frames sink w ++ added /\
  ((exists fs, w_files w !! sink = Some (VideoFile fs)) ->
   w_files w' !! sink = Some (VideoFile (video_frames sink w'))).

(* ===================================================================== *)
(** * A concrete run of the rest of the script *)
(* ===================================================================== *)

Module DemoMore.

Definition empty_world : World :=
  {| w_log := []; w_files := ∅; w_dirs := ∅ |}.

Definition cwd : string := "/home/user".
Definition time_str : string := "20240426_214100".

Definition blank : Screen := {| sc_shown := []; sc_open := false |}.

(** The handle [open_record_camera] leaves in [Demo.opened]. *)
Definition handle : Capture := {| cap_opened := true; cap_release_calls := 0 |}.

(** Preview iterations: a frame one second in, a frame on which [q] is
    pressed, and an iteration without a frame. *)
Definition pv_frame1 : PreviewTick := mkPreviewTick 101 (Some Demo.frame1) (-1).
Definition pv_quit : PreviewTick := mkPreviewTick 102 (Some Demo.frame2) 113.
Definition pv_fail : PreviewTick := mkPreviewTick 102 None (-1).

(** A device that does not open. *)
Definition dead_device : Device :=
  {| dev_construct_raises := false;
     dev_opened_on_construct := false;
     dev_opened_on_retry := false;
     dev_width := 0; dev_height := 0; dev_fps := 0 |}.

Definition dead_env (ticks : list Tick) : RecEnv :=
  {| env_device := dead_device;
     env_now_time := "20240426_214103";
     env_start_time := 100;
     env_ticks := ticks |}.

End DemoMore.

(* ===================================================================== *)
(** * The recording loop at the grain of attribute stores *)
(* ===================================================================== *)

(** The loop of [start_record] and the methods the controlling thread
    calls meanwhile work on one object without a lock.  In the sections
    above a call of the controlling thread takes effect as a whole between
    two iterations, and clock readings are exact.  Both simplifications are
    dropped here.  The controlling thread acts through single attribute
    stores, each of which may land between any two attribute accesses of
    the loop; and a clock reading is the binary64 number [time.time()]
    hands back, with the arithmetic of lines 279-280 and 286-288 carried
    out in binary64. *)

Module Threads.

(** [int(x)] on a float: truncation towards zero; [ValueError] on a NaN
    and [OverflowError] on an infinity, both of them [Exception]s. *)
Definition int_of_float (x : float) : Py.Outcome Z :=
  match Prim2SF x with
  | S754_zero _ => Py.Returns 0
  | S754_finite negative mantissa exponent =>
      let magnitude :=
        if 0 <=? exponent then Z.shiftl (Zpos mantissa) exponent
        else Z.shiftr (Zpos mantissa) (- exponent) in
      Py.Returns (if negative then - magnitude else magnitude)
  | S754_infinity _ | S754_nan => Py.Raises Py.OtherException
  end.

(** Lines 279-280: [int(current_time * 1000)], the argument of
    [format_time]. *)
Definition elapsed_ms (now anchor : float) : Py.Outcome Z :=
  let current_time := PrimFloat.sub now anchor in
  int_of_float (PrimFloat.mul current_time 1000%float).

(** The attributes the loop shares with the controlling thread. *)
Record Attrs : Type := mkAttrs {
  is_stop_record : bool;
  record_mark : bool;
  start_mark_time : option float
}.

(** The attribute stores of the controlling thread: line 306 and line 307
    of [start_time_mark], line 317 of [stop_record]. *)
Inductive Store : Type :=
| StoreRecordMark
| StoreStartMarkTime
| StoreIsStopRecord.

Definition run_store (st : Store) (a : Attrs) : Attrs :=
  match st with
  | StoreRecordMark => mkAttrs (is_stop_record a) true (start_mark_time a)
  | StoreStartMarkTime => mkAttrs (is_stop_record a) (record_mark a) None
  | StoreIsStopRecord => mkAttrs true (record_mark a) (start_mark_time a)
  end.

Definition run_stores (sts : list Store) (a : Attrs) : Attrs :=
  fold_left (fun acc st => run_store st acc) sts a.

(** [start_time_mark()] and the part of [stop_record(target)] that comes
    before [join()], as the stores they make, in program order. *)
Definition start_time_mark : list Store := [StoreRecordMark; StoreStartMarkTime].
Definition stop_record : list Store := [StoreIsStopRecord].

(** One iteration's inputs: what [camera.read()] delivers, the clock
    readings, and the stores of the controlling thread by the place at
    which they land.  A store listed under a line has landed when the loop
    makes its attribute access on that line, and had not landed at the
    access before. *)
Record Tick : Type := mkTick {
  tk_read : option Frame;
  tk_now_anchor : float;        (* [time.time()] on line 278, when it runs *)
  tk_now_label : float;         (* [time.time()] on line 279, when it runs *)
  tk_now_check : float;         (* [time.time()] on line 285, when it runs *)
  tk_at_276 : list Store;       (* before [self.record_mark] is read *)
  tk_at_277 : list Store;       (* before [self.start_mark_time] is tested *)
  tk_at_278 : list Store;       (* before [self.start_mark_time] is assigned *)
  tk_at_279 : list Store;       (* before [self.start_mark_time] is subtracted *)
  tk_at_288 : list Store        (* before [self.is_stop_record] is read *)
}.

(** All stores of an iteration, and of a stretch of iterations, in the
    order in which they land. *)
Definition stores_of (tick : Tick) : list Store :=
  tk_at_276 tick ++ tk_at_277 tick ++ tk_at_278 tick ++ tk_at_279 tick ++
  tk_at_288 tick.

Definition landed (ticks : list Tick) : list Store :=
  concat (map stores_of ticks).

Definition camera_read (cam : option Capture) (tick : Tick)
    : Py.Outcome (option Frame) :=
  match cam with
  | None => Py.Raises Py.AttributeError
  | Some c => Py.Returns (if cap_opened c then tk_read tick else None)
  end.

(** Lines 276-281.  On line 279 the anchor is read again, after the test
    of line 277 and the store of line 278: when it has been cleared in
    between, the subtraction is [float - None] and raises [TypeError]. *)
Definition mark_lines (tick : Tick) (frame : Frame) (a : Attrs)
    : Py.Outcome Frame * Attrs :=
  let a1 := run_stores (tk_at_276 tick) a in
  if record_mark a1 then
    let a2 := run_stores (tk_at_277 tick) a1 in
    let a3 :=
      match start_mark_time a2 with
      | None =>
          let a' := run_stores (tk_at_278 tick) a2 in
          mkAttrs (is_stop_record a') (record_mark a') (Some (tk_now_anchor tick))
      | Some _ => run_stores (tk_at_278 tick) a2
      end in
    let a4 := run_stores (tk_at_279 tick) a3 in
    match start_mark_time a4 with
    | None => (Py.Raises Py.TypeError, a4)
    | Some anchor =>
        match elapsed_ms (tk_now_label tick) anchor with
        | Py.Returns ms => (Py.Returns (draw_timestamp frame (format_time ms)), a4)
        | Py.Raises e => (Py.Raises e, a4)
        end
    end
  else
    (Py.Returns frame,
     run_stores (tk_at_277 tick ++ tk_at_278 tick ++ tk_at_279 tick) a1).

Inductive Step : Type :=
| Continue (a : Attrs) (w : World)
| Break (a : Attrs) (w : World)
| Raised (e : Py.Exc) (a : Attrs) (w : World).

(** Lines 272-293.  [self.camera] is not assigned while the loop runs; the
    sink records the frames handed to [writer.write], as before.
    [timeout] is the number the caller passed, as the float it compares
    as (the default 60, like every integer below 2^53, is one exactly);
    a comparison with a NaN is false, in Python as here. *)
Definition loop_body (cam : option Capture) (sink saved_as : string)
    (start_time timeout : float) (tick : Tick) (a : Attrs) (w : World) : Step :=
  match camera_read cam tick with
  | Py.Raises e => Raised e a w
  | Py.Returns (Some frame) =>
      match mark_lines tick frame a with
      | (Py.Raises e, a1) => Raised e a1 w
      | (Py.Returns frame1, a1) =>
          let w1 := writer_write sink frame1 w in
          let current_time := tk_now_check tick in
          let elapsed_time := PrimFloat.sub current_time start_time in
          let a2 := run_stores (tk_at_288 tick) a1 in
          if is_stop_record a2 || PrimFloat.leb timeout elapsed_time then
            Break a2 (log INFO ("Video saved as: " +:+ saved_as)
                      (log INFO "Stop record" w1))
          else Continue a2 w1
      end
  | Py.Returns None =>
      Continue (run_stores (stores_of tick) a)
        (log WARNING "Failed to capture image from camera." w)
  end.

Fixpoint record_loop (cam : option Capture) (sink saved_as : string)
    (start_time timeout : float) (ticks : list Tick) (a : Attrs) (w : World)
    : LoopEnd * Attrs * World :=
  match ticks with
  | [] => (LoopRunning, a, w)
  | tick :: rest =>
      match loop_body cam sink saved_as start_time timeout tick a w with
      | Continue a' w' =>
          record_loop cam sink saved_as start_time timeout rest a' w'
      | Break a' w' => (LoopBroke, a', w')
      | Raised e a' w' => (LoopRaised e, a', w')
      end
  end.

(** ** Notions used in the statements *)

(** [frame] with one more text, [text], at the origin [(10, 30)]. *)
Definition stamped (frame : Frame) (text : string) : Frame :=
  {| frame_pixels := frame_pixels frame;
     frame_texts := frame_texts frame ++ [(text, (10, 30))] |}.

(** The frame an iteration hands to the sink when it labels against
    [anchor]: the frame read, with the time elapsed between [anchor] and
    the reading of line 279 drawn on it. *)
Definition labelled (anchor : float) (tick : Tick) : option Frame :=
  match tk_read tick, elapsed_ms (tk_now_label tick) anchor with
  | Some frame, Py.Returns ms => Some (stamped frame (format_time ms))
  | _, _ => None
  end.

(** A label that reads [00:00:00.0xx]. *)
Definition near_zero (label : string) : bool :=
  match label with
  | String h1 (String h2 (String c1 (String m1 (String m2 (String c2
      (String s1 (String s2 (String c3 (String x1 (String x2 (String x3
         EmptyString))))))))))) =>
      String.eqb
        (String h1 (String h2 (String c1 (String m1 (String m2 (String c2
           (String s1 (String s2 (String c3 (String x1 EmptyString))))))))))
        "00:00:00.0" && is_digit x2 && is_digit x3
  | _ => false
  end.

(** ** A concrete run *)

Definition handle : Capture := {| cap_opened := true; cap_release_calls := 0 |}.

(** Marking off, no stop request, and an anchor left by an earlier
    recording. *)
Definition stale : Attrs := mkAttrs false false (Some 50%float).
Definition idle : Attrs := mkAttrs false false None.

Definition quiet (read : option Frame) (anchor label check : float) : Tick :=
  mkTick read anchor label check [] [] [] [] [].

Definition tick_fail : Tick := quiet None 0 0 0.

(** A failed read during which [start_time_mark()] runs to its end. *)
Definition tick_mark_fail : Tick :=
  mkTick None 0 0 0 start_time_mark [] [] [] [].

(** A frame whose two clock readings are an eighth of a second apart, and
    one whose readings are 2^-7 seconds apart. *)
Definition tick_slow_frame1 : Tick :=
  quiet (Some Demo.frame1) 103 103.125 103.25.
Definition tick_frame1 : Tick :=
  quiet (Some Demo.frame1) 103 103.0078125 103.25.
Definition tick_frame2 : Tick :=
  quiet (Some Demo.frame2) 0 104.5 104.75.

(** Marking on since an earlier [start_time_mark()], anchored at 103. *)
Definition marking : Attrs := mkAttrs false true (Some 103%float).

(** [start_time_mark()] is called once more while a frame is labelled:
    the loop has found the anchor set on line 277, the call runs to its
    end, and then line 279 reads the anchor. *)
Definition tick_mark_again : Tick :=
  mkTick (Some Demo.frame2) 0 104.5 104.75 [] [] [] start_time_mark [].

End Threads.

(* ===================================================================== *)
(** * The sink on disk *)
(* ===================================================================== *)

(** [cv2.VideoWriter(...)] does not raise when it cannot open its output
    (a directory that is not there, a frame rate or a frame size the
    encoder refuses): it hands back a writer that is not opened, on which
    [write] drops the frame, and no file is created or replaced.  The
    script never asks [writer.isOpened()].  In [start_record] above the
    sink stands for the frames handed to [writer.write].  Here it is the
    file at the path, and what [isOpened()] would answer is one more input
    of the method; everything else is [start_record] as above. *)

Module Disk.

Definition writer_open (opened : bool) (path : string) (w : World) : World :=
  if opened then put_file path (VideoFile []) w else w.

Definition writer_write (opened : bool) (path : string) (frame : Frame)
    (w : World) : World :=
  if opened then put_file path (VideoFile (video_frames path w ++ [frame])) w
  else w.

(** Lines 272-293. *)
Definition loop_body (opened : bool) (sink : string) (saved_as : string)
    (start_time timeout : Q) (tick : Tick) (s : USBRecord) (w : World) : Step :=
  let s0 := run_calls (tk_calls tick) s in
  match camera_read (camera s0) tick with
  | Py.Raises e => Raised e s0 w
  | Py.Returns (Some frame) =>
      let '(s1, frame1) := mark_frame tick frame s0 in
      let w1 := writer_write opened sink frame1 w in
      let current_time := tk_now_check tick in
      let elapsed_time := (current_time - start_time)%Q in
      if is_stop_record s1 || Qle_bool timeout elapsed_time then
        Break s1 (log INFO ("Video saved as: " +:+ saved_as)
                  (log INFO "Stop record" w1))
      else Continue s1 w1
  | Py.Returns None =>
      Continue s0 (log WARNING "Failed to capture image from camera." w)
  end.

Fixpoint record_loop (opened : bool) (sink saved_as : string)
    (start_time timeout : Q) (ticks : list Tick) (s : USBRecord) (w : World)
    : LoopEnd * USBRecord * World :=
  match ticks with
  | [] => (LoopRunning, s, w)
  | tick :: rest =>
      match loop_body opened sink saved_as start_time timeout tick s w with
      | Continue s' w' =>
          record_loop opened sink saved_as start_time timeout rest s' w'
      | Break s' w' => (LoopBroke, s', w')
      | Raised e s' w' => (LoopRaised e, s', w')
      end
  end.

(** [start_record(save_path, test_case_name, count, timeout)], with the
    answer of [writer.isOpened()] for the writer of line 266. *)
Definition start_record (opened : bool) (env : RecEnv)
    (save_path' : option string) (test_case_name count : Py.Val) (timeout : Q)
    (s : USBRecord) (w : World) : LoopEnd * USBRecord * World :=
  let s1 := start_record_reset save_path' s in
  let '(s2, w2) := ensure_camera (env_device env) s1 w in
  let now_time := env_now_time env in
  let name := Py.str test_case_name +:+ "_" +:+ now_time +:+ "_" +:+
              Py.str count in
  let s3 := set_record_name (Some name) s2 in
  record_except
    match save_path s3 with
    | None => (LoopRaised Py.TypeError, s3, w2)
    | Some dir =>
        let fn := Py.path_join dir (name +:+ ".avi") in
        let s4 := set_filename (Some fn) s3 in
        let w3 := log INFO "Start recording" (writer_open opened fn w2) in
        record_loop opened fn (name +:+ ".avi") (env_start_time env) timeout
          (env_ticks env) s4 w3
    end.

(** Two worlds with the same log and the same directories. *)
Definition same_but_files (w w' : World) : Prop :=
  w_log w = w_log w' /\ w_dirs w = w_dirs w'.

End Disk.

(* ===================================================================== *)
(** * Strings and decimal numerals *)
(* ===================================================================== *)

Section StringFacts.

Lemma append_cons (a : ascii) (s t : string) :
  String a s +:+ t = String a (s +:+ t).
Proof. reflexivity. Qed.

Lemma append_nil_l (t : string) : EmptyString +:+ t = t.
Proof. reflexivity. Qed.

Lemma length_append (s t : string) :
  String.length (s +:+ t) = (String.length s + String.length t)%nat.
Proof.
  induction s as [|a s IH]; [reflexivity|].
  rewrite append_cons. simpl. now rewrite IH.
Qed.

Lemma length_list_ascii (s : string) :
  List.length (list_ascii_of_string s) = String.length s.
Proof. induction s as [|a s IH]; simpl; [reflexivity|now rewrite IH]. Qed.

Lemma split_at_first (c : ascii) (p r : string) :
  lacks c p = true -> split_at c (p +:+ String c r) = Some (p, r).
Proof.
  induction p as [|a p IH]; intros Hp.
  - rewrite append_nil_l. simpl. now rewrite Ascii.eqb_refl.
  - rewrite append_cons. simpl in *.
    apply andb_true_iff in Hp as [Ha Hp].
    apply negb_true_iff in Ha. rewrite Ha, (IH Hp). reflexivity.
Qed.

Lemma all_digits_lacks (c : ascii) (s : string) :
  is_digit c = false -> all_digits s = true -> lacks c s = true.
Proof.
  intros Hc. induction s as [|a s IH]; simpl; [reflexivity|].
  intros [Ha Hs]%andb_true_iff. rewrite (IH Hs), andb_true_r.
  apply negb_true_iff. destruct (Ascii.eqb_spec a c) as [->|]; congruence.
Qed.

Lemma all_digits_append (s t : string) :
  all_digits (s +:+ t) = all_digits s && all_digits t.
Proof.
  induction s as [|a s IH]; [reflexivity|].
  rewrite append_cons. simpl. now rewrite IH, andb_assoc.
Qed.

Lemma all_digits_zeros (k : nat) : all_digits (Py.zeros k) = true.
Proof. induction k; simpl; auto. Qed.

Lemma length_zeros (k : nat) : String.length (Py.zeros k) = k.
Proof. induction k; simpl; auto. Qed.

Lemma all_digits_of_uint (d : Decimal.uint) :
  all_digits (NilEmpty.string_of_uint d) = true.
Proof. induction d; simpl; auto. Qed.

Lemma length_of_uint (d : Decimal.uint) :
  String.length (NilEmpty.string_of_uint d) = Decimal.nb_digits d.
Proof. induction d; simpl; auto. Qed.

Lemma all_digits_dec (n : N) : all_digits (Py.dec_digits n) = true.
Proof. apply all_digits_of_uint. Qed.

Lemma to_uint_not_nil (n : N) : N.to_uint n <> Decimal.Nil.
Proof.
  intros H. destruct n as [|p]; [discriminate|].
  simpl in H. pose proof (DecimalPos.Unsigned.to_uint_nonnil p). contradiction.
Qed.

Lemma dec_digits_nonempty (n : N) : Py.dec_digits n <> EmptyString.
Proof.
  unfold Py.dec_digits. pose proof (to_uint_not_nil n) as H.
  destruct (N.to_uint n); simpl; congruence.
Qed.

(** Reading zero-padded digits back gives the number. *)
Lemma uint_of_zeros (k : nat) (s : string) :
  NilEmpty.uint_of_string (Py.zeros k +:+ s) =
  option_map (Nat.iter k Decimal.D0) (NilEmpty.uint_of_string s).
Proof.
  induction k as [|k IH].
  - rewrite append_nil_l. simpl. now destruct (NilEmpty.uint_of_string s).
  - simpl Py.zeros. rewrite append_cons. simpl NilEmpty.uint_of_string.
    rewrite IH. now destruct (NilEmpty.uint_of_string s).
Qed.

Lemma of_uint_iter_zero (k : nat) (d : Decimal.uint) :
  N.of_uint (Nat.iter k Decimal.D0 d) = N.of_uint d.
Proof. induction k as [|k IH]; [reflexivity|]. simpl. exact IH. Qed.

Lemma zfill_nonempty (w : nat) (s : string) :
  s <> EmptyString -> Py.zfill w s <> EmptyString.
Proof.
  intros Hs H. apply (f_equal String.length) in H.
  unfold Py.zfill in H. rewrite length_append in H. simpl in H.
  destruct s; [congruence|simpl in H; lia].
Qed.

Lemma all_digits_format_0d (w : nat) (n : Z) :
  0 <= n -> all_digits (Py.format_0d w n) = true.
Proof.
  intros Hn. destruct n as [|p|p]; try lia;
    unfold Py.format_0d, Py.zfill;
    now rewrite all_digits_append, all_digits_zeros, all_digits_dec.
Qed.

Lemma parse_field_format_0d (w : nat) (n : Z) :
  0 <= n -> parse_field (Py.format_0d w n) = Some n.
Proof.
  intros Hn.
  assert (Py.format_0d w n = Py.zfill w (Py.dec_digits (Z.to_N n))) as ->
    by (destruct n; [reflexivity|reflexivity|lia]).
  unfold parse_field.
  pose proof (zfill_nonempty w _ (dec_digits_nonempty (Z.to_N n))) as Hne.
  destruct (Py.zfill w (Py.dec_digits (Z.to_N n))) eqn:E; [congruence|].
  rewrite <- E. unfold Py.zfill, Py.dec_digits.
  rewrite uint_of_zeros, NilEmpty.usu. simpl.
  rewrite of_uint_iter_zero, DecimalN.Unsigned.of_to.
  f_equal. lia.
Qed.

(** A numeral of at most two digits is below one hundred. *)
Lemma two_digits_bound (d : Decimal.uint) :
  (Decimal.nb_digits d <= 2)%nat -> (N.of_uint d < 100)%N.
Proof.
  intros H.
  destruct d as [|d|d|d|d|d|d|d|d|d|d];
    try (destruct d as [|d|d|d|d|d|d|d|d|d|d]);
    try (destruct d as [|d'|d'|d'|d'|d'|d'|d'|d'|d'|d']);
    simpl in H; try lia; reflexivity.
Qed.

Lemma dec_digits_long (n : N) :
  (100 <= n)%N -> (3 <= String.length (Py.dec_digits n))%nat.
Proof.
  intros Hn. unfold Py.dec_digits. rewrite length_of_uint.
  destruct (le_lt_dec 3 (Decimal.nb_digits (N.to_uint n))) as [|Hlt]; [assumption|].
  assert (N.of_uint (N.to_uint n) < 100)%N as Hb by (apply two_digits_bound; lia).
  rewrite DecimalN.Unsigned.of_to in Hb. lia.
Qed.

End StringFacts.

(* ===================================================================== *)
(** * [format_time] *)
(* ===================================================================== *)

Section FormatTime.

Lemma format_time_fields (t : Z) :
  format_time t =
  Py.format_0d 2 (hours_of t) +:+ String ":" (
  Py.format_0d 2 (minutes_of t) +:+ String ":" (
  Py.format_0d 2 (seconds_of t) +:+ String "." (
  Py.format_0d 3 (millis_of t)))).
Proof. reflexivity. Qed.

Lemma fields_range (t : Z) :
  0 <= t ->
  0 <= hours_of t /\ 0 <= minutes_of t < 60 /\ 0 <= seconds_of t < 60 /\
  0 <= millis_of t < 1000 /\
  ((hours_of t * 60 + minutes_of t) * 60 + seconds_of t) * 1000 + millis_of t = t.
Proof.
  intros Ht. unfold hours_of, minutes_of, seconds_of, millis_of.
  pose proof (Z.div_mod t 1000 ltac:(lia)) as E1.
  pose proof (Z.mod_pos_bound t 1000 ltac:(lia)) as B1.
  assert (0 <= t / 1000) as P1 by (apply Z.div_pos; lia).
  set (q := t / 1000) in *.
  pose proof (Z.div_mod q 3600 ltac:(lia)) as E2.
  pose proof (Z.mod_pos_bound q 3600 ltac:(lia)) as B2.
  assert (0 <= q / 3600) as P2 by (apply Z.div_pos; lia).
  set (r := q mod 3600) in *.
  pose proof (Z.div_mod r 60 ltac:(lia)) as E3.
  pose proof (Z.mod_pos_bound r 60 ltac:(lia)) as B3.
  assert (0 <= r / 60) as P3 by (apply Z.div_pos; lia).
  assert (r / 60 < 60) by (apply Z.div_lt_upper_bound; lia).
  lia.
Qed.

Lemma hours_small (t : Z) : 0 <= t -> hours_of t < 100 <-> t < 360000000.
Proof.
  intros Ht. unfold hours_of. rewrite Z.div_div by lia. split; intros H.
  - apply Z.nle_gt. intros Hge.
    assert (360000000 / (1000 * 3600) <= t / (1000 * 3600))
      by (apply Z.div_le_mono; lia).
    change (360000000 / (1000 * 3600)) with 100 in *. lia.
  - apply Z.div_lt_upper_bound; lia.
Qed.

Lemma length_zfill_ge (w : nat) (s : string) :
  (w <= String.length (Py.zfill w s))%nat /\
  (String.length s <= String.length (Py.zfill w s))%nat.
Proof. unfold Py.zfill. rewrite length_append, length_zeros. lia. Qed.

Lemma length_format_0d_ge (w : nat) (n : Z) :
  0 <= n -> (w <= String.length (Py.format_0d w n))%nat.
Proof.
  intros Hn. destruct n; try lia; apply length_zfill_ge.
Qed.

Lemma length_format_0d_exact (w : nat) (n : Z) :
  (w = 2%nat /\ 0 <= n < 100) \/ (w = 3%nat /\ 0 <= n < 1000) ->
  String.length (Py.format_0d w n) = w.
Proof.
  assert (forallb (fun k => String.length (Py.format_0d 2 (Z.of_nat k)) =? 2)%nat
            (seq 0 100) = true) as H2 by (vm_compute; reflexivity).
  assert (forallb (fun k => String.length (Py.format_0d 3 (Z.of_nat k)) =? 3)%nat
            (seq 0 1000) = true) as H3 by (vm_compute; reflexivity).
  rewrite forallb_forall in H2, H3.
  intros [[-> Hn]|[-> Hn]];
    rewrite <- (Z2Nat.id n) by lia; apply Nat.eqb_eq;
    [apply H2|apply H3]; apply in_seq; lia.
Qed.

Lemma matches_length (s : string) :
  matches_hms_pattern s = true -> String.length s = 12%nat.
Proof.
  unfold matches_hms_pattern. rewrite <- length_list_ascii.
  destruct (list_ascii_of_string s) as [|? l]; [discriminate|].
  do 11 (destruct l as [|? l]; [discriminate|]).
  destruct l; [reflexivity|discriminate].
Qed.

Lemma matches_of_fields (a b c d : string) :
  String.length a = 2%nat -> String.length b = 2%nat ->
  String.length c = 2%nat -> String.length d = 3%nat ->
  all_digits a = true -> all_digits b = true ->
  all_digits c = true -> all_digits d = true ->
  matches_hms_pattern
    (a +:+ String ":" (b +:+ String ":" (c +:+ String "." d))) = true.
Proof.
  intros La Lb Lc Ld Da Db Dc Dd.
  destruct a as [|a1 [|a2 [|]]]; try discriminate.
  destruct b as [|b1 [|b2 [|]]]; try discriminate.
  destruct c as [|c1 [|c2 [|]]]; try discriminate.
  destruct d as [|d1 [|d2 [|d3 [|]]]]; try discriminate.
  simpl in Da, Db, Dc, Dd.
  repeat match goal with
         | H : _ && _ = true |- _ => apply andb_true_iff in H as [? ?]
         end.
  unfold matches_hms_pattern.
  rewrite !append_cons, !append_nil_l. cbn [list_ascii_of_string].
  repeat match goal with
         | H : is_digit ?x = true |- context [is_digit ?x] => rewrite H
         end.
  reflexivity.
Qed.

End FormatTime.

Example format_time_zero : format_time 0 = "00:00:00.000".
Proof. reflexivity. Qed.

Example format_time_hms : format_time 3661001 = "01:01:01.001".
Proof. reflexivity. Qed.

Example format_time_negative : format_time (-1) = "-1:59:59.999".
Proof. reflexivity. Qed.

Example parse_time_hms : parse_time "01:01:01.001" = Some 3661001.
Proof. reflexivity. Qed.

(** C5 (as amended).  For every [t >= 0], reading the label
    [format_time t] back gives [t]; and the label has the fixed shape
    [dd:dd:dd.ddd] exactly when [t] is below one hundred hours
    (360,000,000 ms): the width 2 of the hours field is a minimum, so
    from one hundred hours on the field has three or more digits. *)
Theorem format_time_roundtrip_and_shape (t : Z) :
  0 <= t ->
  parse_time (format_time t) = Some t /\
  (matches_hms_pattern (format_time t) = true <-> t < 360000000).
Proof.
  intros Ht.
  destruct (fields_range t Ht) as (Hh & Hm & Hs & Hx & Hsum).
  rewrite format_time_fields. split.
  - unfold parse_time.
    rewrite split_at_first
      by (apply all_digits_lacks; [reflexivity|apply all_digits_format_0d; lia]).
    rewrite split_at_first
      by (apply all_digits_lacks; [reflexivity|apply all_digits_format_0d; lia]).
    rewrite split_at_first
      by (apply all_digits_lacks; [reflexivity|apply all_digits_format_0d; lia]).
    rewrite !parse_field_format_0d by lia.
    now rewrite Hsum.
  - rewrite <- (hours_small t Ht). split.
    + intros Hmatch. apply matches_length in Hmatch.
      rewrite !length_append in Hmatch. simpl in Hmatch.
      rewrite !length_append in Hmatch. simpl in Hmatch.
      rewrite !length_append in Hmatch. simpl in Hmatch.
      pose proof (length_format_0d_ge 2 (minutes_of t) ltac:(lia)).
      pose proof (length_format_0d_ge 2 (seconds_of t) ltac:(lia)).
      pose proof (length_format_0d_ge 3 (millis_of t) ltac:(lia)).
      apply Z.nle_gt. intros Hbig.
      assert (3 <= String.length (Py.format_0d 2 (hours_of t)))%nat; [|lia].
      destruct (hours_of t) as [|p|p] eqn:E; try lia.
      unfold Py.format_0d.
      pose proof (length_zfill_ge 2 (Py.dec_digits (Z.to_N (Z.pos p)))) as [_ Hl].
      pose proof (dec_digits_long (Z.to_N (Z.pos p)) ltac:(lia)). lia.
    + intros Hlt.
      apply matches_of_fields;
        try (apply length_format_0d_exact; lia);
        apply all_digits_format_0d; lia.
Qed.

(** Witness for C5: one hour, one minute, one second and one millisecond. *)
Lemma format_time_roundtrip_and_shape_witness :
  0 <= 3661001 /\
  parse_time (format_time 3661001) = Some 3661001 /\
  (matches_hms_pattern (format_time 3661001) = true <-> 3661001 < 360000000).
Proof.
  split; [lia|]. apply (format_time_roundtrip_and_shape 3661001). lia.
Defined.

(** C5 as stated fails at one hundred hours: the label is
    ["100:00:00.000"], thirteen characters long. *)
Lemma format_time_100_hours_off_pattern :
  0 <= 360000000 /\
  format_time 360000000 = "100:00:00.000" /\
  matches_hms_pattern (format_time 360000000) = false.
Proof. split; [lia|]. split; reflexivity. Qed.

(* ===================================================================== *)
(** * The recording loop *)
(* ===================================================================== *)

Section RecordLoop.

Variables (sink saved_as : string) (start_time timeout : Q).

Local Abbreviation body := (loop_body sink saved_as start_time timeout).
Local Abbreviation loop := (record_loop sink saved_as start_time timeout).

(** ** What the controlling thread's calls leave alone *)

(** Peel the first call off a non-empty list of calls. *)
Ltac first_call :=
  match goal with
  | |- context [run_calls (?c :: ?cs) ?s] =>
      change (run_calls (c :: cs) s) with (run_calls cs (run_call c s))
  end.

Lemma run_calls_app (cs ds : list Call) (s : USBRecord) :
  run_calls (cs ++ ds) s = run_calls ds (run_calls cs s).
Proof. unfold run_calls. apply fold_left_app. Qed.

Lemma run_calls_camera (cs : list Call) (s : USBRecord) :
  camera (run_calls cs s) = camera s.
Proof.
  revert s. induction cs as [|c cs IH]; intros s; [reflexivity|].
  first_call.
  rewrite IH. now destruct c.
Qed.

Lemma run_calls_opened (cs : list Call) (s : USBRecord) :
  camera_is_opened (run_calls cs s) = camera_is_opened s.
Proof. unfold camera_is_opened. now rewrite run_calls_camera. Qed.

Lemma run_calls_stop_stays (cs : list Call) (s : USBRecord) :
  is_stop_record s = true -> is_stop_record (run_calls cs s) = true.
Proof.
  revert s. induction cs as [|c cs IH]; intros s Hs; [exact Hs|].
  first_call.
  apply IH. now destruct c.
Qed.

Lemma run_calls_without_stop (cs : list Call) (s : USBRecord) :
  Forall (fun c => c <> CallStopRecord) cs ->
  is_stop_record (run_calls cs s) = is_stop_record s.
Proof.
  revert s. induction cs as [|c cs IH]; intros s Hcs; [reflexivity|].
  first_call.
  inversion Hcs as [|? ? Hc Hrest]; subst.
  rewrite (IH _ Hrest). destruct c; [reflexivity|congruence].
Qed.

(** ** The sink *)

Lemma video_frames_log (path : string) (lvl : Level) (msg : string) (w : World) :
  video_frames path (log lvl msg w) = video_frames path w.
Proof. reflexivity. Qed.

Lemma video_frames_write (path : string) (frame : Frame) (w : World) :
  video_frames path (writer_write path frame w) = video_frames path w ++ [frame].
Proof.
  unfold video_frames at 1, writer_write, put_file. simpl.
  now rewrite lookup_insert_eq.
Qed.

Lemma files_log (lvl : Level) (msg : string) (w : World) :
  w_files (log lvl msg w) = w_files w.
Proof. reflexivity. Qed.

(** ** One iteration *)

Lemma camera_read_opened (s : USBRecord) (tick : Tick) :
  camera_is_opened s = true ->
  camera_read (camera s) tick = Py.Returns (tk_read tick).
Proof.
  unfold camera_is_opened, camera_read.
  destruct (camera s) as [c|]; [|discriminate]. now intros ->.
Qed.

Lemma mark_frame_keeps (tick : Tick) (frame : Frame) (s : USBRecord) :
  let s1 := fst (mark_frame tick frame s) in
  camera s1 = camera s /\ is_stop_record s1 = is_stop_record s /\
  record_mark s1 = record_mark s.
Proof.
  unfold mark_frame. destruct (record_mark s) eqn:Hm; [|simpl; auto].
  destruct (start_mark_time s); simpl; auto.
Qed.

(** A failed read: a warning, nothing else, and the loop goes on. *)
Lemma body_read_fails (tick : Tick) (s : USBRecord) (w : World) :
  camera_read (camera s) tick = Py.Returns None ->
  body tick s w =
  Continue (run_calls (tk_calls tick) s)
           (log WARNING "Failed to capture image from camera." w).
Proof.
  intros H. unfold loop_body. now rewrite run_calls_camera, H.
Qed.

(** A delivered frame: label, write, then the exit test. *)
Lemma body_frame (tick : Tick) (frame : Frame) (s : USBRecord) (w : World) :
  camera_read (camera s) tick = Py.Returns (Some frame) ->
  let s0 := run_calls (tk_calls tick) s in
  let s1 := fst (mark_frame tick frame s0) in
  let w1 := writer_write sink (snd (mark_frame tick frame s0)) w in
  body tick s w =
  if is_stop_record s1 || Qle_bool timeout (tk_now_check tick - start_time)
  then Break s1 (log INFO ("Video saved as: " +:+ saved_as)
                   (log INFO "Stop record" w1))
  else Continue s1 w1.
Proof.
  intros H. unfold loop_body. rewrite run_calls_camera, H.
  now destruct (mark_frame tick frame (run_calls (tk_calls tick) s)).
Qed.

(** ** Runs of failed reads *)

Lemma warned_files (n : nat) (w : World) : w_files (warned n w) = w_files w.
Proof. revert w. induction n as [|n IH]; intros w; [reflexivity|]. simpl. now rewrite IH. Qed.

Lemma warned_frames (n : nat) (path : string) (w : World) :
  video_frames path (warned n w) = video_frames path w.
Proof. unfold video_frames. now rewrite warned_files. Qed.

Create Rewrite HintDb sink.
Hint Rewrite video_frames_log video_frames_write warned_frames : sink.

Lemma loop_skips_failures (fails rest : list Tick) (s : USBRecord) (w : World) :
  camera_is_opened s = true ->
  Forall (fun tk => tk_read tk = None) fails ->
  loop (fails ++ rest) s w =
  loop rest (run_calls (calls_of fails) s) (warned (List.length fails) w).
Proof.
  revert s w. induction fails as [|tk fails IH]; intros s w Hcam Hf; [reflexivity|].
  inversion Hf as [|? ? Hr Hrest]; subst.
  change ((tk :: fails) ++ rest) with (tk :: (fails ++ rest)).
  simpl record_loop.
  rewrite body_read_fails by (rewrite camera_read_opened, Hr; auto).
  rewrite IH by (rewrite ?run_calls_opened; auto).
  unfold calls_of. simpl. now rewrite run_calls_app.
Qed.

Lemma run_calls_with_stop (cs : list Call) (s : USBRecord) :
  In CallStopRecord cs -> is_stop_record (run_calls cs s) = true.
Proof.
  intros Hin. apply in_split in Hin as (l1 & l2 & ->).
  rewrite run_calls_app.
  change (run_calls (CallStopRecord :: l2) (run_calls l1 s))
    with (run_calls l2 (set_is_stop_record true (run_calls l1 s))).
  now apply run_calls_stop_stays.
Qed.

Lemma mark_frame_pixels (tick : Tick) (frame : Frame) (s : USBRecord) :
  frame_pixels (snd (mark_frame tick frame s)) = frame_pixels frame.
Proof.
  unfold mark_frame. destruct (record_mark s); [|reflexivity].
  destruct (start_mark_time s); reflexivity.
Qed.

(** ** C1: a failed read *)

(** C1 (as amended).  When [camera.read()] reports failure, the iteration
    logs one warning, writes nothing (the files, the output among them, are
    as before) and the loop goes on to its next iteration, where the read is
    attempted again: the failure by itself does not end the loop. *)
Theorem read_failure_warns_and_retries
    (tick : Tick) (rest : list Tick) (s : USBRecord) (w : World) :
  camera_read (camera s) tick = Py.Returns None ->
  let s' := run_calls (tk_calls tick) s in
  let w' := log WARNING "Failed to capture image from camera." w in
  body tick s w = Continue s' w' /\
  w_files w' = w_files w /\
  loop (tick :: rest) s w = loop rest s' w'.
Proof.
  intros H s' w'. split; [now apply body_read_fails|].
  split; [reflexivity|].
  simpl record_loop. now rewrite body_read_fails.
Qed.

(** ** C2: a stop request *)


(** ** C6: the timeout *)

Lemma body_keeps_opened_and_flag (tick : Tick) (s s' : USBRecord) (w w' : World) :
  body tick s w = Continue s' w' ->
  camera s' = camera s /\
  is_stop_record s' = is_stop_record (run_calls (tk_calls tick) s) /\
  exists added, video_frames sink w' = video_frames sink w ++ added.
Proof.
  unfold loop_body. rewrite run_calls_camera.
  destruct (camera_read (camera s) tick) as [[frame|]|e]; [| |discriminate].
  - pose proof (mark_frame_keeps tick frame (run_calls (tk_calls tick) s)) as (Hc & Hs & _).
    destruct (mark_frame tick frame (run_calls (tk_calls tick) s)) as [s1 f1].
    simpl in Hc, Hs.
    destruct (is_stop_record s1 || _); [discriminate|].
    intros [= <- <-]. rewrite Hc, Hs, run_calls_camera.
    repeat split. exists [f1]. apply video_frames_write.
  - intros [= <- <-]. rewrite run_calls_camera. repeat split.
    exists []. now rewrite video_frames_log, app_nil_r.
Qed.


(** ** Labels below a tenth of a second *)

Lemma format_time_below_100ms (ms : Z) :
  0 <= ms < 100 ->
  format_time ms = "00:00:00.0" +:+ Py.format_0d 2 ms.
Proof.
  assert (forallb (fun k => String.eqb (format_time (Z.of_nat k))
                              ("00:00:00.0" +:+ Py.format_0d 2 (Z.of_nat k)))
            (seq 0 100) = true) as H by (vm_compute; reflexivity).
  rewrite forallb_forall in H. intros Hms.
  rewrite <- (Z2Nat.id ms) by lia. apply String.eqb_eq, H, in_seq. lia.
Qed.

End RecordLoop.

(* ===================================================================== *)
(** * [start_record]: what entering a recording resets *)
(* ===================================================================== *)

Section StartRecord.

Lemma anchor_blind_stale (stale : option Q) (s : USBRecord) :
  record_mark s = false -> anchor_blind s (set_start_mark_time stale s).
Proof. intros H. right. repeat split; auto. Qed.

Lemma anchor_blind_camera (s s' : USBRecord) :
  anchor_blind s s' -> camera s = camera s'.
Proof.
  intros [->|(_ & _ & H)]; [reflexivity|].
  now apply (f_equal camera) in H.
Qed.

Lemma anchor_blind_stop (s s' : USBRecord) :
  anchor_blind s s' -> is_stop_record s = is_stop_record s'.
Proof.
  intros [->|(_ & _ & H)]; [reflexivity|].
  now apply (f_equal is_stop_record) in H.
Qed.

Lemma run_call_blind (c : Call) (s s' : USBRecord) :
  anchor_blind s s' -> anchor_blind (run_call c s) (run_call c s').
Proof.
  intros [->|(Hm & Hm' & H)]; [now left|].
  destruct c.
  - left.
    change (set_record_mark true (set_start_mark_time None s) =
            set_record_mark true (set_start_mark_time None s')).
    now rewrite H.
  - right. repeat split; auto.
    change (set_is_stop_record true (set_start_mark_time None s) =
            set_is_stop_record true (set_start_mark_time None s')).
    now rewrite H.
Qed.

Lemma run_calls_blind (cs : list Call) (s s' : USBRecord) :
  anchor_blind s s' -> anchor_blind (run_calls cs s) (run_calls cs s').
Proof.
  revert s s'. induction cs as [|c cs IH]; intros s s' H; [exact H|].
  change (anchor_blind (run_calls cs (run_call c s)) (run_calls cs (run_call c s'))).
  now apply IH, run_call_blind.
Qed.

Lemma step_blind_refl (a : Step) : step_blind a a.
Proof. destruct a; simpl; repeat split; now left. Qed.

Lemma loop_body_blind (sink saved_as : string) (start_time timeout : Q)
    (tick : Tick) (s s' : USBRecord) (w : World) :
  anchor_blind s s' ->
  step_blind (loop_body sink saved_as start_time timeout tick s w)
             (loop_body sink saved_as start_time timeout tick s' w).
Proof.
  intros H. apply (run_calls_blind (tk_calls tick)) in H.
  unfold loop_body.
  set (s0 := run_calls (tk_calls tick) s) in *.
  set (s0' := run_calls (tk_calls tick) s') in *.
  destruct H as [->|(Hm & Hm' & H)]; [apply step_blind_refl|].
  assert (anchor_blind s0 s0') as Hb by (right; auto).
  rewrite <- (anchor_blind_camera _ _ Hb).
  destruct (camera_read (camera s0) tick) as [[frame|]|e]; simpl; auto.
  unfold mark_frame. rewrite Hm, Hm'.
  rewrite <- (anchor_blind_stop _ _ Hb).
  destruct (is_stop_record s0 || _); simpl; auto.
Qed.

Lemma record_loop_blind (sink saved_as : string) (start_time timeout : Q)
    (ticks : list Tick) (s s' : USBRecord) (w : World) :
  anchor_blind s s' ->
  let r := record_loop sink saved_as start_time timeout ticks s w in
  let r' := record_loop sink saved_as start_time timeout ticks s' w in
  r.1.1 = r'.1.1 /\ anchor_blind r.1.2 r'.1.2 /\ r.2 = r'.2.
Proof.
  revert s s' w. induction ticks as [|tick ticks IH]; intros s s' w H; [simpl; auto|].
  simpl record_loop.
  pose proof (loop_body_blind sink saved_as start_time timeout tick s s' w H) as Hstep.
  destruct (loop_body sink saved_as start_time timeout tick s w)
    as [s1 w1|s1 w1|e1 s1 w1];
    destruct (loop_body sink saved_as start_time timeout tick s' w)
    as [s2 w2|s2 w2|e2 s2 w2]; simpl in Hstep; try contradiction.
  - destruct Hstep as [Hb <-]. now apply IH.
  - destruct Hstep as [Hb <-]. simpl. auto.
  - destruct Hstep as (<- & Hb & <-). simpl. auto.
Qed.

Lemma record_except_blind (r r' : LoopEnd * USBRecord * World) :
  r.1.1 = r'.1.1 /\ anchor_blind r.1.2 r'.1.2 /\ r.2 = r'.2 ->
  (record_except r).1.1 = (record_except r').1.1 /\
  anchor_blind (record_except r).1.2 (record_except r').1.2 /\
  (record_except r).2 = (record_except r').2.
Proof.
  destruct r as [[e s] w], r' as [[e' s'] w']. simpl.
  intros (<- & Hb & <-). destruct e as [|x|]; simpl; auto.
  destruct (Py.is_Exception x); simpl; auto.
Qed.

Lemma ensure_camera_keeps (dev : Device) (s : USBRecord) (w : World) :
  let s' := (ensure_camera dev s w).1 in
  is_stop_record s' = is_stop_record s /\ record_mark s' = record_mark s /\
  start_mark_time s' = start_mark_time s /\ save_path s' = save_path s.
Proof.
  unfold ensure_camera, open_record_camera.
  destruct (camera_is_opened s); [simpl; auto|].
  destruct (dev_construct_raises dev); simpl; auto.
Qed.

Lemma ensure_camera_blind (dev : Device) (s s' : USBRecord) (w : World) :
  anchor_blind s s' ->
  anchor_blind (ensure_camera dev s w).1 (ensure_camera dev s' w).1 /\
  (ensure_camera dev s w).2 = (ensure_camera dev s' w).2.
Proof.
  intros H. pose proof (anchor_blind_camera _ _ H) as Hc.
  destruct H as [->|(Hm & Hm' & H)]; [split; [now left|reflexivity]|].
  unfold ensure_camera, camera_is_opened. rewrite <- Hc.
  destruct (camera s) as [c|].
  - destruct (cap_opened c); simpl.
    + split; [right; auto|reflexivity].
    + unfold open_record_camera.
      apply (f_equal device_index) in H as Hd. simpl in Hd.
      destruct (dev_construct_raises dev); simpl.
      * split; [right; auto|reflexivity].
      * rewrite Hd. split; [|reflexivity]. right. repeat split; auto.
        simpl.
        apply (f_equal (fun x => set_act_frame (Some (dev_width dev))
                 (Some (dev_height dev)) (Some (dev_fps dev))
                 (set_camera (Some {| cap_opened :=
                     dev_opened_on_construct dev || dev_opened_on_retry dev;
                     cap_release_calls := 0 |}) x))) in H.
        exact H.
  - unfold open_record_camera.
    apply (f_equal device_index) in H as Hd. simpl in Hd.
    destruct (dev_construct_raises dev); simpl.
    + split; [right; auto|reflexivity].
    + rewrite Hd. split; [|reflexivity]. right. repeat split; auto.
      simpl.
      apply (f_equal (fun x => set_act_frame (Some (dev_width dev))
               (Some (dev_height dev)) (Some (dev_fps dev))
               (set_camera (Some {| cap_opened :=
                   dev_opened_on_construct dev || dev_opened_on_retry dev;
                   cap_release_calls := 0 |}) x))) in H.
      exact H.
Qed.

Lemma anchor_blind_fields (s s' : USBRecord) :
  anchor_blind s s' ->
  save_path s = save_path s' /\ act_frame_fps s = act_frame_fps s' /\
  act_frame_width s = act_frame_width s' /\
  act_frame_height s = act_frame_height s'.
Proof.
  intros [->|(_ & _ & H)]; [auto|].
  pose proof (f_equal save_path H). pose proof (f_equal act_frame_fps H).
  pose proof (f_equal act_frame_width H). pose proof (f_equal act_frame_height H).
  auto.
Qed.

Lemma set_record_name_blind (v : option string) (s s' : USBRecord) :
  anchor_blind s s' -> anchor_blind (set_record_name v s) (set_record_name v s').
Proof.
  intros [->|(Hm & Hm' & H)]; [now left|]. right. repeat split; auto.
  change (set_record_name v (set_start_mark_time None s) =
          set_record_name v (set_start_mark_time None s')).
  now rewrite H.
Qed.

Lemma set_filename_blind (v : option string) (s s' : USBRecord) :
  anchor_blind s s' -> anchor_blind (set_filename v s) (set_filename v s').
Proof.
  intros [->|(Hm & Hm' & H)]; [now left|]. right. repeat split; auto.
  change (set_filename v (set_start_mark_time None s) =
          set_filename v (set_start_mark_time None s')).
  now rewrite H.
Qed.


End StartRecord.

(* ===================================================================== *)
(** * [stop_record] *)
(* ===================================================================== *)


(* ===================================================================== *)
(** * [video_slice] *)
(* ===================================================================== *)

Section VideoSlice.

Variables (dir name : string).

Local Abbreviation frame_path := (frame_path dir name).

Lemma append_inj_r (s s' t : string) : s +:+ t = s' +:+ t -> s = s'.
Proof.
  intros H.
  assert (String.length s = String.length s') as Hlen.
  { apply (f_equal String.length) in H. rewrite !length_append in H. lia. }
  revert s' H Hlen. induction s as [|a s IH]; intros [|a' s'] H Hlen;
    try discriminate; [reflexivity|].
  rewrite !append_cons in H. injection H as -> H.
  f_equal. apply IH; [exact H|]. simpl in Hlen. lia.
Qed.

Lemma dec_digits_inj (m n : N) : Py.dec_digits m = Py.dec_digits n -> m = n.
Proof.
  unfold Py.dec_digits. intros H.
  apply DecimalN.Unsigned.to_uint_inj.
  apply (f_equal NilEmpty.uint_of_string) in H.
  rewrite !NilEmpty.usu in H. congruence.
Qed.

Lemma frame_file_inj (i j : nat) : frame_file name i = frame_file name j -> i = j.
Proof.
  unfold frame_file. intros H.
  apply (inj (String.app name)) in H.
  apply (inj (String.app "_frame_count_")) in H.
  apply append_inj_r, dec_digits_inj in H. lia.
Qed.

Lemma frame_file_sep (i j : nat) :
  Py.starts_with_sep (frame_file name i) = Py.starts_with_sep (frame_file name j).
Proof. unfold frame_file. destruct name; reflexivity. Qed.

Lemma frame_path_inj (i j : nat) : frame_path i = frame_path j -> i = j.
Proof.
  unfold frame_path, Py.path_join. rewrite (frame_file_sep i j).
  destruct (Py.starts_with_sep (frame_file name j)).
  - apply frame_file_inj.
  - destruct (_ || _); intros H; apply (inj (String.app dir)) in H.
    + now apply frame_file_inj.
    + injection H as H. now apply frame_file_inj.
Qed.

Lemma frame_paths_distinct (n : nat) : NoDup (map frame_path (seq 0 n)).
Proof.
  apply NoDup_fmap_2; [|apply NoDup_seq].
  intros i j. apply frame_path_inj.
Qed.

(** The loop numbers the frames from its starting count upwards, writes
    one image per frame, and touches nothing else. *)
Lemma slice_loop_spec (frames : list Frame) (k : nat) (w : World) :
  let r := slice_loop dir name frames k w in
  r.1 = (k + List.length frames)%nat /\
  w_log r.2 = w_log w /\ w_dirs r.2 = w_dirs w /\
  (forall i frame, frames !! i = Some frame ->
     w_files r.2 !! frame_path (k + i) = Some (ImageFile frame)) /\
  (forall p, (forall i, (i < List.length frames)%nat -> p <> frame_path (k + i)) ->
     w_files r.2 !! p = w_files w !! p).
Proof.
  revert k w. induction frames as [|f frames IH]; intros k w.
  - simpl. split; [lia|]. repeat split; auto. intros i frame H. discriminate.
  - simpl slice_loop. fold (frame_path k).
    destruct (IH (S k) (imwrite (frame_path k) f w)) as (H1 & H2 & H3 & H4 & H5).
    cbv zeta. split; [rewrite H1; simpl; lia|].
    split; [now rewrite H2|]. split; [now rewrite H3|]. split.
    + intros [|i] frame Hi.
      * simpl in Hi. injection Hi as ->. rewrite Nat.add_0_r.
        rewrite H5.
        -- simpl. apply lookup_insert_eq.
        -- intros i _ Heq. apply frame_path_inj in Heq. lia.
      * simpl in Hi. replace (k + S i)%nat with (S k + i)%nat by lia.
        now apply H4.
    + intros p Hp. rewrite H5.
      * simpl. apply lookup_insert_ne. intros Heq.
        apply (Hp 0%nat); [simpl; lia|]. now rewrite Nat.add_0_r.
      * intros i Hi. replace (S k + i)%nat with (k + S i)%nat by lia.
        apply Hp. simpl. lia.
Qed.

End VideoSlice.

(** C7 (as amended).  On an artifact with the decodable frames [frames],
    [video_slice] writes one image per frame, frame number [i] to the path
    numbered [i], for [i] from [0] to [N-1]; these paths are pairwise
    distinct and no other path is touched; running out of frames ends the
    loop without an error and the call comes back.  The count reached by
    the local [frame_count] is [N], but what the call hands back is [None]. *)
Theorem video_slice_numbers_frames
    (s : USBRecord) (w : World) (sp name fn : string) (frames : list Frame) :
  save_path s = Some sp -> record_name s = Some name -> filename s = Some fn ->
  w_files w !! fn = Some (VideoFile frames) ->
  let dir := Py.path_join sp name in
  let n := List.length frames in
  let r := video_slice s w in
  r.1 = Py.Returns Py.VNone /\
  (forall i frame, frames !! i = Some frame ->
     w_files r.2 !! frame_path dir name i = Some (ImageFile frame)) /\
  (forall p, (forall i, (i < n)%nat -> p <> frame_path dir name i) ->
     w_files r.2 !! p = w_files w !! p) /\
  NoDup (map (frame_path dir name) (seq 0 n)) /\
  (forall w0, (slice_loop dir name frames 0 w0).1 = n) /\
  w_log r.2 = w_log w ++ [(INFO, "Record has been sliced: " +:+ dir)].
Proof.
  intros Hsp Hname Hfn Hfile dir n r.
  subst r. unfold video_slice. rewrite Hsp, Hname, Hfn. fold dir.
  set (w1 := if path_exists dir w then w else makedirs dir w).
  assert (w_files w1 = w_files w /\ w_log w1 = w_log w) as [Hf1 Hl1]
    by (unfold w1; destruct (path_exists dir w); auto).
  unfold slice_try. rewrite Hf1, Hfile.
  destruct (slice_loop_spec dir name frames 0 w1) as (H1 & H2 & H3 & H4 & H5).
  destruct (slice_loop dir name frames 0 w1) as [cnt w2]. simpl in *.
  split; [reflexivity|].
  split; [intros i frame Hi; now apply H4|].
  split; [intros p Hp; rewrite H5, Hf1; auto|].
  split; [apply frame_paths_distinct|].
  split; [intros w0; apply (slice_loop_spec dir name frames 0 w0)|].
  now rewrite H2, Hl1.
Qed.

(** C8 (as amended).  When the path in [self.filename] holds no readable
    container (nothing at all, or something no decoder accepts), the call
    logs one error and leaves through [sys.exit(1)]: [SystemExit] passes
    the [except Exception] clause and reaches the caller as an exception,
    after the [finally] clause.  No file is written or changed; the
    directory for the images, however, was created before the attempt if
    it did not exist. *)
Theorem video_slice_unreadable_exits
    (s : USBRecord) (w : World) (sp name fn : string) :
  save_path s = Some sp -> record_name s = Some name -> filename s = Some fn ->
  (forall frames, w_files w !! fn <> Some (VideoFile frames)) ->
  let dir := Py.path_join sp name in
  let r := video_slice s w in
  r.1 = Py.Raises (Py.SystemExit 1) /\
  w_files r.2 = w_files w /\
  w_dirs r.2 = (if path_exists dir w then w_dirs w else {[dir]} ∪ w_dirs w) /\
  w_log r.2 = w_log w ++ [(ERROR, "Failed to open video file.")].
Proof.
  intros Hsp Hname Hfn Hfile dir r.
  subst r. unfold video_slice. rewrite Hsp, Hname, Hfn. fold dir.
  set (w1 := if path_exists dir w then w else makedirs dir w).
  assert (w_files w1 = w_files w /\ w_log w1 = w_log w /\
          w_dirs w1 = if path_exists dir w then w_dirs w else {[dir]} ∪ w_dirs w)
    as (Hf1 & Hl1 & Hd1)
    by (unfold w1; destruct (path_exists dir w); auto).
  unfold slice_try. rewrite Hf1.
  destruct (w_files w !! fn) as [[frames| |]|] eqn:E; simpl;
    try (now rewrite ?Hf1, ?Hl1, ?Hd1).
  exfalso. now apply (Hfile frames).
Qed.

(* ===================================================================== *)
(** * [release_camera] *)
(* ===================================================================== *)

(** C9 (as amended).  Two calls of [release_camera] in a row do not fail,
    and the camera is closed after the first and after the second.  The
    second call is not idle, though: the attribute still holds the handle,
    so [release()] is invoked on it once more and the release is logged
    once more.  Only an object without a handle is left as it is.
    [__del__] does what [release_camera] does. *)
Theorem release_camera_twice (s : USBRecord) (w : World) :
  let r1 := release_camera s w in
  let r2 := release_camera r1.1 r1.2 in
  camera_is_opened r1.1 = false /\ camera_is_opened r2.1 = false /\
  match camera s with
  | None => r1 = (s, w) /\ r2 = (s, w)
  | Some c =>
      camera r2.1 =
        Some {| cap_opened := false;
                cap_release_calls := S (S (cap_release_calls c)) |} /\
      w_log r2.2 = w_log w ++ [(INFO, "Camera resources have been released.");
                               (INFO, "Camera resources have been released.")]
  end /\
  __del__ r1.1 r1.2 = r2.
Proof.
  intros r1 r2. subst r1 r2. unfold __del__, release_camera, camera_is_opened.
  destruct (camera s) as [c|] eqn:E; simpl; rewrite ?E; simpl.
  - repeat split; auto. now rewrite <- app_assoc.
  - repeat split; auto; now rewrite E.
Qed.

(* ===================================================================== *)
(** * The claims on the concrete run *)
(* ===================================================================== *)

(** C1 as stated fails: after a failed read the loop is still running, and
    the frame of the following read is in the output. *)
Lemma read_failure_does_not_end_loop :
  camera_read (camera Demo.opened) Demo.tick_fail = Py.Returns None /\
  (Demo.record [Demo.tick_fail] Demo.opened Demo.world0).1.1 = LoopRunning /\
  let r := Demo.record [Demo.tick_fail; Demo.tick_frame1] Demo.opened Demo.world0 in
  r.1.1 = LoopRunning /\ video_frames Demo.avi r.2 = [Demo.frame1].
Proof. vm_compute. repeat split; reflexivity. Qed.

(** Witness for C1. *)
Lemma read_failure_warns_and_retries_witness :
  camera_read (camera Demo.opened) Demo.tick_fail = Py.Returns None /\
  record_loop Demo.avi "a.avi" 100 60 [Demo.tick_fail; Demo.tick_frame1]
    Demo.opened Demo.world0 =
  record_loop Demo.avi "a.avi" 100 60 [Demo.tick_frame1] Demo.opened
    (log WARNING "Failed to capture image from camera." Demo.world0).
Proof.
  split; [reflexivity|].
  apply (read_failure_warns_and_retries Demo.avi "a.avi" 100 60 Demo.tick_fail
           [Demo.tick_frame1] Demo.opened Demo.world0).
  reflexivity.
Defined.






(** C7 as stated fails on the return value: two frames are extracted and
    the call hands back [None]. *)
Lemma video_slice_returns_none :
  let s := Demo.session1.1.2 in
  let w := Demo.session1.2 in
  List.length (video_frames Demo.avi w) = 2%nat /\
  filename s = Some Demo.avi /\
  (video_slice s w).1 = Py.Returns Py.VNone /\
  (video_slice s w).1 <> Py.Returns (Py.VInt 2).
Proof. vm_compute. repeat split; try reflexivity. discriminate. Qed.

(** C8 as stated fails twice over: the call ends in [SystemExit(1)], and
    the image directory has been created by then. *)
Lemma video_slice_missing_file_exits :
  let dir := Py.path_join Demo.out_dir "case_20240426_214103_1" in
  w_files Demo.world0 !! Demo.avi = None /\
  path_exists dir Demo.world0 = false /\
  (video_slice Demo.lost Demo.world0).1 = Py.Raises (Py.SystemExit 1) /\
  path_exists dir (video_slice Demo.lost Demo.world0).2 = true.
Proof. vm_compute. repeat split; reflexivity. Qed.

(** C9 as stated fails: the second call invokes [release()] on the handle
    again and logs again. *)
Lemma second_release_is_not_idle :
  let r1 := release_camera Demo.opened Demo.world0 in
  let r2 := release_camera r1.1 r1.2 in
  camera r1.1 = Some {| cap_opened := false; cap_release_calls := 1 |} /\
  camera r2.1 = Some {| cap_opened := false; cap_release_calls := 2 |} /\
  List.length (w_log r1.2) = 1%nat /\ List.length (w_log r2.2) = 2%nat.
Proof. vm_compute. repeat split; reflexivity. Qed.

(** Witness for C7: the two frames of the first recording. *)
Lemma video_slice_numbers_frames_witness :
  let s := Demo.session1.1.2 in
  let w := Demo.session1.2 in
  let frames := [draw_timestamp Demo.frame1 "00:00:00.010";
                 draw_timestamp Demo.frame2 "00:00:01.000"] in
  save_path s = Some Demo.out_dir /\
  record_name s = Some "case_20240426_214103_1" /\
  filename s = Some Demo.avi /\
  w_files w !! Demo.avi = Some (VideoFile frames) /\
  (video_slice s w).1 = Py.Returns Py.VNone /\
  w_files (video_slice s w).2 !!
    "Videos/20240426_214100/case_20240426_214103_1/case_20240426_214103_1_frame_count_1.jpg"
  = Some (ImageFile (draw_timestamp Demo.frame2 "00:00:01.000")).
Proof.
  intros s w frames.
  assert (save_path s = Some Demo.out_dir) as H1 by (vm_compute; reflexivity).
  assert (record_name s = Some "case_20240426_214103_1") as H2
    by (vm_compute; reflexivity).
  assert (filename s = Some Demo.avi) as H3 by (vm_compute; reflexivity).
  assert (w_files w !! Demo.avi = Some (VideoFile frames)) as H4
    by (vm_compute; reflexivity).
  repeat (split; [assumption|]).
  destruct (video_slice_numbers_frames s w _ _ _ _ H1 H2 H3 H4) as (R1 & R2 & _).
  split; [exact R1|].
  exact (R2 1%nat _ eq_refl).
Defined.

(** Witness for C8: nothing is stored at the artifact's path. *)
Lemma video_slice_unreadable_exits_witness :
  save_path Demo.lost = Some Demo.out_dir /\
  record_name Demo.lost = Some "case_20240426_214103_1" /\
  filename Demo.lost = Some Demo.avi /\
  (forall frames, w_files Demo.world0 !! Demo.avi <> Some (VideoFile frames)) /\
  (video_slice Demo.lost Demo.world0).1 = Py.Raises (Py.SystemExit 1) /\
  w_files (video_slice Demo.lost Demo.world0).2 = w_files Demo.world0.
Proof.
  assert (forall frames, w_files Demo.world0 !! Demo.avi <> Some (VideoFile frames))
    as H4 by (intros frames; vm_compute; discriminate).
  split; [reflexivity|]. split; [reflexivity|]. split; [reflexivity|].
  split; [exact H4|].
  destruct (video_slice_unreadable_exits Demo.lost Demo.world0 _ _ _
              eq_refl eq_refl eq_refl H4) as (R1 & R2 & _).
  split; [exact R1|exact R2].
Defined.


(* ===================================================================== *)
(** * The rest of the script *)
(* ===================================================================== *)

Section Paths.

Lemma ends_with_sep_append (a b : string) :
  b <> EmptyString -> Py.ends_with_sep (a +:+ b) = Py.ends_with_sep b.
Proof.
  intros Hb. induction a as [|c a IH]; [reflexivity|].
  rewrite append_cons. simpl. rewrite IH.
  destruct (a +:+ b) eqn:E; [|reflexivity].
  apply (f_equal String.length) in E. rewrite length_append in E.
  destruct b; [congruence|simpl in E; lia].
Qed.

Lemma last_char_append (a b : string) :
  b <> EmptyString -> last_char (a +:+ b) = last_char b.
Proof.
  intros Hb. induction a as [|c a IH]; [reflexivity|].
  rewrite append_cons. simpl. rewrite IH.
  destruct (a +:+ b) eqn:E; [|reflexivity].
  apply (f_equal String.length) in E. rewrite length_append in E.
  destruct b; [congruence|simpl in E; lia].
Qed.

(** A relative second part is appended, with a separator unless the first
    part is empty or brings one. *)
Lemma path_join_relative (a b : string) :
  Py.starts_with_sep b = false ->
  Py.path_join a b =
  if (String.length a =? 0)%nat || Py.ends_with_sep a then a +:+ b
  else a +:+ String Py.sep b.
Proof. intros H. unfold Py.path_join. now rewrite H. Qed.

(** Whatever the first part, the joined path ends as the second does. *)
Lemma last_char_path_join (a b : string) :
  b <> EmptyString -> last_char (Py.path_join a b) = last_char b.
Proof.
  intros Hb. unfold Py.path_join.
  destruct (Py.starts_with_sep b); [reflexivity|].
  destruct (_ || _).
  - now apply last_char_append.
  - rewrite (last_char_append a (String Py.sep b)) by discriminate.
    destruct b; [congruence|reflexivity].
Qed.

Lemma videos_dir_shape (cwd : string) :
  let main := Py.path_join cwd "Videos" in
  Py.ends_with_sep main = false /\ (String.length main =? 0)%nat = false.
Proof.
  intros main. subst main. rewrite path_join_relative by reflexivity.
  destruct (_ || _).
  - split; [now rewrite ends_with_sep_append|].
    rewrite length_append. simpl. apply Nat.eqb_neq. lia.
  - split; [now rewrite ends_with_sep_append|].
    rewrite length_append. simpl. apply Nat.eqb_neq. lia.
Qed.

Lemma run_dir_shape (cwd time_str : string) :
  Py.starts_with_sep time_str = false ->
  let main := Py.path_join cwd "Videos" in
  Py.path_join main time_str = main +:+ String Py.sep time_str /\
  Py.path_join main time_str <> main.
Proof.
  intros Ht main. destruct (videos_dir_shape cwd) as [He Hl]. fold main in He, Hl.
  rewrite path_join_relative by exact Ht. rewrite Hl, He. simpl.
  split; [reflexivity|]. intros H.
  apply (f_equal String.length) in H. rewrite length_append in H. simpl in H. lia.
Qed.

End Paths.

(* ===================================================================== *)
(** * [create_directory] *)
(* ===================================================================== *)

Lemma path_exists_makedirs (p q : string) (w : World) :
  path_exists p (makedirs q w) = path_exists p w || bool_decide (p = q).
Proof.
  unfold path_exists, makedirs. simpl.
  destruct (bool_decide (is_Some (w_files w !! p))); [now rewrite !orb_true_r|].
  rewrite !orb_false_r.
  apply eq_true_iff_eq. rewrite orb_true_iff, !bool_decide_eq_true. set_solver.
Qed.

(** X1.  When the time stamp does not begin with a separator, no regular
    file sits where the [Videos] directory goes, and nothing exists yet at
    the run directory, [create_directory] returns the path
    [<cwd>/Videos/<time stamp>]; afterwards the directories are those of
    before plus [Videos] and the run directory; no file and no log line is
    added. *)
Theorem create_directory_makes_run_dir (cwd time_str : string) (w : World) :
  let main := Py.path_join cwd "Videos" in
  let sub := Py.path_join main time_str in
  Py.starts_with_sep time_str = false ->
  w_files w !! main = None ->
  path_exists sub w = false ->
  let r := create_directory cwd time_str w in
  r.1 = Py.Returns sub /\ sub = main +:+ String Py.sep time_str /\
  w_dirs r.2 = {[sub]} ∪ ({[main]} ∪ w_dirs w) /\
  w_files r.2 = w_files w /\ w_log r.2 = w_log w.
Proof.
  intros main sub Ht Hfile Hsub r.
  destruct (run_dir_shape cwd time_str Ht) as [Hshape Hne].
  fold main in Hshape, Hne. fold sub in Hshape, Hne.
  subst r. unfold create_directory. fold main. fold sub.
  set (w1 := if path_exists main w then w else makedirs main w).
  assert (w_dirs w1 = {[main]} ∪ w_dirs w /\ w_files w1 = w_files w /\
          w_log w1 = w_log w) as (Hd & Hf & Hl).
  { unfold w1. destruct (path_exists main w) eqn:E; [|auto].
    repeat split. unfold path_exists in E. rewrite Hfile in E.
    apply orb_true_iff in E as [E|E]; apply bool_decide_eq_true in E.
    - set_solver.
    - destruct E; discriminate. }
  assert (path_exists sub w1 = false) as Hsub1.
  { unfold w1. destruct (path_exists main w); [exact Hsub|].
    rewrite path_exists_makedirs, Hsub. simpl.
    apply bool_decide_eq_false. exact Hne. }
  unfold os_makedirs. rewrite Hsub1. simpl.
  repeat split; auto. now rewrite Hd.
Qed.

(** X2.  [create_directory] cannot be run twice under the same time stamp:
    after a call that returned, a second call with the same working
    directory and time stamp raises (the run directory exists) and leaves
    the world as it found it. *)
Theorem create_directory_twice_raises
    (cwd time_str path : string) (w w' : World) :
  create_directory cwd time_str w = (Py.Returns path, w') ->
  create_directory cwd time_str w' = (Py.Raises Py.OtherException, w').
Proof.
  unfold create_directory.
  set (main := Py.path_join cwd "Videos").
  set (sub := Py.path_join main time_str).
  set (w1 := if path_exists main w then w else makedirs main w).
  unfold os_makedirs.
  destruct (path_exists sub w1) eqn:Esub; [discriminate|].
  intros [= <- <-].
  assert (path_exists main w1 = true) as Hmain.
  { unfold w1. destruct (path_exists main w) eqn:E; [exact E|].
    rewrite path_exists_makedirs. rewrite bool_decide_eq_true_2 by reflexivity.
    apply orb_true_r. }
  assert (path_exists main (makedirs sub w1) = true) as Hmain'
    by (rewrite path_exists_makedirs, Hmain; reflexivity).
  rewrite Hmain'.
  assert (path_exists sub (makedirs sub w1) = true) as Hsub'.
  { rewrite path_exists_makedirs. rewrite (bool_decide_eq_true_2 (sub = sub)) by reflexivity.
    apply orb_true_r. }
  now rewrite Hsub'.
Qed.

(* ===================================================================== *)
(** * [show_and_select_camera] *)
(* ===================================================================== *)

Section SelectCamera.

Lemma dict_get_enumerate_from (l : list string) (k i : nat) :
  dict_get (enumerate_from k l) (k + i) = l !! i.
Proof.
  revert k i. induction l as [|x l IH]; intros k i; [reflexivity|].
  simpl. destruct i as [|i].
  - now rewrite Nat.add_0_r, Nat.eqb_refl.
  - assert ((k =? k + S i)%nat = false) as -> by (apply Nat.eqb_neq; lia).
    replace (k + S i)%nat with (S k + i)%nat by lia. apply IH.
Qed.

Lemma dict_get_enumerate (l : list string) (i : nat) :
  dict_get (enumerate l) i = l !! i.
Proof. apply (dict_get_enumerate_from l 0 i). Qed.

Lemma length_enumerate_from (l : list string) (k : nat) :
  List.length (enumerate_from k l) = List.length l.
Proof. revert k. induction l as [|x l IH]; intros k; simpl; auto. Qed.

Lemma log_lines_log (lines : list string) (w : World) :
  w_log (log_lines lines w) = w_log w ++ map (fun line => (INFO, line)) lines /\
  w_files (log_lines lines w) = w_files w /\
  w_dirs (log_lines lines w) = w_dirs w.
Proof.
  revert w. induction lines as [|x lines IH]; intros w.
  - simpl. now rewrite app_nil_r.
  - simpl. destruct (IH (log INFO x w)) as (H1 & H2 & H3).
    rewrite H1, H2, H3. simpl. now rewrite <- app_assoc.
Qed.

End SelectCamera.

(** X3.  [show_and_select_camera] returns an index exactly when the listing
    succeeded, the answer is an integer, and that integer is a position of
    the list; the menu logged before then shows every camera with its
    position, in order, and the last line names the camera at the chosen
    position. *)
Theorem select_camera_returns_listed_device
    (listing : Py.Outcome (list string)) (answer : Py.Outcome Z)
    (w : World) (i : Z) :
  let r := show_and_select_camera listing answer w in
  (r.1 = Py.Returns i <->
   exists l dev, listing = Py.Returns l /\ answer = Py.Returns i /\
                 0 <= i /\ l !! Z.to_nat i = Some dev) /\
  (forall l dev, listing = Py.Returns l -> answer = Py.Returns i ->
     0 <= i -> l !! Z.to_nat i = Some dev ->
     w_log r.2 =
       w_log w ++ [(INFO, menu_header l); (INFO, rule)] ++
       map (fun entry => (INFO, camera_line entry)) (enumerate l) ++
       [(INFO, rule); (INFO, selection_line i dev)]).
Proof.
  intros r. subst r. unfold show_and_select_camera.
  destruct listing as [[|x l]|e].
  - split.
    + split; [discriminate|]. intros (l & dev & [= <-] & _ & _ & H). discriminate.
    + intros l dev [= <-] _ _ H. discriminate.
  - set (cl := x :: l).
    unfold enumerate. rewrite length_enumerate_from. fold (enumerate cl).
    destruct answer as [index|e].
    + destruct ((0 <=? index) && (index <? Z.of_nat (List.length cl))) eqn:Hrange.
      * apply andb_true_iff in Hrange as [H0 H1].
        apply Z.leb_le in H0. apply Z.ltb_lt in H1.
        rewrite dict_get_enumerate.
        destruct (cl !! Z.to_nat index) as [dev|] eqn:Hdev.
        -- split.
           ++ split.
              ** intros [= <-]. exists cl, dev. auto.
              ** intros (l' & dev' & [= <-] & [= <-] & _ & _). reflexivity.
           ++ intros l' dev' [= <-] [= <-] _ Hd. rewrite Hdev in Hd.
              injection Hd as <-. unfold menu_header, selection_line.
              cbn [fst snd]. unfold log at 1 2. cbn [w_log].
              rewrite (proj1 (log_lines_log _ _)). cbn [w_log log].
              rewrite map_map, <- !app_assoc. reflexivity.
        -- apply lookup_ge_None in Hdev. lia.
      * split.
        -- split; [discriminate|].
           intros (l' & dev & [= <-] & [= <-] & H0 & Hd).
           apply lookup_lt_Some in Hd.
           apply andb_false_iff in Hrange as [H|H];
             [apply Z.leb_gt in H|apply Z.ltb_ge in H]; lia.
        -- intros l' dev [= <-] [= <-] H0 Hd. apply lookup_lt_Some in Hd.
           apply andb_false_iff in Hrange as [H|H];
             [apply Z.leb_gt in H|apply Z.ltb_ge in H]; lia.
    + split.
      * split; [discriminate|]. intros (l' & dev & _ & H & _). discriminate.
      * intros l' dev _ H. discriminate.
  - split.
    + split.
      * destruct (Py.is_Exception e); discriminate.
      * intros (l & dev & H & _). discriminate.
    + intros l dev H. discriminate.
Qed.

(* ===================================================================== *)
(** * [show_live_camera] *)
(* ===================================================================== *)

Section Preview.

Lemma int_of_Q_nonpos (q : Q) : (q <= 0)%Q -> Py.int_of_Q q <= 0.
Proof.
  destruct q as [n d]. unfold Qle, Py.int_of_Q. simpl. intros H.
  assert (0 <= Z.quot (- n) (Z.pos d)) by (apply Z.quot_pos; lia).
  rewrite Z.quot_opp_l in * by lia. lia.
Qed.

Lemma int_of_Q_mono (x y : Q) :
  (0 <= x)%Q -> (x <= y)%Q -> Py.int_of_Q x <= Py.int_of_Q y.
Proof.
  destruct x as [a b], y as [c d]. unfold Qle, Py.int_of_Q. simpl.
  intros H0 H. rewrite !Z.quot_div_nonneg by nia.
  apply Z.div_le_lower_bound; [lia|].
  pose proof (Z.mul_div_le a (Z.pos b) ltac:(lia)). nia.
Qed.

Lemma Qminus_le_r (t e1 e2 : Q) : (e1 <= e2)%Q -> (t - e2 <= t - e1)%Q.
Proof.
  destruct t as [tn td], e1 as [an ad], e2 as [bn bd].
  unfold Qle, Qminus, Qplus, Qopp. simpl. intros H. nia.
Qed.

Lemma Qminus_nonpos (t e : Q) : (t <= e)%Q -> (t - e <= 0)%Q.
Proof.
  destruct t as [tn td], e as [en ed].
  unfold Qle, Qminus, Qplus, Qopp. simpl. intros H. nia.
Qed.

Lemma remaining_time_nonneg (timeout elapsed : Q) :
  0 <= remaining_time timeout elapsed.
Proof. unfold remaining_time. lia. Qed.

Lemma remaining_time_mono (timeout e1 e2 : Q) :
  (e1 <= e2)%Q -> remaining_time timeout e2 <= remaining_time timeout e1.
Proof.
  intros H. unfold remaining_time.
  destruct (Z_le_gt_dec (Py.int_of_Q (timeout - e2)) 0) as [Hle|Hgt]; [lia|].
  assert (0 <= timeout - e2)%Q as Hpos.
  { apply Qnot_lt_le. intros Hneg. apply Qlt_le_weak, int_of_Q_nonpos in Hneg. lia. }
  pose proof (int_of_Q_mono _ _ Hpos (Qminus_le_r timeout e1 e2 H)). lia.
Qed.

Lemma remaining_time_over (timeout elapsed : Q) :
  (timeout <= elapsed)%Q -> remaining_time timeout elapsed = 0.
Proof.
  intros H. unfold remaining_time.
  pose proof (int_of_Q_nonpos _ (Qminus_nonpos _ _ H)). lia.
Qed.

Lemma remaining_time_floor (timeout elapsed : Q) :
  (elapsed <= timeout)%Q ->
  (inject_Z (remaining_time timeout elapsed) <= timeout - elapsed)%Q /\
  (timeout - elapsed < inject_Z (remaining_time timeout elapsed + 1))%Q.
Proof.
  intros H. unfold remaining_time.
  assert (0 <= timeout - elapsed)%Q as Hpos.
  { destruct timeout as [tn td], elapsed as [en ed].
    unfold Qle, Qminus, Qplus, Qopp in *. simpl in *. nia. }
  destruct (timeout - elapsed)%Q as [n d]. unfold Qle in Hpos. simpl in Hpos.
  unfold Py.int_of_Q. simpl Qnum. simpl Qden.
  rewrite Z.quot_div_nonneg by lia.
  assert (0 <= n / Z.pos d) as Hq by (apply Z.div_pos; lia).
  rewrite Z.max_r by lia.
  pose proof (Z.mul_div_le n (Z.pos d) ltac:(lia)) as Hlo.
  pose proof (Z.mul_succ_div_gt n (Z.pos d) ltac:(lia)) as Hhi.
  unfold Qle, Qlt. simpl. split; nia.
Qed.

Lemma format_0d_two_digits (n : Z) :
  0 <= n < 100 -> Py.format_0d 2 n = two_digits n.
Proof.
  assert (forallb (fun k => String.eqb (Py.format_0d 2 (Z.of_nat k))
                              (two_digits (Z.of_nat k)))
            (seq 0 100) = true) as H by (vm_compute; reflexivity).
  rewrite forallb_forall in H. intros Hn.
  rewrite <- (Z2Nat.id n) by lia. apply String.eqb_eq, H, in_seq. lia.
Qed.

End Preview.

(** X4.  The countdown of the preview shows the whole seconds that are
    left, never a negative time, and never runs backwards.  The remaining
    seconds are at least zero and do not grow as the elapsed time grows;
    until the timeout they are the integer part of what is left of it, and
    from the timeout on they are zero.  While fewer than 6000 of them
    remain the text is ["Countdown Clock: "] followed by the minutes in
    two decimal digits, a colon, and the seconds (below sixty) in two
    decimal digits; from the timeout on it reads
    ["Countdown Clock: 00:00"]. *)
Theorem countdown_runs_down_to_zero (timeout e1 e2 : Q) :
  (e1 <= e2)%Q ->
  let r := remaining_time timeout e2 in
  0 <= r <= remaining_time timeout e1 /\
  ((e2 <= timeout)%Q ->
   (inject_Z r <= timeout - e2)%Q /\ (timeout - e2 < inject_Z (r + 1))%Q) /\
  ((timeout <= e2)%Q -> r = 0) /\
  0 <= r mod 60 < 60 /\
  (r < 6000 ->
   countdown_clock timeout e2 =
     "Countdown Clock: " +:+ two_digits (r / 60) +:+ ":" +:+
     two_digits (r mod 60) /\
   String.length (countdown_clock timeout e2) = 22%nat) /\
  ((timeout <= e2)%Q -> countdown_clock timeout e2 = "Countdown Clock: 00:00").
Proof.
  intros H r.
  pose proof (remaining_time_nonneg timeout e2) as H0. fold r in H0.
  assert (0 <= r mod 60 < 60) as Hsec by (apply Z.mod_pos_bound; lia).
  split; [split; [exact H0|now apply remaining_time_mono]|].
  split; [now apply remaining_time_floor|].
  split; [now apply remaining_time_over|].
  split; [exact Hsec|].
  split.
  - intros Hlt.
    assert (0 <= r / 60 < 100) as Hmin
      by (split; [apply Z.div_pos; lia|apply Z.div_lt_upper_bound; lia]).
    assert (countdown_clock timeout e2 =
            "Countdown Clock: " +:+ two_digits (r / 60) +:+ ":" +:+
            two_digits (r mod 60)) as Hclock.
    { unfold countdown_clock. fold r.
      rewrite !format_0d_two_digits by lia. reflexivity. }
    split; [exact Hclock|]. rewrite Hclock. reflexivity.
  - intros Hover. unfold countdown_clock.
    now rewrite (remaining_time_over _ _ Hover).
Qed.

Section PreviewLoop.

Variables (start_time timeout : Q).

Lemma show_all_shown (frames : list Frame) (sc : Screen) :
  sc_shown (show_all frames sc) = sc_shown sc ++ frames.
Proof.
  revert sc. induction frames as [|f frames IH]; intros sc.
  - simpl. now rewrite app_nil_r.
  - simpl. rewrite IH. simpl. now rewrite <- app_assoc.
Qed.

Lemma show_all_app (fs gs : list Frame) (sc : Screen) :
  show_all (fs ++ gs) sc = show_all gs (show_all fs sc).
Proof. unfold show_all. apply fold_left_app. Qed.

Lemma preview_frames_app (s : USBRecord) (xs ys : list PreviewTick) :
  preview_frames start_time timeout s (xs ++ ys) =
  preview_frames start_time timeout s xs ++ preview_frames start_time timeout s ys.
Proof.
  induction xs as [|x xs IH]; [reflexivity|].
  simpl. destruct (pv_read x); simpl; now rewrite IH.
Qed.

Lemma preview_frames_goes_on (s : USBRecord) (ticks : list PreviewTick) :
  Forall (preview_goes_on start_time timeout) ticks ->
  List.length (preview_frames start_time timeout s ticks) = List.length ticks.
Proof.
  induction 1 as [|x xs [[f Hf] _] _ IH]; [reflexivity|].
  simpl. rewrite Hf. simpl. now rewrite IH.
Qed.

(** Iterations that deliver a frame and do not end the loop put their
    frames on the screen and change nothing else. *)
Lemma preview_loop_goes_on (before rest : list PreviewTick)
    (s : USBRecord) (w : World) (sc : Screen) (c : Capture) :
  camera s = Some c -> cap_opened c = true ->
  Forall (preview_goes_on start_time timeout) before ->
  preview_loop start_time timeout (before ++ rest) s w sc =
  preview_loop start_time timeout rest s w
    (show_all (preview_frames start_time timeout s before) sc).
Proof.
  intros Hc Ho Hb. revert sc.
  induction Hb as [|x xs (Hread & Hkey & Htime) _ IH]; intros sc; [reflexivity|].
  destruct Hread as [f Hf].
  change ((x :: xs) ++ rest) with (x :: (xs ++ rest)).
  simpl preview_loop. rewrite Hc, Ho, Hf.
  apply Z.eqb_neq in Hkey. rewrite Hkey.
  apply Qle_bool_iff in Htime. rewrite Htime. simpl orb. cbv iota.
  rewrite IH. simpl preview_frames. rewrite ?Hf. reflexivity.
Qed.

End PreviewLoop.

(** X5.  The preview ends in the first iteration in which [q] was pressed
    or the elapsed time exceeds the timeout, and only after that
    iteration's frame has been shown.  Every frame read is shown, with the
    four texts drawn on it; the object, the log and the files are as
    before, and the window is closed. *)
Theorem preview_ends_after_showing_frame
    (start_time timeout : Q) (before : list PreviewTick) (last : PreviewTick)
    (rest : list PreviewTick) (frame : Frame)
    (s : USBRecord) (w : World) (sc : Screen) (c : Capture) :
  camera s = Some c -> cap_opened c = true ->
  Forall (preview_goes_on start_time timeout) before ->
  pv_read last = Some frame ->
  pv_key last = ord_q \/ ~ (pv_now last - start_time <= timeout)%Q ->
  let r := show_live_camera start_time timeout (before ++ last :: rest) s w sc in
  let shown := preview_frames start_time timeout s (before ++ [last]) in
  r.1 = (PreviewReturned, s, w) /\
  sc_shown r.2 = sc_shown sc ++ shown /\ sc_open r.2 = false /\
  List.length shown = S (List.length before) /\
  List.last shown frame = preview_frame start_time timeout s last frame /\
  List.length (frame_texts (preview_frame start_time timeout s last frame)) =
    (4 + List.length (frame_texts frame))%nat.
Proof.
  intros Hc Ho Hb Hread Hend r shown.
  assert (shown = preview_frames start_time timeout s before ++
                  [preview_frame start_time timeout s last frame]) as Hshown.
  { unfold shown. rewrite preview_frames_app. simpl. now rewrite Hread. }
  subst r. unfold show_live_camera.
  rewrite (preview_loop_goes_on start_time timeout before (last :: rest) s w sc c Hc Ho Hb).
  simpl preview_loop. rewrite Hc, Ho, Hread.
  assert ((pv_key last =? ord_q) ||
          negb (Qle_bool (pv_now last - start_time) timeout) = true) as ->.
  { destruct Hend as [->|Hlate]; [reflexivity|].
    apply orb_true_iff. right. apply negb_true_iff.
    destruct (Qle_bool (pv_now last - start_time) timeout) eqn:E; [|reflexivity].
    apply Qle_bool_iff in E. contradiction. }
  cbn [fst snd].
  split; [reflexivity|].
  split.
  { simpl. rewrite show_all_shown, Hshown. now rewrite <- app_assoc. }
  split; [reflexivity|].
  split.
  { rewrite Hshown, length_app, (preview_frames_goes_on _ _ _ _ Hb). simpl. lia. }
  split.
  { rewrite Hshown. apply last_last. }
  unfold preview_frame, decorate, put_text. simpl.
  rewrite !length_app. simpl. lia.
Qed.

(** X6.  In the preview a read that delivers nothing is fatal, unlike in
    the recording loop: [release()] is invoked on the handle, one error is
    logged and the method is left through [sys.exit(1)].  The frames shown
    before stay on the screen; no file is touched. *)
Theorem preview_read_failure_exits
    (start_time timeout : Q) (before : list PreviewTick) (bad : PreviewTick)
    (rest : list PreviewTick) (s : USBRecord) (w : World) (sc : Screen)
    (c : Capture) :
  camera s = Some c ->
  Forall (preview_goes_on start_time timeout) before ->
  before = [] \/ cap_opened c = true ->
  cap_opened c = false \/ pv_read bad = None ->
  let r := show_live_camera start_time timeout (before ++ bad :: rest) s w sc in
  r.1.1.1 = PreviewRaised (Py.SystemExit 1) /\
  r.1.1.2 = set_camera (Some (cap_release c)) s /\
  camera_is_opened r.1.1.2 = false /\
  w_log r.1.2 = w_log w ++
    [(ERROR, "Can not receive camera_id:" +:+ Py.str_int (device_index s) +:+
             " frame")] /\
  w_files r.1.2 = w_files w /\
  sc_shown r.2 = sc_shown sc ++ preview_frames start_time timeout s before.
Proof.
  intros Hc Hb Hopen Hbad r.
  assert (preview_loop start_time timeout (before ++ bad :: rest) s w sc =
          preview_loop start_time timeout (bad :: rest) s w
            (show_all (preview_frames start_time timeout s before) sc)) as Hskip.
  { destruct Hopen as [->|Ho]; [reflexivity|].
    now apply (preview_loop_goes_on start_time timeout before (bad :: rest) s w sc c). }
  subst r. unfold show_live_camera. rewrite Hskip.
  simpl preview_loop. rewrite Hc.
  assert ((if cap_opened c then pv_read bad else None) = None) as ->
    by (destruct Hbad as [->| ->]; [reflexivity|now destruct (cap_opened c)]).
  cbn [fst snd].
  repeat split; try reflexivity. apply show_all_shown.
Qed.

(* ===================================================================== *)
(** * More on the recording loop *)
(* ===================================================================== *)

Section RecordMore.

Variables (sink saved_as : string) (start_time timeout : Q).

Local Abbreviation body := (loop_body sink saved_as start_time timeout).
Local Abbreviation loop := (record_loop sink saved_as start_time timeout).

Lemma same_setup_refl (s : USBRecord) : same_setup s s.
Proof. repeat split. Qed.

Lemma same_setup_trans (a b c : USBRecord) :
  same_setup a b -> same_setup b c -> same_setup a c.
Proof.
  unfold same_setup. intros H1 H2.
  destruct H1 as (?&?&?&?&?&?&?&?&?&?), H2 as (?&?&?&?&?&?&?&?&?&?).
  repeat split; congruence.
Qed.

Lemma run_calls_setup (cs : list Call) (s : USBRecord) :
  same_setup s (run_calls cs s).
Proof.
  revert s. induction cs as [|c cs IH]; intros s; [apply same_setup_refl|].
  change (run_calls (c :: cs) s) with (run_calls cs (run_call c s)).
  apply (same_setup_trans _ (run_call c s)); [|apply IH].
  destruct c; repeat split.
Qed.

Lemma mark_frame_setup (tick : Tick) (frame : Frame) (s : USBRecord) :
  same_setup s (mark_frame tick frame s).1.
Proof.
  unfold mark_frame. destruct (record_mark s); [|apply same_setup_refl].
  destruct (start_mark_time s); repeat split.
Qed.

Lemma sink_grows_refl (w : World) : sink_grows sink w w [].
Proof.
  repeat split; auto.
  - exists []. now rewrite app_nil_r.
  - now rewrite app_nil_r.
  - intros [fs H]. unfold video_frames. now rewrite H.
Qed.

Lemma sink_grows_trans (w1 w2 w3 : World) (a b : list Frame) :
  sink_grows sink w1 w2 a -> sink_grows sink w2 w3 b ->
  sink_grows sink w1 w3 (a ++ b).
Proof.
  intros (F1 & D1 & [m1 L1] & V1 & K1) (F2 & D2 & [m2 L2] & V2 & K2).
  repeat split.
  - intros p Hp. now rewrite F2, F1.
  - congruence.
  - exists (m1 ++ m2). now rewrite L2, L1, <- app_assoc.
  - now rewrite V2, V1, <- app_assoc.
  - intros Hv. apply K2. eexists. now apply K1.
Qed.

Lemma sink_grows_log (lvl : Level) (msg : string) (w : World) :
  sink_grows sink w (log lvl msg w) [].
Proof.
  repeat split; auto.
  - now exists [(lvl, msg)].
  - now rewrite app_nil_r.
  - intros [fs H]. unfold video_frames. simpl. now rewrite H.
Qed.

Lemma sink_grows_write (frame : Frame) (w : World) :
  sink_grows sink w (writer_write sink frame w) [frame].
Proof.
  repeat split.
  - intros p Hp. simpl. now apply lookup_insert_ne.
  - exists []. now rewrite app_nil_r.
  - apply video_frames_write.
  - intros _. rewrite video_frames_write. simpl. apply lookup_insert_eq.
Qed.

(** What any one iteration does to the object and the world. *)
Lemma body_grows (tick : Tick) (s : USBRecord) (w : World) :
  match body tick s w with
  | Continue s' w' =>
      same_setup s s' /\
      exists added, sink_grows sink w w' added /\ (List.length added <= 1)%nat
  | Break s' w' =>
      same_setup s s' /\
      exists frame, sink_grows sink w w' [frame]
  | Raised e s' w' => same_setup s s' /\ w' = w /\ e = Py.AttributeError
  end.
Proof.
  unfold loop_body.
  pose proof (run_calls_setup (tk_calls tick) s) as H0.
  set (s0 := run_calls (tk_calls tick) s) in *.
  unfold camera_read.
  destruct (camera s0) as [c|]; [|auto].
  destruct (if cap_opened c then tk_read tick else None) as [frame|].
  - pose proof (mark_frame_setup tick frame s0) as H1.
    destruct (mark_frame tick frame s0) as [s1 f1]. simpl in H1.
    destruct (is_stop_record s1 || _).
    + split; [now apply (same_setup_trans _ s0)|]. exists f1.
      eapply (sink_grows_trans _ _ _ [f1] []); [|apply sink_grows_log].
      eapply (sink_grows_trans _ _ _ [f1] []); [|apply sink_grows_log].
      apply sink_grows_write.
    + split; [now apply (same_setup_trans _ s0)|]. exists [f1].
      split; [apply sink_grows_write|simpl; lia].
  - split; [exact H0|]. exists []. split; [apply sink_grows_log|simpl; lia].
Qed.

Lemma loop_grows (ticks : list Tick) (s : USBRecord) (w : World) :
  let r := loop ticks s w in
  same_setup s r.1.2 /\
  exists added,
    sink_grows sink w r.2 added /\
    (List.length added <= List.length ticks)%nat /\
    (r.1.1 = LoopBroke -> added <> []).
Proof.
  revert s w. induction ticks as [|tick ticks IH]; intros s w.
  - simpl. split; [apply same_setup_refl|]. exists [].
    split; [apply sink_grows_refl|]. split; [simpl; lia|discriminate].
  - simpl record_loop. pose proof (body_grows tick s w) as Hb.
    destruct (body tick s w) as [s1 w1|s1 w1|e s1 w1].
    + destruct Hb as (Hs & a & Ha & Hlen).
      destruct (IH s1 w1) as (Hs' & b & Hb' & Hlen' & Hbroke).
      split; [now apply (same_setup_trans _ s1)|].
      exists (a ++ b). split; [now apply (sink_grows_trans _ w1)|].
      split; [rewrite length_app; simpl; lia|].
      intros Hr. specialize (Hbroke Hr). destruct a; [exact Hbroke|discriminate].
    + destruct Hb as (Hs & f & Hf). simpl. split; [exact Hs|].
      exists [f]. split; [exact Hf|]. split; [simpl; lia|discriminate].
    + destruct Hb as (Hs & -> & _). simpl. split; [exact Hs|].
      exists []. split; [apply sink_grows_refl|]. split; [simpl; lia|discriminate].
Qed.

(** With the handle closed every read fails, whatever the device would
    deliver. *)
Lemma loop_on_closed_handle (ticks : list Tick) (s : USBRecord) (w : World)
    (c : Capture) :
  camera s = Some c -> cap_opened c = false ->
  loop ticks s w =
  (LoopRunning, run_calls (calls_of ticks) s, warned (List.length ticks) w).
Proof.
  revert s w. induction ticks as [|tick ticks IH]; intros s w Hc Ho; [reflexivity|].
  simpl record_loop.
  rewrite body_read_fails by (unfold camera_read; now rewrite Hc, Ho).
  rewrite (IH _ _) by (rewrite ?run_calls_camera; eauto).
  unfold calls_of. simpl. now rewrite run_calls_app.
Qed.

End RecordMore.

(** X7.  The recording loop writes to its own artifact only.  Whatever the
    schedule, the object keeps its device, handle, negotiated parameters
    and names; every other path and all directories are as before; the log
    and the artifact only grow, the artifact by at most one frame per
    iteration; and when the loop is left through [break] at least one frame
    was appended. *)
Theorem record_loop_touches_only_its_sink
    (sink saved_as : string) (start_time timeout : Q)
    (ticks : list Tick) (s : USBRecord) (w : World) :
  let r := record_loop sink saved_as start_time timeout ticks s w in
  same_setup s r.1.2 /\
  exists added,
    sink_grows sink w r.2 added /\
    (List.length added <= List.length ticks)%nat /\
    (r.1.1 = LoopBroke -> added <> []).
Proof. apply loop_grows. Qed.

(* ===================================================================== *)
(** * More on [start_record] *)
(* ===================================================================== *)

Section StartRecordMore.

Lemma at_entry_keeps (env : RecEnv) (sp : option string) (s : USBRecord) (w : World) :
  let e := at_entry env sp s w in
  save_path e.1 = sp /\ filename e.1 = filename s /\
  w_files e.2 = w_files w /\ w_dirs e.2 = w_dirs w /\
  exists more, w_log e.2 = w_log w ++ more.
Proof.
  unfold at_entry, ensure_camera, open_record_camera.
  destruct (camera_is_opened (start_record_reset sp s)).
  - simpl. repeat split. exists []. now rewrite app_nil_r.
  - destruct (dev_construct_raises (env_device env)); simpl; repeat split;
      eexists; rewrite <- app_assoc; reflexivity.
Qed.

(** With a directory given, [start_record] is its loop, run on the object
    with the new names and on the world with a fresh, empty artifact. *)
Lemma start_record_enters (env : RecEnv) (dir : string)
    (test_case_name count : Py.Val) (timeout : Q) (s : USBRecord) (w : World) :
  let e := at_entry env (Some dir) s w in
  let name := recording_name test_case_name count (env_now_time env) in
  let fn := artifact_path dir test_case_name count (env_now_time env) in
  params_known e.1 ->
  start_record env (Some dir) test_case_name count timeout s w =
  record_except
    (record_loop fn (name +:+ ".avi") (env_start_time env) timeout (env_ticks env)
       (set_filename (Some fn) (set_record_name (Some name) e.1))
       (log INFO "Start recording" (writer_open fn e.2))).
Proof.
  intros e name fn ([a Ha] & [b Hb] & [c Hc]).
  destruct (at_entry_keeps env (Some dir) s w) as (Hsp & _).
  fold e in Hsp. unfold start_record.
  change (ensure_camera (env_device env) (start_record_reset (Some dir) s) w) with e.
  destruct e as [s2 w2]. simpl in *.
  fold (recording_name test_case_name count (env_now_time env)). fold name.
  rewrite Hsp. reflexivity.
Qed.

(** Leaving through [break] is only possible on that path. *)
Lemma start_record_broke (env : RecEnv) (sp : option string)
    (test_case_name count : Py.Val) (timeout : Q)
    (s s' : USBRecord) (w w' : World) :
  start_record env sp test_case_name count timeout s w = (LoopBroke, s', w') ->
  exists dir, sp = Some dir /\
    let e := at_entry env (Some dir) s w in
    let name := recording_name test_case_name count (env_now_time env) in
    let fn := artifact_path dir test_case_name count (env_now_time env) in
    record_loop fn (name +:+ ".avi") (env_start_time env) timeout (env_ticks env)
      (set_filename (Some fn) (set_record_name (Some name) e.1))
      (log INFO "Start recording" (writer_open fn e.2)) = (LoopBroke, s', w').
Proof.
  intros H. destruct sp as [dir|].
  - exists dir. split; [reflexivity|]. cbv zeta.
    destruct (at_entry_keeps env (Some dir) s w) as (Hsp & _).
    unfold start_record in H.
    change (ensure_camera (env_device env) (start_record_reset (Some dir) s) w)
      with (at_entry env (Some dir) s w) in H.
    destruct (at_entry env (Some dir) s w) as [s2 w2]. simpl in *.
    rewrite Hsp in H.
    fold (recording_name test_case_name count (env_now_time env)) in H.
    unfold artifact_path.
    destruct (record_loop _ _ _ _ _ _ _) as [[how s3] w3].
    destruct how as [|e|]; simpl in H; try discriminate H; [exact H|].
    destruct (Py.is_Exception e); discriminate H.
  - exfalso. unfold start_record in H.
    destruct (at_entry_keeps env None s w) as (Hsp & _). unfold at_entry in Hsp.
    destruct (ensure_camera _ _ _) as [s2 w2]. simpl in *.
    rewrite Hsp in H. discriminate H.
Qed.

Lemma warned_log_length (n : nat) (w : World) :
  List.length (w_log (warned n w)) = (List.length (w_log w) + n)%nat.
Proof.
  revert w. induction n as [|n IH]; intros w; simpl; [lia|].
  rewrite IH. simpl. rewrite length_app. simpl. lia.
Qed.

End StartRecordMore.

(** X8.  A camera that cannot be opened makes the recording endless.  If
    the handle is closed when [start_record] is called and the device
    stays closed when it is opened again, then whatever the schedule
    (stop requests and elapsed timeouts included) the loop is still
    running at its end, no frame has been stored in the artifact, and each
    iteration has logged one warning. *)
Theorem recording_never_ends_on_dead_camera
    (env : RecEnv) (dir : string) (test_case_name count : Py.Val)
    (timeout : Q) (s : USBRecord) (w : World) :
  camera_is_opened s = false ->
  dev_construct_raises (env_device env) = false ->
  dev_opened_on_construct (env_device env) = false ->
  dev_opened_on_retry (env_device env) = false ->
  let r := start_record env (Some dir) test_case_name count timeout s w in
  let fn := artifact_path dir test_case_name count (env_now_time env) in
  r.1.1 = LoopRunning /\
  video_frames fn r.2 = [] /\
  List.length (w_log r.2) =
    (List.length (w_log w) + 3 + List.length (env_ticks env))%nat.
Proof.
  intros Hclosed Hraise Hc1 Hc2 r fn.
  assert (at_entry env (Some dir) s w =
          (set_act_frame (Some (dev_width (env_device env)))
             (Some (dev_height (env_device env)))
             (Some (dev_fps (env_device env)))
             (set_camera (Some {| cap_opened := false; cap_release_calls := 0 |})
                (start_record_reset (Some dir) s)),
           (at_entry env (Some dir) s w).2) /\
          List.length (w_log (at_entry env (Some dir) s w).2) =
            (List.length (w_log w) + 2)%nat /\
          w_files (at_entry env (Some dir) s w).2 = w_files w) as (He & Hlog & Hfiles).
  { unfold at_entry, ensure_camera, open_record_camera.
    change (camera_is_opened (start_record_reset (Some dir) s))
      with (camera_is_opened s).
    rewrite Hclosed, Hraise, Hc1, Hc2. simpl.
    repeat split. rewrite !length_app. simpl. lia. }
  subst r. rewrite start_record_enters by (rewrite He; repeat split; eexists; reflexivity).
  fold fn. rewrite He. cbn [fst snd].
  erewrite loop_on_closed_handle by reflexivity.
  cbn [record_except fst snd].
  split; [reflexivity|]. split.
  - unfold video_frames. rewrite warned_files. simpl.
    now rewrite lookup_insert_eq.
  - rewrite warned_log_length. simpl. rewrite length_app. simpl. lia.
Qed.

(** X9.  Called without a directory (the default of [save_path]),
    [start_record] records nothing: the loop is never entered, no file or
    directory is touched and the last log line is the error of the
    handler.  The object is left with the new [record_name] but the old
    [filename], and a [video_slice] that follows raises [TypeError] and
    leaves the world as it is. *)
Theorem start_record_without_save_path
    (env : RecEnv) (test_case_name count : Py.Val) (timeout : Q)
    (s : USBRecord) (w : World) :
  let r := start_record env None test_case_name count timeout s w in
  r.1.1 = LoopRaised Py.TypeError /\
  w_files r.2 = w_files w /\ w_dirs r.2 = w_dirs w /\
  List.last (w_log r.2) (INFO, "none") =
    (ERROR, "Error capturing and saving image: ") /\
  record_name r.1.2 =
    Some (recording_name test_case_name count (env_now_time env)) /\
  filename r.1.2 = filename s /\ save_path r.1.2 = None /\
  video_slice r.1.2 r.2 = (Py.Raises Py.TypeError, r.2).
Proof.
  intros r. subst r. unfold start_record.
  destruct (at_entry_keeps env None s w) as (Hsp & Hfn & Hf & Hd & _).
  unfold at_entry in *.
  destruct (ensure_camera (env_device env) (start_record_reset None s) w)
    as [s2 w2]. simpl in *.
  rewrite Hsp. simpl.
  repeat split; auto.
  - apply last_last.
  - unfold video_slice. simpl. now rewrite Hsp.
Qed.

(* ===================================================================== *)
(** * Calls that leave the anchor alone *)
(* ===================================================================== *)

Section Anchor.

Variables (sink saved_as : string) (start_time timeout : Q).

Lemma run_calls_keep_anchor (cs : list Call) (s : USBRecord) :
  Forall (fun c => c <> CallStartTimeMark) cs ->
  record_mark (run_calls cs s) = record_mark s /\
  start_mark_time (run_calls cs s) = start_mark_time s.
Proof.
  revert s. induction cs as [|c cs IH]; intros s Hcs; [auto|].
  inversion Hcs as [|? ? Hc Hrest]; subst.
  change (run_calls (c :: cs) s) with (run_calls cs (run_call c s)).
  destruct (IH (run_call c s) Hrest) as [-> ->].
  destruct c; [congruence|auto].
Qed.

End Anchor.

(* ===================================================================== *)
(** * The names of artifacts *)
(* ===================================================================== *)

Section ArtifactNames.

Lemma string_append_assoc (a b c : string) :
  (a +:+ b) +:+ c = a +:+ (b +:+ c).
Proof.
  induction a as [|x a IH]; [reflexivity|].
  rewrite !append_cons. now rewrite IH.
Qed.

Lemma dec_digits_no_sign (n : N) (rest : string) :
  Py.dec_digits n <> String "-" rest.
Proof.
  intros H. pose proof (all_digits_dec n) as Hd. rewrite H in Hd. discriminate.
Qed.

Lemma str_int_inj (a b : Z) : Py.str_int a = Py.str_int b -> a = b.
Proof.
  unfold Py.str_int.
  destruct a as [|p|p], b as [|q|q]; intros H;
    try (now apply dec_digits_no_sign in H);
    try (symmetry in H; now apply dec_digits_no_sign in H);
    try (injection H as H); apply dec_digits_inj in H; lia.
Qed.

Lemma path_join_same_head (dir pre x y : string) :
  pre <> EmptyString ->
  Py.path_join dir (pre +:+ x) = Py.path_join dir (pre +:+ y) -> x = y.
Proof.
  intros Hpre. unfold Py.path_join.
  assert (Py.starts_with_sep (pre +:+ x) = Py.starts_with_sep (pre +:+ y)) as ->
    by (destruct pre; [congruence|reflexivity]).
  destruct (Py.starts_with_sep (pre +:+ y)).
  - intros H. now apply (inj (String.app pre)) in H.
  - destruct (_ || _); intros H; apply (inj (String.app dir)) in H.
    + now apply (inj (String.app pre)) in H.
    + injection H as H. now apply (inj (String.app pre)) in H.
Qed.

Lemma start_record_filename (env : RecEnv) (dir : string)
    (test_case_name count : Py.Val) (timeout : Q) (s : USBRecord) (w : World) :
  filename (start_record env (Some dir) test_case_name count timeout s w).1.2 =
  Some (artifact_path dir test_case_name count (env_now_time env)).
Proof.
  unfold start_record.
  destruct (at_entry_keeps env (Some dir) s w) as (Hsp & _). unfold at_entry in Hsp.
  destruct (ensure_camera (env_device env) (start_record_reset (Some dir) s) w)
    as [s2 w2]. simpl in *. rewrite Hsp.
  fold (recording_name test_case_name count (env_now_time env)).
  fold (artifact_path dir test_case_name count (env_now_time env)).
  set (fn := artifact_path dir test_case_name count (env_now_time env)).
  pose proof (loop_grows fn
                (recording_name test_case_name count (env_now_time env) +:+ ".avi")
                (env_start_time env) timeout (env_ticks env)
                (set_filename (Some fn)
                   (set_record_name
                      (Some (recording_name test_case_name count (env_now_time env)))
                      s2))
                (log INFO "Start recording" (writer_open fn w2))) as [Hs _].
  destruct (record_loop _ _ _ _ _ _ _) as [[how s3] w3]. simpl in Hs.
  assert (filename s3 = Some fn) as Hfn
    by (destruct Hs as (_&_&_&_&_&_&_&_&Hf&_); exact Hf).
  destruct how as [|e|]; simpl; auto.
  destruct (Py.is_Exception e); simpl; auto.
Qed.

End ArtifactNames.

(** X11.  Recordings that differ in their integer [count] never share an
    artifact: for the same directory, test case name and time stamp, two
    calls of [start_record] with different counts leave different paths in
    [filename], whatever else they do. *)
Theorem distinct_counts_distinct_artifacts
    (env1 env2 : RecEnv) (dir : string) (test_case_name : Py.Val)
    (c1 c2 : Z) (t1 t2 : Q) (s1 s2 : USBRecord) (w1 w2 : World) :
  env_now_time env1 = env_now_time env2 ->
  c1 <> c2 ->
  filename (start_record env1 (Some dir) test_case_name (Py.VInt c1) t1 s1 w1).1.2
  <>
  filename (start_record env2 (Some dir) test_case_name (Py.VInt c2) t2 s2 w2).1.2.
Proof.
  intros Hnow Hc. rewrite !start_record_filename, Hnow.
  intros [= H]. apply Hc. unfold artifact_path, recording_name in H. simpl in H.
  set (now := env_now_time env2) in H.
  assert (forall x,
            (Py.str test_case_name +:+ "_" +:+ now +:+ "_" +:+ x) +:+ ".avi" =
            (Py.str test_case_name +:+ "_" +:+ now +:+ "_") +:+ (x +:+ ".avi"))
    as Hassoc.
  { intros x. now rewrite !string_append_assoc. }
  rewrite !Hassoc in H.
  apply path_join_same_head in H.
  - apply append_inj_r in H. now apply str_int_inj.
  - intros E. apply (f_equal String.length) in E.
    rewrite !length_append in E. simpl in E. lia.
Qed.

(* ===================================================================== *)
(** * From a recording to its images *)
(* ===================================================================== *)

Section RecordThenSlice.

Lemma video_slice_runs (s : USBRecord) (w : World) (sp name fn : string)
    (frames : list Frame) :
  save_path s = Some sp -> record_name s = Some name -> filename s = Some fn ->
  w_files w !! fn = Some (VideoFile frames) ->
  let dir := Py.path_join sp name in
  let w1 := if path_exists dir w then w else makedirs dir w in
  video_slice s w =
  (Py.Returns Py.VNone,
   log INFO ("Record has been sliced: " +:+ dir) (slice_loop dir name frames 0 w1).2).
Proof.
  intros Hsp Hname Hfn Hfile dir w1.
  unfold video_slice. rewrite Hsp, Hname, Hfn. fold dir. fold w1.
  assert (w_files w1 = w_files w) as Hf1
    by (unfold w1; destruct (path_exists dir w); reflexivity).
  unfold slice_try. rewrite Hf1, Hfile.
  now destruct (slice_loop dir name frames 0 w1).
Qed.

(** Writing images that are already there changes no file. *)
Lemma slice_loop_again (dir name : string) (frames : list Frame) (k : nat)
    (w : World) :
  (forall i frame, frames !! i = Some frame ->
     w_files w !! frame_path dir name (k + i) = Some (ImageFile frame)) ->
  w_files (slice_loop dir name frames k w).2 = w_files w.
Proof.
  revert k w. induction frames as [|f frames IH]; intros k w H; [reflexivity|].
  simpl slice_loop. fold (frame_path dir name k).
  assert (w_files (imwrite (frame_path dir name k) f w) = w_files w) as Hsame.
  { simpl. apply insert_id. rewrite <- (Nat.add_0_r k) at 1. now apply H. }
  rewrite IH; [exact Hsame|].
  intros i frame Hi. rewrite Hsame.
  replace (S k + i)%nat with (k + S i)%nat by lia. now apply H.
Qed.

Lemma last_char_artifact (dir : string) (test_case_name count : Py.Val)
    (now_time : string) :
  last_char (artifact_path dir test_case_name count now_time) = Some "i"%char.
Proof.
  unfold artifact_path.
  rewrite last_char_path_join.
  - now rewrite last_char_append.
  - intros E. apply (f_equal String.length) in E.
    rewrite length_append in E. simpl in E. lia.
Qed.

Lemma last_char_frame_path (dir name : string) (i : nat) :
  last_char (frame_path dir name i) = Some "g"%char.
Proof.
  unfold frame_path, frame_file.
  rewrite last_char_path_join.
  - rewrite !last_char_append; [reflexivity|discriminate| |].
    + intros E. apply (f_equal String.length) in E.
      rewrite length_append in E. simpl in E. lia.
    + intros E. apply (f_equal String.length) in E.
      rewrite !length_append in E. simpl in E. lia.
  - intros E. apply (f_equal String.length) in E.
    rewrite !length_append in E. simpl in E. lia.
Qed.

(** Writing images removes nothing: what existed still exists. *)
Lemma slice_loop_keeps_paths (dir name : string) (frames : list Frame)
    (k : nat) (w : World) (p : string) :
  path_exists p w = true ->
  path_exists p (slice_loop dir name frames k w).2 = true.
Proof.
  revert k w. induction frames as [|f frames IH]; intros k w H; [exact H|].
  simpl slice_loop. apply IH.
  unfold path_exists in *. simpl.
  apply orb_true_iff in H as [H|H]; [now rewrite H|].
  apply orb_true_iff. right.
  apply bool_decide_eq_true in H. apply bool_decide_eq_true.
  destruct (decide (Py.path_join dir (frame_file name k) = p)) as [->|Hne].
  - rewrite lookup_insert_eq. eauto.
  - now rewrite lookup_insert_ne.
Qed.

(** What a recording that ended through [break] leaves behind. *)
Lemma after_recording (env : RecEnv) (sp : option string)
    (test_case_name count : Py.Val) (timeout : Q)
    (s s' : USBRecord) (w w' : World) :
  start_record env sp test_case_name count timeout s w = (LoopBroke, s', w') ->
  exists dir frames,
    sp = Some dir /\ frames <> [] /\
    save_path s' = Some dir /\
    record_name s' = Some (recording_name test_case_name count (env_now_time env)) /\
    filename s' = Some (artifact_path dir test_case_name count (env_now_time env)) /\
    w_files w' !! artifact_path dir test_case_name count (env_now_time env) =
      Some (VideoFile frames).
Proof.
  intros H. apply start_record_broke in H as (dir & -> & H). cbv zeta in H.
  destruct (at_entry_keeps env (Some dir) s w) as (Hsp & _).
  set (name := recording_name test_case_name count (env_now_time env)) in *.
  set (fn := artifact_path dir test_case_name count (env_now_time env)) in *.
  pose proof (loop_grows fn (name +:+ ".avi") (env_start_time env) timeout
                (env_ticks env)
                (set_filename (Some fn)
                   (set_record_name (Some name) (at_entry env (Some dir) s w).1))
                (log INFO "Start recording"
                   (writer_open fn (at_entry env (Some dir) s w).2)))
    as (Hs & added & (_ & _ & _ & Hv & Hk) & _ & Hne).
  rewrite H in Hs, Hv, Hk, Hne. simpl in Hs, Hv, Hk, Hne.
  destruct Hs as (_&_&_&_&_&_&_&Hn&Hf&Hp).
  assert (video_frames fn
            (log INFO "Start recording"
               (writer_open fn (at_entry env (Some dir) s w).2)) = []) as H0
    by (unfold video_frames; simpl; now rewrite lookup_insert_eq).
  rewrite H0 in Hv. simpl in Hv.
  exists dir, added. split; [reflexivity|]. split; [now apply Hne|].
  split; [now rewrite Hp|]. split; [exact Hn|]. split; [exact Hf|].
  rewrite <- Hv. apply Hk. exists []. simpl. apply lookup_insert_eq.
Qed.

End RecordThenSlice.

(* ===================================================================== *)
(** * Entering a recording *)
(* ===================================================================== *)

Section Entering.

Variables (sink saved_as : string) (start_time timeout : Q).

(** With no stop request and the timeout not reached, the loop goes on. *)
Lemma loop_goes_on (ticks : list Tick) (s : USBRecord) (w : World) :
  camera s <> None ->
  is_stop_record s = false ->
  Forall (fun c => c <> CallStopRecord) (calls_of ticks) ->
  Forall (fun tk => ~ (timeout <= tk_now_check tk - start_time)%Q) ticks ->
  let r := record_loop sink saved_as start_time timeout ticks s w in
  r.1.1 = LoopRunning /\ is_stop_record r.1.2 = false.
Proof.
  revert s w. induction ticks as [|tick ticks IH]; intros s w Hc Hs Hcalls Ht.
  - simpl. auto.
  - unfold calls_of in Hcalls. simpl in Hcalls.
    apply Forall_app in Hcalls as [Hc1 Hc2].
    inversion Ht as [|? ? Htick Hrest]; subst.
    simpl record_loop.
    destruct (camera s) as [c|] eqn:Ecam; [|congruence].
    assert (is_stop_record (run_calls (tk_calls tick) s) = false) as Hs0
      by (now rewrite run_calls_without_stop).
    assert (camera (run_calls (tk_calls tick) s) <> None) as Hc0
      by (rewrite run_calls_camera, Ecam; discriminate).
    destruct (if cap_opened c then tk_read tick else None) as [frame|] eqn:Ed.
    + rewrite (body_frame sink saved_as start_time timeout tick frame s w)
        by (unfold camera_read; now rewrite Ecam, Ed).
      pose proof (mark_frame_keeps tick frame (run_calls (tk_calls tick) s))
        as (Hk1 & Hk2 & _).
      rewrite Hk2, Hs0. simpl orb.
      destruct (Qle_bool timeout (tk_now_check tick - start_time)) eqn:Eq;
        [apply Qle_bool_iff in Eq; contradiction|].
      apply IH; [rewrite Hk1; exact Hc0|rewrite Hk2; exact Hs0
                 |exact Hc2|exact Hrest].
    + rewrite body_read_fails by (unfold camera_read; now rewrite Ecam, Ed).
      apply IH; [exact Hc0|exact Hs0|exact Hc2|exact Hrest].
Qed.

(** Without marking, what is appended is what was delivered. *)
Lemma unmarked_loop (ticks : list Tick) (s : USBRecord) (w : World) :
  camera_is_opened s = true ->
  record_mark s = false ->
  Forall (fun c => c <> CallStartTimeMark) (calls_of ticks) ->
  let r := record_loop sink saved_as start_time timeout ticks s w in
  exists added,
    video_frames sink r.2 = video_frames sink w ++ added /\
    added `prefix_of` omap tk_read ticks /\
    (r.1.1 = LoopRunning -> added = omap tk_read ticks).
Proof.
  revert s w. induction ticks as [|tick ticks IH]; intros s w Hc Hm Hcalls.
  - simpl. exists []. rewrite app_nil_r. repeat split; auto.
  - unfold calls_of in Hcalls. simpl in Hcalls.
    apply Forall_app in Hcalls as [Hc1 Hc2].
    destruct (run_calls_keep_anchor (tk_calls tick) s Hc1) as [Hm0 _].
    rewrite Hm in Hm0.
    simpl record_loop. unfold loop_body.
    rewrite run_calls_camera, (camera_read_opened s tick Hc).
    simpl omap.
    destruct (tk_read tick) as [frame|].
    + unfold mark_frame. rewrite Hm0.
      destruct (is_stop_record _ || _).
      * simpl. exists [frame].
        split; [now rewrite !video_frames_log, video_frames_write|].
        split; [now exists (omap tk_read ticks)|discriminate].
      * destruct (IH (run_calls (tk_calls tick) s) (writer_write sink frame w))
          as (added & R1 & R2 & R3); auto.
        { now rewrite run_calls_opened. }
        exists (frame :: added).
        split; [rewrite R1, video_frames_write, <- app_assoc; reflexivity|].
        split; [now apply prefix_cons|].
        intros Hr. now rewrite (R3 Hr).
    + destruct (IH (run_calls (tk_calls tick) s)
                  (log WARNING "Failed to capture image from camera." w))
        as (added & R1 & R2 & R3); auto.
      { now rewrite run_calls_opened. }
      exists added. split; [now rewrite R1, video_frames_log|]. auto.
Qed.

End Entering.

(** X15.  [start_record] needs no open camera: if the handle is missing or
    closed and the device opens, the call logs a warning, opens the
    device, takes over its parameters and records.  With a first
    iteration that carries a stop request and delivers a frame, the loop
    is left through [break] and the artifact holds that frame. *)
Theorem start_record_opens_camera_itself
    (env : RecEnv) (dir : string) (test_case_name count : Py.Val)
    (timeout : Q) (s : USBRecord) (w : World)
    (tick : Tick) (rest : list Tick) (frame : Frame) :
  camera_is_opened s = false ->
  dev_construct_raises (env_device env) = false ->
  dev_opened_on_construct (env_device env) || dev_opened_on_retry (env_device env)
    = true ->
  env_ticks env = tick :: rest ->
  tk_read tick = Some frame ->
  In CallStopRecord (tk_calls tick) ->
  Forall (fun c => c <> CallStartTimeMark) (tk_calls tick) ->
  let r := start_record env (Some dir) test_case_name count timeout s w in
  let fn := artifact_path dir test_case_name count (env_now_time env) in
  r.1.1 = LoopBroke /\
  camera r.1.2 = Some {| cap_opened := true; cap_release_calls := 0 |} /\
  act_frame_width r.1.2 = Some (dev_width (env_device env)) /\
  act_frame_height r.1.2 = Some (dev_height (env_device env)) /\
  act_frame_fps r.1.2 = Some (dev_fps (env_device env)) /\
  w_files r.2 !! fn = Some (VideoFile [frame]) /\
  w_log (at_entry env (Some dir) s w).2 !! List.length (w_log w) =
    Some (WARNING, "Camera is not opened. Trying to open it...").
Proof.
  intros Hclosed Hraise Hopen Hticks Hread Hstop Hmark r fn.
  set (cam := {| cap_opened := true; cap_release_calls := 0 |}).
  set (s2 := set_act_frame (Some (dev_width (env_device env)))
               (Some (dev_height (env_device env)))
               (Some (dev_fps (env_device env)))
               (set_camera (Some cam) (start_record_reset (Some dir) s))).
  assert ((at_entry env (Some dir) s w).1 = s2 /\
          w_files (at_entry env (Some dir) s w).2 = w_files w /\
          w_log (at_entry env (Some dir) s w).2 !! List.length (w_log w) =
            Some (WARNING, "Camera is not opened. Trying to open it..."))
    as (He & Hf & Hl).
  { unfold at_entry, ensure_camera, open_record_camera.
    change (camera_is_opened (start_record_reset (Some dir) s))
      with (camera_is_opened s).
    rewrite Hclosed, Hraise, Hopen. simpl.
    split; [reflexivity|]. split; [reflexivity|].
    rewrite <- app_assoc. rewrite (lookup_app_r (w_log w)) by reflexivity.
    now rewrite Nat.sub_diag. }
  set (name := recording_name test_case_name count (env_now_time env)).
  set (s4 := set_filename (Some fn) (set_record_name (Some name) s2)).
  set (s0 := run_calls (tk_calls tick) s4).
  assert (is_stop_record s0 = true) as Hs0 by (now apply run_calls_with_stop).
  assert (record_mark s0 = false) as Hm0
    by (unfold s0; now rewrite (proj1 (run_calls_keep_anchor _ _ Hmark))).
  assert (mark_frame tick frame s0 = (s0, frame)) as Hmf
    by (unfold mark_frame; now rewrite Hm0).
  assert (r.1 = (LoopBroke, s0) /\
          w_files r.2 !! fn = Some (VideoFile [frame])) as [Hr Hfile].
  { subst r. rewrite start_record_enters
      by (rewrite He; repeat split; eexists; reflexivity).
    fold fn. fold name. rewrite He, Hticks. fold s4. simpl record_loop.
    rewrite (body_frame _ _ _ _ tick frame)
      by (unfold camera_read; simpl; now rewrite Hread).
    fold s0. rewrite Hmf. cbn [fst snd]. rewrite Hs0. simpl orb. cbv iota.
    cbn [record_except fst snd]. split; [reflexivity|].
    rewrite !files_log. unfold writer_write. simpl. rewrite lookup_insert_eq.
    unfold video_frames. simpl. now rewrite lookup_insert_eq. }
  rewrite Hr. cbn [fst snd].
  pose proof (run_calls_setup (tk_calls tick) s4) as Hsetup. fold s0 in Hsetup.
  destruct Hsetup as (_ & _ & _ & Hc & Hw & Hh & Hp & _).
  split; [reflexivity|]. split; [now rewrite Hc|].
  split; [now rewrite Hw|]. split; [now rewrite Hh|]. split; [now rewrite Hp|].
  split; [exact Hfile|exact Hl].
Qed.


(** X17.  Without [start_time_mark] the frames are stored as delivered.
    [start_record] switches marking off on entry, whatever the object held
    before; over a schedule without [start_time_mark] the artifact then
    holds, in order and unchanged, a leading part of the frames the camera
    delivered, and all of them while the loop is still running. *)
Theorem unmarked_frames_are_stored_as_delivered
    (env : RecEnv) (dir : string) (test_case_name count : Py.Val)
    (timeout : Q) (s : USBRecord) (w : World) :
  camera_is_opened s = true -> params_known s ->
  Forall (fun c => c <> CallStartTimeMark) (calls_of (env_ticks env)) ->
  let r := start_record env (Some dir) test_case_name count timeout s w in
  let fn := artifact_path dir test_case_name count (env_now_time env) in
  video_frames fn r.2 `prefix_of` omap tk_read (env_ticks env) /\
  (r.1.1 = LoopRunning -> video_frames fn r.2 = omap tk_read (env_ticks env)).
Proof.
  intros Hcam Hp Hcalls r fn.
  assert (at_entry env (Some dir) s w = (start_record_reset (Some dir) s, w)) as He.
  { unfold at_entry, ensure_camera.
    change (camera_is_opened (start_record_reset (Some dir) s))
      with (camera_is_opened s). now rewrite Hcam. }
  subst r. rewrite start_record_enters by (rewrite He; exact Hp).
  fold fn. rewrite He. cbn [fst snd].
  match goal with
  | |- context [record_loop ?a ?b ?c ?d ?e ?f ?g] =>
      destruct (unmarked_loop a b c d e f g) as (added & R1 & R2 & R3);
        [exact Hcam|reflexivity|exact Hcalls|];
      destruct (record_loop a b c d e f g) as [[how s3] w3]
  end.
  simpl in R1, R3.
  assert (video_frames fn (log INFO "Start recording" (writer_open fn w)) = [])
    as H0 by (unfold video_frames; simpl; now rewrite lookup_insert_eq).
  rewrite H0 in R1. simpl in R1.
  destruct how as [|e|]; simpl.
  - rewrite R1. split; [exact R2|discriminate].
  - destruct (Py.is_Exception e); simpl; rewrite ?video_frames_log, R1;
      (split; [exact R2|discriminate]).
  - rewrite R1. split; [exact R2|]. intros _. now apply R3.
Qed.

(* ===================================================================== *)
(** * The sink on disk *)
(* ===================================================================== *)

Section DiskSink.

(** With a writer that opened, the file holds the frames handed to the
    writer: this is [start_record] as modelled first. *)
Lemma disk_loop_opened (sink saved_as : string) (start_time timeout : Q)
    (ticks : list Tick) (s : USBRecord) (w : World) :
  Disk.record_loop true sink saved_as start_time timeout ticks s w =
  record_loop sink saved_as start_time timeout ticks s w.
Proof.
  revert s w. induction ticks as [|tick rest IH]; intros s w; [reflexivity|].
  simpl.
  change (Disk.loop_body true sink saved_as start_time timeout tick s w)
    with (loop_body sink saved_as start_time timeout tick s w).
  destruct (loop_body sink saved_as start_time timeout tick s w); auto.
Qed.

Lemma disk_start_record_opened (env : RecEnv) (sp : option string)
    (test_case_name count : Py.Val) (timeout : Q) (s : USBRecord) (w : World) :
  Disk.start_record true env sp test_case_name count timeout s w =
  start_record env sp test_case_name count timeout s w.
Proof.
  unfold Disk.start_record, start_record.
  destruct (ensure_camera _ _ _) as [s2 w2].
  destruct (save_path _); [|reflexivity].
  now rewrite disk_loop_opened.
Qed.

(** The loop never looks at the files: with a closed writer it takes the
    same course, and the files stay as they are. *)
Lemma disk_loop_closed (sink saved_as : string) (start_time timeout : Q)
    (ticks : list Tick) (s : USBRecord) (w w' : World) :
  Disk.same_but_files w w' ->
  let r := Disk.record_loop false sink saved_as start_time timeout ticks s w in
  let r' := record_loop sink saved_as start_time timeout ticks s w' in
  r.1 = r'.1 /\ Disk.same_but_files r.2 r'.2 /\ w_files r.2 = w_files w.
Proof.
  revert s w w'. induction ticks as [|tick rest IH]; intros s w w' [Hl Hd].
  - simpl. repeat split; auto.
  - simpl. unfold Disk.loop_body, loop_body.
    destruct (camera_read _ tick) as [[frame|]|e].
    + destruct (mark_frame tick frame _) as [s1 f1].
      destruct (is_stop_record s1 || _).
      * simpl. unfold Disk.same_but_files. simpl. now rewrite Hl, Hd.
      * apply (IH s1 w (writer_write sink f1 w')). split; [exact Hl|exact Hd].
    + destruct (IH (run_calls (tk_calls tick) s)
                  (log WARNING "Failed to capture image from camera." w)
                  (log WARNING "Failed to capture image from camera." w'))
        as (H1 & H2 & H3).
      * unfold Disk.same_but_files. simpl. now rewrite Hl, Hd.
      * repeat split; [exact H1|apply H2|apply H2|exact H3].
    + simpl. repeat split; auto.
Qed.

Lemma disk_start_record_closed (env : RecEnv) (sp : option string)
    (test_case_name count : Py.Val) (timeout : Q) (s : USBRecord) (w : World) :
  let r := Disk.start_record false env sp test_case_name count timeout s w in
  let r' := start_record env sp test_case_name count timeout s w in
  r.1 = r'.1 /\ Disk.same_but_files r.2 r'.2 /\ w_files r.2 = w_files w.
Proof.
  unfold Disk.start_record, start_record.
  destruct (at_entry_keeps env sp s w) as (_ & _ & Hf & _). unfold at_entry in Hf.
  destruct (ensure_camera _ _ _) as [s2 w2]. simpl in Hf.
  destruct (save_path _) as [dir|].
  - set (name := Py.str test_case_name +:+ "_" +:+ env_now_time env +:+ "_" +:+
                 Py.str count).
    set (fn := Py.path_join dir (name +:+ ".avi")).
    set (s4 := set_filename (Some fn) (set_record_name (Some name) s2)).
    destruct (disk_loop_closed fn (name +:+ ".avi") (env_start_time env) timeout
                (env_ticks env) s4
                (log INFO "Start recording" (Disk.writer_open false fn w2))
                (log INFO "Start recording" (writer_open fn w2)))
      as (H1 & H2 & H3).
    { split; reflexivity. }
    destruct (Disk.record_loop false _ _ _ _ _ _ _) as [[how sd] wd].
    destruct (record_loop _ _ _ _ _ _ _) as [[how' sc] wc].
    simpl in H1, H2, H3. injection H1 as -> ->.
    destruct H2 as [Hl Hd].
    destruct how' as [|e|]; simpl; try (repeat split; auto; congruence).
    destruct (Py.is_Exception e); simpl; unfold Disk.same_but_files; simpl;
      repeat split; auto; congruence.
  - simpl. repeat split; auto.
Qed.

End DiskSink.

(** X19.  [start_record] does not notice a writer that failed to open.
    It is left the same way and leaves the same object, the same log
    lines (["Video saved as: ..."] among them when the loop ends through
    [break]) and the same directories as with a writer that opened; but
    the files are those it found: nothing was recorded. *)
Theorem closed_writer_goes_unnoticed
    (env : RecEnv) (sp : option string) (test_case_name count : Py.Val)
    (timeout : Q) (s : USBRecord) (w : World) :
  let r := Disk.start_record false env sp test_case_name count timeout s w in
  let r' := Disk.start_record true env sp test_case_name count timeout s w in
  r.1 = r'.1 /\ w_log r.2 = w_log r'.2 /\ w_dirs r.2 = w_dirs r'.2 /\
  w_files r.2 = w_files w /\
  (r.1.1 = LoopBroke ->
   List.last (w_log r.2) (INFO, EmptyString) =
     (INFO, "Video saved as: " +:+
            recording_name test_case_name count (env_now_time env) +:+ ".avi")).
Proof.
  intros r r'. subst r r'. rewrite disk_start_record_opened.
  destruct (disk_start_record_closed env sp test_case_name count timeout s w)
    as (H1 & [H2 H3] & H4).
  split; [exact H1|]. split; [exact H2|]. split; [exact H3|]. split; [exact H4|].
  rewrite H1, H2. intros Hbroke.
  destruct (start_record env sp test_case_name count timeout s w)
    as [[how s'] w'] eqn:E. simpl in Hbroke. subst how.
  apply start_record_broke in E as (dir & -> & E). cbv zeta in E.
  set (fn := artifact_path dir test_case_name count (env_now_time env)) in E.
  set (name := recording_name test_case_name count (env_now_time env)) in *.
  simpl. revert E. generalize (env_ticks env).
  generalize (set_filename (Some fn)
                (set_record_name (Some name) (at_entry env (Some dir) s w).1)).
  generalize (log INFO "Start recording"
                (writer_open fn (at_entry env (Some dir) s w).2)).
  intros w0 s0 ticks. revert s0 w0.
  induction ticks as [|tick rest IH]; intros s0 w0; [discriminate|].
  simpl. unfold loop_body.
  destruct (camera_read _ tick) as [[frame|]|e]; [| |discriminate].
  - destruct (mark_frame tick frame _) as [s1 f1].
    destruct (is_stop_record s1 || _); [|apply IH].
    intros [= _ <-]. simpl. apply last_last.
  - apply IH.
Qed.

(** X13.  What was recorded is what gets extracted, when the writer had
    opened.  After a [start_record] whose loop was left through [break] a
    directory had been given.  If the writer had opened, the artifact
    holds at least one frame, and [video_slice] on the same object comes
    back normally, writes frame number [i] of the artifact to the image
    numbered [i] below [<save_path>/<record_name>], and leaves the
    artifact itself as it was.  If the writer had not opened, the files
    are those [start_record] found, and unless an older file sits at the
    path of the artifact, [video_slice] logs that it cannot open the video
    and ends the process with exit status 1. *)
Theorem recorded_frames_are_extracted
    (opened : bool) (env : RecEnv) (sp : option string)
    (test_case_name count : Py.Val)
    (timeout : Q) (s s' : USBRecord) (w w' : World) :
  Disk.start_record opened env sp test_case_name count timeout s w =
    (LoopBroke, s', w') ->
  exists dir,
    sp = Some dir /\
    let name := recording_name test_case_name count (env_now_time env) in
    let fn := artifact_path dir test_case_name count (env_now_time env) in
    let r := video_slice s' w' in
    if opened then
      exists frames,
        frames <> [] /\
        w_files w' !! fn = Some (VideoFile frames) /\
        r.1 = Py.Returns Py.VNone /\
        (forall i frame, frames !! i = Some frame ->
           w_files r.2 !! frame_path (Py.path_join dir name) name i =
           Some (ImageFile frame)) /\
        w_files r.2 !! fn = Some (VideoFile frames)
    else
      w_files w' = w_files w /\
      (w_files w !! fn = None ->
       r.1 = Py.Raises (Py.SystemExit 1) /\
       w_files r.2 = w_files w /\
       List.last (w_log r.2) (INFO, EmptyString) =
         (ERROR, "Failed to open video file.")).
Proof.
  intros H. destruct opened.
  - rewrite disk_start_record_opened in H.
    destruct (after_recording _ _ _ _ _ _ _ _ _ H)
      as (dir & frames & -> & Hne & Hsp & Hname & Hfn & Hfile).
    exists dir. split; [reflexivity|]. cbv zeta.
    exists frames. split; [exact Hne|]. split; [exact Hfile|].
    rewrite (video_slice_runs s' w' _ _ _ _ Hsp Hname Hfn Hfile).
    cbn [fst snd].
    set (name := recording_name test_case_name count (env_now_time env)) in *.
    set (fn := artifact_path dir test_case_name count (env_now_time env)) in *.
    set (sub := Py.path_join dir name).
    set (w1 := if path_exists sub w' then w' else makedirs sub w').
    assert (w_files w1 = w_files w') as Hf1
      by (unfold w1; destruct (path_exists sub w'); reflexivity).
    destruct (slice_loop_spec sub name frames 0 w1) as (_ & _ & _ & H4 & H5).
    split; [reflexivity|]. split.
    + intros i frame Hi. rewrite files_log. now apply H4.
    + rewrite files_log, H5, Hf1; [exact Hfile|].
      intros i _ E. apply (f_equal last_char) in E.
      simpl in E. fold (frame_path sub name i) in E.
      unfold fn in E. rewrite last_char_artifact, last_char_frame_path in E.
      discriminate.
  - destruct (disk_start_record_closed env sp test_case_name count timeout s w)
      as (H1 & _ & H3).
    rewrite H in H1, H3. simpl in H1, H3.
    destruct (start_record env sp test_case_name count timeout s w)
      as [[how sc] wc] eqn:E.
    simpl in H1. injection H1 as <- <-.
    destruct (after_recording _ _ _ _ _ _ _ _ _ E)
      as (dir & frames & -> & _ & Hsp & Hname & Hfn & _).
    exists dir. split; [reflexivity|]. cbv zeta.
    split; [exact H3|]. intros Hnone.
    unfold video_slice. rewrite Hsp, Hname, Hfn.
    set (sub := Py.path_join dir _).
    set (w1 := if path_exists sub w' then w' else makedirs sub w').
    assert (w_files w1 = w_files w') as Hf1
      by (unfold w1; destruct (path_exists sub w'); reflexivity).
    unfold slice_try. rewrite Hf1, H3, Hnone. simpl.
    repeat split; [now rewrite Hf1|apply last_last].
Qed.

(** X14.  Extraction can be repeated.  After a recording whose writer had
    opened and whose loop was left through [break], a second [video_slice]
    comes back normally as the first did and leaves every file and
    directory as the first left them; it only logs again. *)
Theorem video_slice_is_repeatable
    (env : RecEnv) (sp : option string) (test_case_name count : Py.Val)
    (timeout : Q) (s s' : USBRecord) (w w' : World) :
  Disk.start_record true env sp test_case_name count timeout s w =
    (LoopBroke, s', w') ->
  let r1 := video_slice s' w' in
  let r2 := video_slice s' r1.2 in
  r2.1 = Py.Returns Py.VNone /\
  w_files r2.2 = w_files r1.2 /\ w_dirs r2.2 = w_dirs r1.2 /\
  List.length (w_log r2.2) = S (List.length (w_log r1.2)).
Proof.
  intros H r1 r2. rewrite disk_start_record_opened in H.
  destruct (after_recording _ _ _ _ _ _ _ _ _ H)
    as (dir & frames & -> & Hne & Hsp & Hname & Hfn & Hfile).
  set (name := recording_name test_case_name count (env_now_time env)) in *.
  set (fn := artifact_path dir test_case_name count (env_now_time env)) in *.
  set (sub := Py.path_join dir name).
  set (w1 := if path_exists sub w' then w' else makedirs sub w').
  assert (w_files w1 = w_files w' /\ path_exists sub w1 = true) as [Hf1 He1].
  { unfold w1. destruct (path_exists sub w') eqn:E; [auto|].
    split; [reflexivity|]. rewrite path_exists_makedirs.
    rewrite bool_decide_eq_true_2 by reflexivity. apply orb_true_r. }
  destruct (slice_loop_spec sub name frames 0 w1) as (_ & Hl & Hd & H4 & H5).
  pose proof (slice_loop_keeps_paths sub name frames 0 w1 sub He1) as He2.
  assert (r1 = (Py.Returns Py.VNone,
                log INFO ("Record has been sliced: " +:+ sub)
                  (slice_loop sub name frames 0 w1).2)) as Hr1
    by (apply (video_slice_runs s' w' _ _ _ _ Hsp Hname Hfn Hfile)).
  set (wa := (slice_loop sub name frames 0 w1).2) in *.
  set (wb := log INFO ("Record has been sliced: " +:+ sub) wa) in *.
  assert (w_files wb !! fn = Some (VideoFile frames)) as Hfile'.
  { unfold wb. rewrite files_log, H5, Hf1; [exact Hfile|].
    intros i _ E. apply (f_equal last_char) in E.
    simpl in E. fold (frame_path sub name i) in E.
    unfold fn in E. rewrite last_char_artifact, last_char_frame_path in E.
    discriminate. }
  subst r2. rewrite Hr1. cbn [snd].
  rewrite (video_slice_runs s' wb _ _ _ _ Hsp Hname Hfn Hfile').
  fold name. fold sub.
  assert (path_exists sub wb = true) as -> by exact He2.
  cbn [fst snd].
  split; [reflexivity|]. split.
  - rewrite files_log. apply slice_loop_again.
    intros i frame Hi. unfold wb. rewrite files_log. now apply H4.
  - destruct (slice_loop_spec sub name frames 0 wb) as (_ & Hl2 & Hd2 & _).
    split; [exact Hd2|]. simpl. rewrite length_app, Hl2. simpl. lia.
Qed.

(* ===================================================================== *)
(** * The loop at the grain of attribute stores *)
(* ===================================================================== *)

Section Stores.

Lemma run_stores_app (l l' : list Threads.Store) (a : Threads.Attrs) :
  Threads.run_stores (l ++ l') a = Threads.run_stores l' (Threads.run_stores l a).
Proof. apply fold_left_app. Qed.

(** No store switches marking off, and none sets an anchor. *)
Lemma run_stores_mark_stays (l : list Threads.Store) (a : Threads.Attrs) :
  Threads.record_mark a = true ->
  Threads.record_mark (Threads.run_stores l a) = true.
Proof.
  revert a. induction l as [|st l IH]; intros a Ha; [exact Ha|].
  apply IH. destruct st; simpl; auto.
Qed.

Lemma run_stores_anchor_none (l : list Threads.Store) (a : Threads.Attrs) :
  Threads.start_mark_time a = None ->
  Threads.start_mark_time (Threads.run_stores l a) = None.
Proof.
  revert a. induction l as [|st l IH]; intros a Ha; [exact Ha|].
  apply IH. destruct st; simpl; auto.
Qed.

Lemma run_stores_keep_anchor (l : list Threads.Store) (a : Threads.Attrs) :
  Forall (fun st => st <> Threads.StoreStartMarkTime) l ->
  Threads.start_mark_time (Threads.run_stores l a) = Threads.start_mark_time a.
Proof.
  revert a. induction l as [|st l IH]; intros a Hl; [reflexivity|].
  inversion Hl as [|? ? Hst Hrest]; subst. simpl.
  rewrite (IH _ Hrest). destruct st; simpl; auto. contradiction.
Qed.

Lemma run_stores_clears_anchor (l : list Threads.Store) (a : Threads.Attrs) :
  In Threads.StoreStartMarkTime l ->
  Threads.start_mark_time (Threads.run_stores l a) = None.
Proof.
  intros Hin. apply in_split in Hin as (l1 & l2 & ->).
  rewrite run_stores_app. simpl. now apply run_stores_anchor_none.
Qed.

Lemma run_stores_sets_mark (l : list Threads.Store) (a : Threads.Attrs) :
  In Threads.StoreRecordMark l ->
  Threads.record_mark (Threads.run_stores l a) = true.
Proof.
  intros Hin. apply in_split in Hin as (l1 & l2 & ->).
  rewrite run_stores_app. simpl. now apply run_stores_mark_stays.
Qed.

(** Once a whole [start_time_mark] has landed, marking is on and the
    anchor is empty, whatever landed before and after it. *)
Lemma run_stores_armed (pre post : list Threads.Store) (a : Threads.Attrs) :
  let a' := Threads.run_stores (pre ++ Threads.start_time_mark ++ post) a in
  Threads.record_mark a' = true /\ Threads.start_mark_time a' = None.
Proof.
  simpl. split.
  - apply run_stores_sets_mark. apply in_or_app. right. now left.
  - apply run_stores_clears_anchor. apply in_or_app. right. right. now left.
Qed.

Lemma landed_app (xs ys : list Threads.Tick) :
  Threads.landed (xs ++ ys) = Threads.landed xs ++ Threads.landed ys.
Proof. unfold Threads.landed. now rewrite map_app, concat_app. Qed.

End Stores.

Section ThreadsLoop.

Variables (cam : Capture) (sink saved_as : string) (start_time timeout : float).
Hypothesis cam_opened : cap_opened cam = true.

Local Abbreviation loop :=
  (Threads.record_loop (Some cam) sink saved_as start_time timeout).
Local Abbreviation body :=
  (Threads.loop_body (Some cam) sink saved_as start_time timeout).

Lemma threads_body_read_fails (tick : Threads.Tick) (a : Threads.Attrs) (w : World) :
  Threads.tk_read tick = None ->
  body tick a w =
  Threads.Continue (Threads.run_stores (Threads.stores_of tick) a)
    (log WARNING "Failed to capture image from camera." w).
Proof.
  intros Hread. unfold Threads.loop_body, Threads.camera_read.
  now rewrite cam_opened, Hread.
Qed.

(** Through iterations that deliver no frame the stores land one after
    the other and nothing is written. *)
Lemma threads_loop_skips_failures (fails rest : list Threads.Tick)
    (a : Threads.Attrs) (w : World) :
  Forall (fun tk => Threads.tk_read tk = None) fails ->
  loop (fails ++ rest) a w =
  loop rest (Threads.run_stores (Threads.landed fails) a)
    (warned (List.length fails) w).
Proof.
  revert a w. induction fails as [|tk fails IH]; intros a w Hfails; [reflexivity|].
  inversion Hfails as [|? ? Htk Hrest]; subst.
  change ((tk :: fails) ++ rest) with (tk :: (fails ++ rest)).
  simpl Threads.record_loop. rewrite (threads_body_read_fails tk a w Htk).
  rewrite (IH _ _ Hrest). unfold Threads.landed. simpl.
  now rewrite run_stores_app.
Qed.

(** The marking lines when marking is on and the anchor empty at line 277,
    and the anchor is not cleared between lines 278 and 279. *)
Lemma mark_lines_armed (tick : Threads.Tick) (frame : Frame) (a : Threads.Attrs)
    (ms : Z) :
  Threads.record_mark (Threads.run_stores (Threads.tk_at_276 tick) a) = true ->
  Threads.start_mark_time (Threads.run_stores (Threads.tk_at_276 tick) a) = None ->
  Forall (fun st => st <> Threads.StoreStartMarkTime) (Threads.tk_at_279 tick) ->
  Threads.elapsed_ms (Threads.tk_now_label tick) (Threads.tk_now_anchor tick) =
    Py.Returns ms ->
  exists a4,
    Threads.mark_lines tick frame a =
      (Py.Returns (draw_timestamp frame (format_time ms)), a4) /\
    Threads.start_mark_time a4 = Some (Threads.tk_now_anchor tick).
Proof.
  intros Hmark Hanchor H279 Hms. unfold Threads.mark_lines.
  rewrite Hmark.
  rewrite (run_stores_anchor_none (Threads.tk_at_277 tick) _ Hanchor).
  set (a3 := Threads.mkAttrs _ _ (Some (Threads.tk_now_anchor tick))).
  assert (Threads.start_mark_time (Threads.run_stores (Threads.tk_at_279 tick) a3) =
          Some (Threads.tk_now_anchor tick)) as H4
    by (now rewrite run_stores_keep_anchor).
  rewrite H4, Hms. eexists. split; [reflexivity|exact H4].
Qed.

(** With marking on and an anchor stored, an iteration in which no store
    clears the anchor labels its frame against that anchor. *)
Lemma mark_lines_anchored (tick : Threads.Tick) (frame : Frame)
    (a : Threads.Attrs) (anchor : float) :
  Threads.record_mark a = true ->
  Threads.start_mark_time a = Some anchor ->
  Forall (fun st => st <> Threads.StoreStartMarkTime) (Threads.stores_of tick) ->
  exists a4,
    Threads.record_mark a4 = true /\
    Threads.start_mark_time a4 = Some anchor /\
    Threads.mark_lines tick frame a =
      (match Threads.elapsed_ms (Threads.tk_now_label tick) anchor with
       | Py.Returns ms => Py.Returns (draw_timestamp frame (format_time ms))
       | Py.Raises e => Py.Raises e
       end, a4).
Proof.
  intros Hmark Hanchor Hquiet. unfold Threads.stores_of in Hquiet.
  apply Forall_app in Hquiet as [H276 Hquiet].
  apply Forall_app in Hquiet as [H277 Hquiet].
  apply Forall_app in Hquiet as [H278 Hquiet].
  apply Forall_app in Hquiet as [H279 H288].
  unfold Threads.mark_lines.
  rewrite (run_stores_mark_stays _ _ Hmark).
  rewrite (run_stores_keep_anchor (Threads.tk_at_277 tick)) by exact H277.
  rewrite (run_stores_keep_anchor (Threads.tk_at_276 tick)) by exact H276.
  rewrite Hanchor.
  set (a2 := Threads.run_stores (Threads.tk_at_277 tick) _).
  assert (Threads.record_mark a2 = true) as Hm2
    by (unfold a2; now do 2 apply run_stores_mark_stays).
  assert (Threads.start_mark_time a2 = Some anchor) as Ha2
    by (unfold a2; now rewrite !run_stores_keep_anchor).
  set (a4 := Threads.run_stores (Threads.tk_at_279 tick)
               (Threads.run_stores (Threads.tk_at_278 tick) a2)).
  assert (Threads.start_mark_time a4 = Some anchor) as Ha4
    by (unfold a4; now rewrite !run_stores_keep_anchor).
  rewrite Ha4. exists a4.
  split; [unfold a4; now do 2 apply run_stores_mark_stays|].
  split; [exact Ha4|].
  destruct (Threads.elapsed_ms _ _); reflexivity.
Qed.

(** The loop while an anchor is stored and no store clears it. *)
Lemma threads_anchored_loop (anchor : float) (ticks : list Threads.Tick)
    (a : Threads.Attrs) (w : World) :
  Threads.record_mark a = true ->
  Threads.start_mark_time a = Some anchor ->
  Forall (fun st => st <> Threads.StoreStartMarkTime) (Threads.landed ticks) ->
  let r := loop ticks a w in
  Threads.record_mark r.1.2 = true /\
  Threads.start_mark_time r.1.2 = Some anchor /\
  exists added,
    video_frames sink r.2 = video_frames sink w ++ added /\
    added `prefix_of` omap (Threads.labelled anchor) ticks /\
    (r.1.1 = LoopRunning -> added = omap (Threads.labelled anchor) ticks).
Proof.
  revert a w. induction ticks as [|tick rest IH]; intros a w Hmark Hanchor Hquiet.
  - simpl. repeat split; auto. exists []. rewrite app_nil_r. repeat split; auto.
  - unfold Threads.landed in Hquiet. simpl in Hquiet.
    apply Forall_app in Hquiet as [Htick Hrest].
    simpl Threads.record_loop.
    unfold Threads.loop_body, Threads.camera_read. rewrite cam_opened.
    destruct (Threads.tk_read tick) as [frame|] eqn:Hread.
    + destruct (mark_lines_anchored tick frame a anchor Hmark Hanchor Htick)
        as (a4 & Hm4 & Ha4 & ->).
      assert (Forall (fun st => st <> Threads.StoreStartMarkTime)
                (Threads.tk_at_288 tick)) as H288.
      { unfold Threads.stores_of in Htick. rewrite !Forall_app in Htick. tauto. }
      destruct (Threads.elapsed_ms (Threads.tk_now_label tick) anchor)
        as [ms|e] eqn:Hms.
      * assert (omap (Threads.labelled anchor) (tick :: rest) =
                Threads.stamped frame (format_time ms) ::
                omap (Threads.labelled anchor) rest) as ->
          by (simpl; unfold Threads.labelled; now rewrite Hread, Hms).
        set (a5 := Threads.run_stores (Threads.tk_at_288 tick) a4).
        assert (Threads.record_mark a5 = true) as Hm5
          by (now apply run_stores_mark_stays).
        assert (Threads.start_mark_time a5 = Some anchor) as Ha5
          by (unfold a5; now rewrite run_stores_keep_anchor).
        destruct (Threads.is_stop_record a5 || _).
        -- simpl. repeat split; auto.
           exists [Threads.stamped frame (format_time ms)].
           split; [now rewrite ?video_frames_log, ?video_frames_write|].
           split; [|discriminate].
           now apply prefix_cons, prefix_nil.
        -- destruct (IH a5 (writer_write sink (draw_timestamp frame (format_time ms)) w)
                       Hm5 Ha5 Hrest) as (H1 & H2 & added & H3 & H4 & H5).
           split; [exact H1|]. split; [exact H2|].
           exists (Threads.stamped frame (format_time ms) :: added).
           split; [rewrite H3; rewrite ?video_frames_log, ?video_frames_write;
                   now rewrite <- app_assoc|].
           split; [now apply prefix_cons|].
           intros Hrun. now rewrite (H5 Hrun).
      * simpl. repeat split; auto. exists [].
        rewrite app_nil_r. repeat split; [apply prefix_nil|discriminate].
    + assert (omap (Threads.labelled anchor) (tick :: rest) =
              omap (Threads.labelled anchor) rest) as ->
        by (simpl; unfold Threads.labelled; now rewrite Hread).
      set (a5 := Threads.run_stores (Threads.stores_of tick) a).
      assert (Threads.record_mark a5 = true) as Hm5
        by (now apply run_stores_mark_stays).
      assert (Threads.start_mark_time a5 = Some anchor) as Ha5
        by (unfold a5; now rewrite run_stores_keep_anchor).
      destruct (IH a5 (log WARNING "Failed to capture image from camera." w)
                  Hm5 Ha5 Hrest) as (H1 & H2 & added & H3 & H4 & H5).
      split; [exact H1|]. split; [exact H2|].
      exists added. split; [rewrite H3; now rewrite ?video_frames_log, ?video_frames_write|].
      split; [exact H4|exact H5].
Qed.

End ThreadsLoop.

(** ** Labels that read [00:00:00.0xx] *)

Section NearZero.

Lemma parse_time_format_time (t : Z) :
  0 <= t -> parse_time (format_time t) = Some t.
Proof.
  intros Ht. destruct (fields_range t Ht) as (Hh & Hm & Hs & Hx & Hsum).
  rewrite format_time_fields. unfold parse_time.
  rewrite split_at_first
    by (apply all_digits_lacks; [reflexivity|apply all_digits_format_0d; lia]).
  rewrite split_at_first
    by (apply all_digits_lacks; [reflexivity|apply all_digits_format_0d; lia]).
  rewrite split_at_first
    by (apply all_digits_lacks; [reflexivity|apply all_digits_format_0d; lia]).
  rewrite !parse_field_format_0d by lia.
  now rewrite Hsum.
Qed.

Lemma format_time_minus_sign (t : Z) :
  t < 0 -> exists rest, format_time t = String "-" rest.
Proof.
  intros Ht. rewrite format_time_fields.
  assert (hours_of t < 0) as Hh.
  { unfold hours_of. rewrite Z.div_div by lia.
    apply Z.div_lt_upper_bound; lia. }
  destruct (hours_of t) as [|p|p]; try lia.
  unfold Py.format_0d. rewrite append_cons. eexists. reflexivity.
Qed.

Lemma is_digit_cases (c : ascii) :
  is_digit c = true -> exists d, (d < 10)%nat /\ c = ascii_of_nat (48 + d).
Proof.
  unfold is_digit. intros H. apply andb_true_iff in H as [H1 H2].
  apply Nat.leb_le in H1, H2.
  exists (nat_of_ascii c - 48)%nat. split; [lia|].
  replace (48 + (nat_of_ascii c - 48))%nat with (nat_of_ascii c) by lia.
  now rewrite ascii_nat_embedding.
Qed.

Lemma near_zero_cases (label : string) :
  Threads.near_zero label = true ->
  exists k, 0 <= k < 100 /\ label = format_time k.
Proof.
  unfold Threads.near_zero.
  do 12 (destruct label as [|? label]; [discriminate|]).
  destruct label; [|discriminate].
  intros H. apply andb_true_iff in H as [H H3].
  apply andb_true_iff in H as [H H2].
  apply String.eqb_eq in H. injection H as -> -> -> -> -> -> -> -> -> ->.
  apply is_digit_cases in H2 as (d2 & Hd2 & ->).
  apply is_digit_cases in H3 as (d3 & Hd3 & ->).
  exists (Z.of_nat (10 * d2 + d3)). split; [lia|].
  assert (forallb (fun x => forallb (fun y =>
            String.eqb
              (String "0" (String "0" (String ":" (String "0" (String "0"
                 (String ":" (String "0" (String "0" (String "." (String "0"
                    (String (ascii_of_nat (48 + x))
                       (String (ascii_of_nat (48 + y)) EmptyString))))))))))))
              (format_time (Z.of_nat (10 * x + y)))) (seq 0 10)) (seq 0 10) = true)
    as Hall by (vm_compute; reflexivity).
  rewrite forallb_forall in Hall.
  specialize (Hall d2 ltac:(apply in_seq; lia)).
  rewrite forallb_forall in Hall.
  specialize (Hall d3 ltac:(apply in_seq; lia)).
  now apply String.eqb_eq in Hall.
Qed.

Lemma near_zero_iff (ms : Z) :
  Threads.near_zero (format_time ms) = true <-> 0 <= ms < 100.
Proof.
  split.
  - intros H. apply near_zero_cases in H as (k & Hk & E).
    destruct (Z.lt_ge_cases ms 0) as [Hneg|Hpos].
    + exfalso. destruct (format_time_minus_sign ms Hneg) as [rest Hrest].
      rewrite Hrest, (format_time_below_100ms k Hk) in E. discriminate E.
    + apply (f_equal parse_time) in E.
      rewrite !parse_time_format_time in E by lia.
      injection E as ->. exact Hk.
  - intros Hms.
    assert (forallb (fun k => Threads.near_zero (format_time (Z.of_nat k)))
              (seq 0 100) = true) as Hall by (vm_compute; reflexivity).
    rewrite forallb_forall in Hall.
    rewrite <- (Z2Nat.id ms) by lia. apply Hall, in_seq. lia.
Qed.

End NearZero.


(** X10.  Between two calls of [start_time_mark] all labels are measured
    from one anchor.  With marking on and an anchor stored, over any
    schedule in which no store clears the anchor, the loop keeps marking
    on and the anchor unchanged, and the frames it hands to the sink are,
    in order, the frames read, each with one more text at [(10, 30)]:
    [format_time] of the milliseconds that binary64 arithmetic finds
    between the stored anchor and the reading which that frame's own
    iteration takes on line 279.  These are a leading part of what the
    schedule delivers, and all of it while the loop is still running. *)
Theorem labels_share_one_anchor
    (cam : Capture) (sink saved_as : string) (start_time timeout anchor : float)
    (ticks : list Threads.Tick) (a : Threads.Attrs) (w : World) :
  cap_opened cam = true ->
  Threads.record_mark a = true ->
  Threads.start_mark_time a = Some anchor ->
  Forall (fun st => st <> Threads.StoreStartMarkTime) (Threads.landed ticks) ->
  let r := Threads.record_loop (Some cam) sink saved_as start_time timeout
             ticks a w in
  Threads.record_mark r.1.2 = true /\
  Threads.start_mark_time r.1.2 = Some anchor /\
  exists added,
    video_frames sink r.2 = video_frames sink w ++ added /\
    added `prefix_of` omap (Threads.labelled anchor) ticks /\
    (r.1.1 = LoopRunning -> added = omap (Threads.labelled anchor) ticks).
Proof.
  intros Hcam. now apply threads_anchored_loop.
Qed.

(** X18.  [start_time_mark] is not safe to call while the loop labels a
    frame.  If marking is on when the loop reads [record_mark] for a frame
    (it was on before, or the store of line 306 has landed) and the store
    of line 307 lands after lines 277-278 and before line 279 reads the
    anchor, then line 279 subtracts [None] from a float: the iteration raises
    [TypeError], the frame is not handed to the sink, files and log are as
    the iteration found them, and the loop is over whatever the rest of
    the schedule holds. *)
Theorem late_anchor_reset_ends_recording
    (cam : Capture) (sink saved_as : string) (start_time timeout : float)
    (tick : Threads.Tick) (rest : list Threads.Tick) (frame : Frame)
    (a : Threads.Attrs) (w : World) :
  cap_opened cam = true ->
  Threads.tk_read tick = Some frame ->
  Threads.record_mark a = true \/
    In Threads.StoreRecordMark (Threads.tk_at_276 tick) ->
  In Threads.StoreStartMarkTime (Threads.tk_at_279 tick) ->
  let r := Threads.record_loop (Some cam) sink saved_as start_time timeout
             (tick :: rest) a w in
  r.1.1 = LoopRaised Py.TypeError /\ r.2 = w /\
  Threads.start_mark_time r.1.2 = None.
Proof.
  intros Hcam Hread Hmark Hlate r. subst r.
  simpl Threads.record_loop.
  unfold Threads.loop_body, Threads.camera_read. rewrite Hcam, Hread.
  unfold Threads.mark_lines.
  assert (Threads.record_mark (Threads.run_stores (Threads.tk_at_276 tick) a) = true)
    as ->.
  { destruct Hmark as [Hon|Hin];
      [now apply run_stores_mark_stays|now apply run_stores_sets_mark]. }
  rewrite (run_stores_clears_anchor (Threads.tk_at_279 tick)) by exact Hlate.
  simpl. repeat split. now apply run_stores_clears_anchor.
Qed.

(** Binary64 at work: the floats next to 0.3 and 0.1 are 199 milliseconds
    apart for the script, where the exact difference of 0.3 and 0.1 is 200
    milliseconds. *)
Example elapsed_ms_rounds :
  Threads.elapsed_ms 0x1.3333333333333p-2 0x1.999999999999ap-4 = Py.Returns 199 /\
  elapsed_label (3 # 10) (1 # 10) = "00:00:00.200".
Proof. split; vm_compute; reflexivity. Qed.

Example int_of_float_truncates :
  Threads.int_of_float (-2.75) = Py.Returns (-2) /\
  Threads.int_of_float 0x1p-1074 = Py.Returns 0 /\
  Threads.int_of_float (PrimFloat.div 0 0) = Py.Raises Py.OtherException /\
  Threads.int_of_float infinity = Py.Raises Py.OtherException.
Proof. vm_compute. repeat split; reflexivity. Qed.

(** A clock that steps back between line 278 and line 279. *)
Example elapsed_ms_backwards :
  Threads.elapsed_ms 103 103.125 = Py.Returns (-125) /\
  format_time (-125) = "-1:59:59.875".
Proof. vm_compute. split; reflexivity. Qed.

(* ===================================================================== *)
(** * The rest of the script on a concrete run *)
(* ===================================================================== *)

(** Witness for X1. *)
Lemma create_directory_makes_run_dir_witness :
  Py.starts_with_sep DemoMore.time_str = false /\
  path_exists "/home/user/Videos/20240426_214100" DemoMore.empty_world = false /\
  (create_directory DemoMore.cwd DemoMore.time_str DemoMore.empty_world).1 =
    Py.Returns "/home/user/Videos/20240426_214100".
Proof.
  split; [reflexivity|]. split; [vm_compute; reflexivity|].
  apply (create_directory_makes_run_dir DemoMore.cwd DemoMore.time_str
           DemoMore.empty_world);
    vm_compute; reflexivity.
Defined.

(** Witness for X2. *)
Lemma create_directory_twice_raises_witness :
  let r := create_directory DemoMore.cwd DemoMore.time_str DemoMore.empty_world in
  r.1 = Py.Returns "/home/user/Videos/20240426_214100" /\
  create_directory DemoMore.cwd DemoMore.time_str r.2 =
    (Py.Raises Py.OtherException, r.2).
Proof.
  intros r. split; [reflexivity|].
  apply (create_directory_twice_raises DemoMore.cwd DemoMore.time_str
           "/home/user/Videos/20240426_214100" DemoMore.empty_world r.2).
  reflexivity.
Defined.

(** Witness for X5: one frame, then the frame on which [q] is pressed. *)
Lemma preview_ends_after_showing_frame_witness :
  camera Demo.opened = Some DemoMore.handle /\
  pv_key DemoMore.pv_quit = ord_q /\
  let r := show_live_camera 100 60 ([DemoMore.pv_frame1] ++ DemoMore.pv_quit :: [])
             Demo.opened Demo.world0 DemoMore.blank in
  r.1 = (PreviewReturned, Demo.opened, Demo.world0) /\
  List.length (sc_shown r.2) = 2%nat /\ sc_open r.2 = false.
Proof.
  split; [reflexivity|]. split; [reflexivity|]. intros r.
  destruct (preview_ends_after_showing_frame 100 60 [DemoMore.pv_frame1]
              DemoMore.pv_quit [] Demo.frame2 Demo.opened Demo.world0
              DemoMore.blank DemoMore.handle)
    as (H1 & H2 & H3 & H4 & _).
  - reflexivity.
  - reflexivity.
  - constructor; [|constructor]. split; [now exists Demo.frame1|].
    split; [discriminate|]. unfold Qle. simpl. lia.
  - reflexivity.
  - left. reflexivity.
  - split; [exact H1|]. split; [|exact H3].
    fold r in H2. rewrite H2, length_app, H4. reflexivity.
Defined.

(** Witness for X6: one frame, then a read that delivers nothing. *)
Lemma preview_read_failure_exits_witness :
  camera Demo.opened = Some DemoMore.handle /\
  pv_read DemoMore.pv_fail = None /\
  let r := show_live_camera 100 60 ([DemoMore.pv_frame1] ++ DemoMore.pv_fail :: [])
             Demo.opened Demo.world0 DemoMore.blank in
  r.1.1.1 = PreviewRaised (Py.SystemExit 1) /\
  camera_is_opened r.1.1.2 = false /\
  List.length (sc_shown r.2) = 1%nat.
Proof.
  split; [reflexivity|]. split; [reflexivity|]. intros r.
  destruct (preview_read_failure_exits 100 60 [DemoMore.pv_frame1]
              DemoMore.pv_fail [] Demo.opened Demo.world0 DemoMore.blank
              DemoMore.handle)
    as (H1 & _ & H3 & _ & _ & H6).
  - reflexivity.
  - constructor; [|constructor]. split; [now exists Demo.frame1|].
    split; [discriminate|]. unfold Qle. simpl. lia.
  - right. reflexivity.
  - right. reflexivity.
  - split; [exact H1|]. split; [exact H3|].
    fold r in H6. rewrite H6. reflexivity.
Defined.

(** Witness for X8: a stop request and a frame the closed handle never
    hands over. *)
Lemma recording_never_ends_on_dead_camera_witness :
  camera_is_opened Demo.fresh = false /\
  let r := start_record (DemoMore.dead_env [Demo.tick_stop_frame2; Demo.tick_late_frame2])
             (Some Demo.out_dir) (Py.VStr "case") (Py.VInt 1) 60
             Demo.fresh Demo.world0 in
  r.1.1 = LoopRunning /\ video_frames Demo.avi r.2 = [].
Proof.
  split; [reflexivity|]. intros r.
  destruct (recording_never_ends_on_dead_camera
              (DemoMore.dead_env [Demo.tick_stop_frame2; Demo.tick_late_frame2])
              Demo.out_dir (Py.VStr "case") (Py.VInt 1) 60 Demo.fresh Demo.world0)
    as (H1 & H2 & _); try reflexivity.
  split; [exact H1|exact H2].
Defined.

(** Witness for X11. *)
Lemma distinct_counts_distinct_artifacts_witness :
  1 <> 2 /\
  filename (start_record (Demo.env []) (Some Demo.out_dir) (Py.VStr "case")
              (Py.VInt 1) 60 Demo.opened Demo.world0).1.2
  <>
  filename (start_record (Demo.env []) (Some Demo.out_dir) (Py.VStr "case")
              (Py.VInt 2) 60 Demo.opened Demo.world0).1.2.
Proof.
  split; [lia|].
  apply (distinct_counts_distinct_artifacts (Demo.env []) (Demo.env []));
    [reflexivity|lia].
Defined.

(** Witness for X15: a fresh object, never opened, records one frame. *)
Lemma start_record_opens_camera_itself_witness :
  camera_is_opened Demo.fresh = false /\
  In CallStopRecord (tk_calls Demo.tick_stop_frame2) /\
  let r := start_record (Demo.env [Demo.tick_stop_frame2]) (Some Demo.out_dir)
             (Py.VStr "case") (Py.VInt 1) 60 Demo.fresh Demo.world0 in
  r.1.1 = LoopBroke /\
  camera r.1.2 = Some {| cap_opened := true; cap_release_calls := 0 |} /\
  w_files r.2 !! Demo.avi = Some (VideoFile [Demo.frame2]).
Proof.
  split; [reflexivity|]. split; [left; reflexivity|]. intros r.
  destruct (start_record_opens_camera_itself (Demo.env [Demo.tick_stop_frame2])
              Demo.out_dir (Py.VStr "case") (Py.VInt 1) 60 Demo.fresh Demo.world0
              Demo.tick_stop_frame2 [] Demo.frame2)
    as (H1 & H2 & _ & _ & _ & H6 & _); try reflexivity.
  - left. reflexivity.
  - constructor; [discriminate|constructor].
  - split; [exact H1|]. split; [exact H2|exact H6].
Defined.


(** Witness for X17: a frame and a failed read, no marking. *)
Lemma unmarked_frames_are_stored_as_delivered_witness :
  camera_is_opened Demo.opened = true /\ params_known Demo.opened /\
  let r := start_record (Demo.env [Demo.tick_frame1; Demo.tick_fail])
             (Some Demo.out_dir) (Py.VStr "case") (Py.VInt 1) 60
             Demo.opened Demo.world0 in
  r.1.1 = LoopRunning /\ video_frames Demo.avi r.2 = [Demo.frame1].
Proof.
  assert (params_known Demo.opened) as Hp by (repeat split; eexists; reflexivity).
  split; [reflexivity|]. split; [exact Hp|]. intros r.
  destruct (unmarked_frames_are_stored_as_delivered
              (Demo.env [Demo.tick_frame1; Demo.tick_fail]) Demo.out_dir
              (Py.VStr "case") (Py.VInt 1) 60 Demo.opened Demo.world0)
    as [_ H2].
  - reflexivity.
  - exact Hp.
  - constructor.
  - assert (r.1.1 = LoopRunning) as Hr by (vm_compute; reflexivity).
    split; [exact Hr|]. apply (H2 Hr).
Defined.

(** Witness for X4: ten seconds in, then twenty-seven and a half, of a
    minute. *)
Lemma countdown_runs_down_to_zero_witness :
  (10 <= 55 # 2)%Q /\
  remaining_time 60 (55 # 2) <= remaining_time 60 10 /\
  countdown_clock 60 (55 # 2) = "Countdown Clock: 00:32".
Proof.
  assert (10 <= 55 # 2)%Q as H by (unfold Qle; simpl; lia).
  split; [exact H|].
  destruct (countdown_runs_down_to_zero 60 10 (55 # 2) H)
    as ([_ H1] & _ & _ & _ & H2 & _).
  split; [exact H1|].
  destruct H2 as [H2 _]; [vm_compute; reflexivity|]. exact H2.
Defined.

(** Witness for X10: anchored at 103, one failed read and a frame read at
    104.5. *)
Lemma labels_share_one_anchor_witness :
  let a := Threads.marking in
  let r := Threads.record_loop (Some Threads.handle) Demo.avi "a.avi" 100 60
             [Threads.tick_fail; Threads.tick_frame2] a Demo.world0 in
  Threads.start_mark_time r.1.2 = Some 103%float /\
  video_frames Demo.avi r.2 = [Threads.stamped Demo.frame2 "00:00:01.500"].
Proof.
  intros a r.
  destruct (labels_share_one_anchor Threads.handle Demo.avi "a.avi" 100 60 103
              [Threads.tick_fail; Threads.tick_frame2] a Demo.world0)
    as (_ & H2 & added & H3 & _ & H5).
  - reflexivity.
  - reflexivity.
  - reflexivity.
  - constructor.
  - split; [exact H2|].
    fold r in H3, H5. rewrite H3, H5 by (vm_compute; reflexivity).
    vm_compute. reflexivity.
Defined.

(** Witness for X18: marking is on, and [start_time_mark()] is called
    again between the test of line 277 and the subtraction of line 279. *)
Lemma late_anchor_reset_ends_recording_witness :
  let r := Threads.record_loop (Some Threads.handle) Demo.avi "a.avi" 100 60
             [Threads.tick_mark_again; Threads.tick_frame1]
             Threads.marking Demo.world0 in
  r.1.1 = LoopRaised Py.TypeError /\ video_frames Demo.avi r.2 = [].
Proof.
  intros r.
  destruct (late_anchor_reset_ends_recording Threads.handle Demo.avi "a.avi"
              100 60 Threads.tick_mark_again [Threads.tick_frame1] Demo.frame2
              Threads.marking Demo.world0)
    as (H1 & H2 & _).
  - reflexivity.
  - reflexivity.
  - left. reflexivity.
  - right. left. reflexivity.
  - fold r in H1, H2. split; [exact H1|]. rewrite H2. reflexivity.
Defined.

(** Witness for X13: the first recording and its two frames. *)
Lemma recorded_frames_are_extracted_witness :
  Disk.start_record true
    (Demo.env [Demo.tick_mark_frame1; Demo.tick_stop_frame2])
    (Some Demo.out_dir) (Py.VStr "case") (Py.VInt 1) 60
    Demo.opened Demo.world0 =
    (LoopBroke, Demo.session1.1.2, Demo.session1.2) /\
  exists frames,
    frames <> [] /\
    w_files Demo.session1.2 !! Demo.avi = Some (VideoFile frames) /\
    (video_slice Demo.session1.1.2 Demo.session1.2).1 = Py.Returns Py.VNone /\
    w_files (video_slice Demo.session1.1.2 Demo.session1.2).2 !! Demo.avi =
      Some (VideoFile frames).
Proof.
  assert (Disk.start_record true
            (Demo.env [Demo.tick_mark_frame1; Demo.tick_stop_frame2])
            (Some Demo.out_dir) (Py.VStr "case") (Py.VInt 1) 60
            Demo.opened Demo.world0 =
          (LoopBroke, Demo.session1.1.2, Demo.session1.2)) as Hrun
    by (vm_compute; reflexivity).
  split; [exact Hrun|].
  destruct (recorded_frames_are_extracted true _ _ _ _ _ _ _ _ _ Hrun)
    as (dir & Hdir & frames & Hne & H1 & H2 & _ & H4).
  injection Hdir as <-. exists frames.
  split; [exact Hne|]. split; [exact H1|]. split; [exact H2|exact H4].
Defined.

(** Witness for X14. *)
Lemma video_slice_is_repeatable_witness :
  Disk.start_record true
    (Demo.env [Demo.tick_mark_frame1; Demo.tick_stop_frame2])
    (Some Demo.out_dir) (Py.VStr "case") (Py.VInt 1) 60
    Demo.opened Demo.world0 =
    (LoopBroke, Demo.session1.1.2, Demo.session1.2) /\
  let r1 := video_slice Demo.session1.1.2 Demo.session1.2 in
  let r2 := video_slice Demo.session1.1.2 r1.2 in
  r2.1 = Py.Returns Py.VNone /\ w_files r2.2 = w_files r1.2.
Proof.
  assert (Disk.start_record true
            (Demo.env [Demo.tick_mark_frame1; Demo.tick_stop_frame2])
            (Some Demo.out_dir) (Py.VStr "case") (Py.VInt 1) 60
            Demo.opened Demo.world0 =
          (LoopBroke, Demo.session1.1.2, Demo.session1.2)) as Hrun
    by (vm_compute; reflexivity).
  split; [exact Hrun|]. intros r1 r2.
  destruct (video_slice_is_repeatable _ _ _ _ _ _ _ _ _ Hrun) as (H1 & H2 & _).
  split; [exact H1|exact H2].
Defined.

(* ===================================================================== *)
(** * The loop at the grain of attribute stores, on a concrete run *)
(* ===================================================================== *)


